(** * BayesBets: the Betfair stream cleaner ([clean_data.py], [main.py])

    A shallow embedding of [read_betfair_bz2], [parse_betfair_stream],
    [create_reference_tables], [process_month] and [main], and the
    properties of the normalisation, deduplication and aggregation they
    implement.

    Modelling conventions.
    - A decoded JSON value is a [json]; Python's [None] (and the [NaN]
      pandas puts in a missing cell) is [JNull].  A number is the
      rational it denotes, in lowest terms: [1] and [1.0] are the same
      value, as they are for Python's [==].
    - The repository's own code is modelled with the exceptions Python
      raises on dynamically ill-typed data ([.get] on a non-dict,
      iteration over a non-iterable, ...): fallible code lives in the
      [result] monad.  All of them are subclasses of [Exception], which
      is what the [except] clauses of the code catch.
    - A pandas table built from a list of dicts is the list of its rows.
      [drop_duplicates] and [sort_values] hash the cells of their key
      columns: they raise [TypeError] on a cell that is a list or a dict,
      and otherwise compare cells as Python does, [True] and [False]
      being the numbers [1] and [0].  [drop_duplicates] keeps the first
      row of each key in table order; [sort_values] on two columns is the
      stable sort in which numbers come before strings and missing cells
      last.
    - pandas stores the numbers of a column that holds a missing cell or
      a fraction as 64-bit floats.  The model keeps every number as it
      was decoded: it is the behaviour of the code on inputs whose
      integers have magnitude at most 2^53 ([exact]), and the statements
      that compare the cells of a table with the cells of the input, or
      that give the order of a table, assume it.
    - [pd.read_json] is the decoder: a file carries what it returns or
      raises.  [pd.to_datetime], [int] on a directory name and
      [to_parquet] are not interpreted: the development is parametric in
      them (Section variables), so every theorem holds whatever they
      return or raise.
    - The file system is taken to work: [mkdir], [iterdir], [rglob] and
      [glob] return. *)

From Stdlib Require Import List ZArith QArith Bool String Ascii Lia.
From Stdlib Require Import Permutation Sorted DecimalString.
Import ListNotations.
Close Scope Q_scope.
Open Scope bool_scope.
Open Scope string_scope.
Open Scope list_scope.

Set Implicit Arguments.
Set Warnings "-register-all".

(** ** Decoded JSON values *)

Inductive json : Type :=
| JNull
| JBool (b : bool)
| JNum (q : Q)
| JStr (s : string)
| JList (l : list json)
| JObj (fields : list (string * json)).

Definition Q_eq_dec (x y : Q) : {x = y} + {x <> y}.
Proof. decide equality; [apply Pos.eq_dec | apply Z.eq_dec]. Defined.

Fixpoint json_eq_dec (a b : json) {struct a} : {a = b} + {a <> b}.
Proof.
  decide equality.
  - apply Bool.bool_dec.
  - apply Q_eq_dec.
  - apply string_dec.
  - revert l0. induction l as [|x l IH]; intros [|y l'].
    + left; reflexivity.
    + right; discriminate.
    + right; discriminate.
    + destruct (json_eq_dec x y) as [->|N].
      * destruct (IH l') as [->|N']; [left; reflexivity | right; congruence].
      * right; congruence.
  - revert fields0. induction fields as [|[k x] l IH]; intros [|[k' y] l'].
    + left; reflexivity.
    + right; discriminate.
    + right; discriminate.
    + destruct (string_dec k k') as [->|N]; [|right; congruence].
      destruct (json_eq_dec x y) as [->|N]; [|right; congruence].
      destruct (IH l') as [->|N']; [left; reflexivity | right; congruence].
Defined.

Definition json_eqb (a b : json) : bool :=
  if json_eq_dec a b then true else false.

(** ** Cells as pandas compares them *)

(** A list or a dict cannot be hashed: [drop_duplicates] and
    [sort_values] raise [TypeError] on a key column that holds one. *)
Definition hashable (v : json) : bool :=
  match v with
  | JList _ => false
  | JObj _ => false
  | _ => true
  end.

(** The value under which a hashable cell is filed: [True] and [False]
    are the numbers [1] and [0] ([True == 1], with the same hash), and a
    number is its value. *)
Definition pandas_key (v : json) : json :=
  match v with
  | JBool b => JNum (if b then 1 # 1 else 0 # 1)
  | JNum q => JNum (Qred q)
  | _ => v
  end.

(** Equality of key tuples: the tuples of filed values are the same. *)
Definition key_eqb (k1 k2 : list json) : bool :=
  if list_eq_dec json_eq_dec k1 k2 then true else false.

(** Every integer in the value has magnitude at most 2^53: a column of
    64-bit floats holds it exactly. *)
Fixpoint exact (v : json) : bool :=
  match v with
  | JNum q =>
      negb (Pos.eqb (Qden (Qred q)) 1)
      || Z.leb (Z.abs (Qnum (Qred q))) (2 ^ 53)
  | JList l => forallb exact l
  | JObj fields => forallb (fun kv => match kv with (_, x) => exact x end) fields
  | _ => true
  end.

(** ** Exceptions and the error monad *)

Inductive exn : Type :=
| AttributeError
| TypeError
| KeyError
| ValueError
| OtherException.

Inductive result (A : Type) : Type :=
| Ok (a : A)
| Raise (e : exn).
Arguments Ok {A} a.
Arguments Raise {A} e.

Definition bind {A B} (m : result A) (k : A -> result B) : result B :=
  match m with
  | Ok a => k a
  | Raise e => Raise e
  end.

Declare Scope result_scope.
Delimit Scope result_scope with result.
Notation "x <- m ;; k" := (bind m (fun x => k))
  (at level 61, m at next level, right associativity) : result_scope.
Notation "' pat <- m ;; k" := (bind m (fun x => match x with pat => k end))
  (at level 61, pat pattern, m at next level, right associativity) : result_scope.
Open Scope result_scope.

(** A [for] loop whose body may raise: the accumulated state is threaded
    through the iterations and an exception leaves the loop at once. *)
Fixpoint for_each {S A} (body : S -> A -> result S) (xs : list A) (s : S)
  : result S :=
  match xs with
  | [] => Ok s
  | x :: xs' => s' <- body s x ;; for_each body xs' s'
  end.

(** ** Python operations on decoded values *)

Fixpoint lookup (k : string) (fields : list (string * json)) : option json :=
  match fields with
  | [] => None
  | (k', v) :: rest => if String.eqb k k' then Some v else lookup k rest
  end.

(** [o.get(k)]: only a dict has the method; a missing key gives [None]. *)
Definition py_get (o : json) (k : string) : result json :=
  match o with
  | JObj fields =>
      match lookup k fields with
      | Some v => Ok v
      | None => Ok JNull
      end
  | _ => Raise AttributeError
  end.

Fixpoint is_infix (p s : string) : bool :=
  if String.prefix p s then true
  else match s with
       | EmptyString => false
       | String _ s' => is_infix p s'
       end.

(** [k in o]: key test on a dict, element test on a list, substring test
    on a string, [TypeError] on anything else. *)
Definition py_contains (k : string) (o : json) : result bool :=
  match o with
  | JObj fields =>
      Ok (match lookup k fields with Some _ => true | None => false end)
  | JList l => Ok (existsb (json_eqb (JStr k)) l)
  | JStr s => Ok (is_infix k s)
  | _ => Raise TypeError
  end.

(** [o[k]] with a string key. *)
Definition py_getitem (o : json) (k : string) : result json :=
  match o with
  | JObj fields =>
      match lookup k fields with
      | Some v => Ok v
      | None => Raise KeyError
      end
  | _ => Raise TypeError
  end.

Fixpoint chars (s : string) : list json :=
  match s with
  | EmptyString => []
  | String c s' => JStr (String c EmptyString) :: chars s'
  end.

(** The elements a [for] loop over [o] visits. *)
Definition py_iter (o : json) : result (list json) :=
  match o with
  | JList l => Ok l
  | JObj fields => Ok (map (fun kv => JStr (fst kv)) fields)
  | JStr s => Ok (chars s)
  | _ => Raise TypeError
  end.

(** Truth value of a decoded value, as [if x] tests it. *)
Definition py_truthy (v : json) : bool :=
  match v with
  | JNull => false
  | JBool b => b
  | JNum q => negb (Z.eqb (Qnum q) 0)
  | JStr s => negb (String.eqb s "")
  | JList l => match l with [] => false | _ => true end
  | JObj f => match f with [] => false | _ => true end
  end.

Definition is_null (v : json) : bool :=
  match v with JNull => true | _ => false end.

(** [np.asarray(l, dtype=object)] has exactly one cell when [l] is a chain
    of one-element lists around a value that is not a list; this is that
    cell. *)
Fixpoint np_only_cell (v : json) : option json :=
  match v with
  | JList [x] =>
      match x with
      | JList _ => np_only_cell x
      | _ => Some x
      end
  | _ => None
  end.

(** [bool(pd.isna(v))].  On a list [pd.isna] answers with an array, whose
    truth value is that of its only cell, and is an error ([ValueError])
    when the array has several cells; an empty array is false (or the same
    [ValueError], depending on the numpy at hand: the caller treats both
    alike). *)
Definition isna_truth (v : json) : result bool :=
  match v with
  | JNull => Ok true
  | JList [] => Ok false
  | JList _ =>
      match np_only_cell v with
      | Some x => Ok (is_null x)
      | None => Raise ValueError
      end
  | _ => Ok false
  end.

(** [try: if pd.isna(v): continue / except (ValueError, TypeError): pass]:
    [true] when the record is skipped. *)
Definition skip_if_na (v : json) : result bool :=
  match isna_truth v with
  | Ok b => Ok b
  | Raise ValueError => Ok false
  | Raise TypeError => Ok false
  | Raise e => Raise e
  end.

(** [row.mc if isinstance(row.mc, list) else [row.mc]] *)
Definition mc_data_of (v : json) : list json :=
  match v with
  | JList l => l
  | _ => [v]
  end.

(** ** Tables *)

(** A pandas timestamp: an instant, or [NaT]. *)
Inductive timestamp : Type :=
| NaT
| Timestamp (instant : Z).

Module Market.
Record t : Type := mk
  { market_id : json;
    publish_time : option timestamp;
    status : json;
    in_play : json;
    number_of_active_runners : json;
    total_matched : json;
    version : json }.
End Market.

Module RunnerStatic.
Record t : Type := mk
  { market_id : json;
    publish_time : option timestamp;
    runner_id : json;
    runner_name : json;
    status : json;
    removal_date : option timestamp }.
End RunnerStatic.

Module RunnerChange.
Record t : Type := mk
  { market_id : json;
    publish_time : option timestamp;
    runner_id : json;
    ltp : json;
    tv : json;
    batb : json;
    batl : json;
    spn : json;
    spf : json }.
End RunnerChange.

Module MarketMeta.
Record t : Type := mk
  { market_id : json;
    event_id : json;
    event_name : json;
    event_type_id : json;
    market_name : json;
    market_type : json;
    market_time : option timestamp;
    venue : json;
    country_code : json;
    number_of_winners : json }.
End MarketMeta.

Module RunnerMeta.
Record t : Type := mk
  { market_id : json;
    runner_id : json;
    runner_name : json }.
End RunnerMeta.

(** One line of a decoded file, reduced to the two cells the code reads:
  [mc] is [JNull] where the line has no such field; [pt] is the nullable
  integer column ([None] is [<NA>]). *)
Record RawRow : Type := mkRawRow
{ mc : json;
  pt : option Z }.

(** The frame [pd.read_json(..., lines=True)] returns: its column names
  and its lines. *)
Record DataFrame : Type := mkDataFrame
{ columns : list string;
  rows : list RawRow }.

Definition has_column (c : string) (df : DataFrame) : bool :=
existsb (String.eqb c) (columns df).

(** [df.empty]: no column or no line. *)
Definition empty (df : DataFrame) : bool :=
match columns df, rows df with
| [], _ => true
| _, [] => true
| _, _ => false
end.

(** [pd.DataFrame()] *)
Definition empty_frame : DataFrame := mkDataFrame [] [].

(** The three lists [parse_betfair_stream] appends to. *)
Record Streams : Type := mkStreams
{ market_records : list Market.t;
  runner_static_records : list RunnerStatic.t;
  runner_change_records : list RunnerChange.t }.

Definition no_streams : Streams := mkStreams [] [] [].

Definition append_market (st : Streams) (r : Market.t) : Streams :=
mkStreams (market_records st ++ [r]) (runner_static_records st)
          (runner_change_records st).

Definition append_runner_static (st : Streams) (r : RunnerStatic.t) : Streams :=
mkStreams (market_records st) (runner_static_records st ++ [r])
          (runner_change_records st).

Definition append_runner_change (st : Streams) (r : RunnerChange.t) : Streams :=
mkStreams (market_records st) (runner_static_records st)
          (runner_change_records st ++ [r]).


(** ** Table operations *)

Section DropDuplicates.
Variable R : Type.
(** The cells of the [subset] columns of a row. *)
Variable key : R -> list json.

(** The table is read from the top and a row is kept when its key has
    not been seen yet. *)
Fixpoint drop_duplicates_from (seen : list (list json)) (t : list R)
  : list R :=
  match t with
  | [] => []
  | r :: t' =>
      if existsb (key_eqb (key r)) seen
      then drop_duplicates_from seen t'
      else r :: drop_duplicates_from (key r :: seen) t'
  end.

(** [keep="first"] *)
Definition keep_first (t : list R) : list R :=
  drop_duplicates_from [] t.
End DropDuplicates.

(** The cells of the [subset] columns of a row, as they are filed. *)
Definition pandas_keys {R} (subset : R -> list json) (r : R) : list json :=
  map pandas_key (subset r).

(** [drop_duplicates(subset=..., keep="first")]: every cell of the
    subset columns is hashed, which raises [TypeError] on a list or a
    dict; then the first row of each key is kept. *)
Definition drop_duplicates {R} (subset : R -> list json) (t : list R)
  : result (list R) :=
  if forallb (fun r => forallb hashable (subset r)) t
  then Ok (keep_first (pandas_keys subset) t)
  else Raise TypeError.

Section StableSort.
Variable R : Type.
Variable leb : R -> R -> bool.

Fixpoint insert_sorted (x : R) (l : list R) : list R :=
  match l with
  | [] => [x]
  | y :: l' => if leb x y then x :: l else y :: insert_sorted x l'
  end.

(** The stable sort of a list: equal elements keep their order. *)
Fixpoint stable_sort (l : list R) : list R :=
  match l with
  | [] => []
  | x :: l' => insert_sorted x (stable_sort l')
  end.
End StableSort.

(** Order of the cells of a sort column, as the sorted categories of the
  column have it: numbers (the booleans among them) by value, then
  strings as Python orders them, then missing cells
  ([na_position="last"]).  Cells that cannot be hashed have no place in
  it: [sort_values] raises on them. *)
Definition sort_rank (v : json) : nat :=
match pandas_key v with
| JNum _ => 0
| JStr _ => 1
| JNull => 3
| _ => 2
end.

Definition cell_leb (a b : json) : bool :=
match pandas_key a, pandas_key b with
| JNum x, JNum y => Qle_bool x y
| JStr x, JStr y => String.leb x y
| _, _ => Nat.leb (sort_rank a) (sort_rank b)
end.

(** Order of the cells of a timestamp column: [None] and [NaT] go last. *)
Definition time_leb (a b : option timestamp) : bool :=
match a, b with
| Some (Timestamp x), Some (Timestamp y) => Z.leb x y
| Some (Timestamp _), _ => true
| _, Some (Timestamp _) => false
| _, _ => true
end.

(** Lexicographic order on [(market_id, publish_time)]. *)
Definition sort_key_leb (k1 k2 : json * option timestamp) : bool :=
if cell_leb (fst k1) (fst k2)
then if cell_leb (fst k2) (fst k1)
     then time_leb (snd k1) (snd k2)
     else true
else false.

(** The stable sort of the rows on the two columns. *)
Definition lexsort {R} (sort_key : R -> json * option timestamp)
  (t : list R) : list R :=
stable_sort (fun x y => sort_key_leb (sort_key x) (sort_key y)) t.

(** [sort_values(["market_id", "publish_time"])]: the cells of the sort
  columns are hashed to number their values, which raises [TypeError] on
  a market id that is a list or a dict; the rows are then sorted, tied
  rows staying in table order. *)
Definition sort_values {R} (sort_key : R -> json * option timestamp)
  (t : list R) : result (list R) :=
if forallb (fun r => hashable (fst (sort_key r))) t
then Ok (lexsort sort_key t)
else Raise TypeError.

(** [str(n)] *)
Definition py_str (n : Z) : string :=
NilZero.string_of_int (Z.to_int n).

(** ** The input tree *)

(** A [.bz2] file: its name and what [pd.read_json] makes of it. *)
Record File : Type := mkFile
{ file_name : string;
  read_json : result DataFrame }.

(** A day directory and the files [rglob("*.bz2")] lists under it, in the
  order it lists them. *)
Record DayDir : Type := mkDayDir
{ name : string;
  bz2_files : list File }.

(** The month directory ([None] when it does not exist; otherwise its
  sub-directories in [iterdir] order) and the names of the parquet files
  already present under the output [daily_prices] directory. *)
Record Tree : Type := mkTree
{ month_path : option (list DayDir);
  daily_prices_dir : list string }.

(** The accumulators of [process_month]. *)
Record Buffers : Type := mkBuffers
{ all_markets : list (list Market.t);
  all_runner_static : list (list RunnerStatic.t);
  all_raw_dfs : list DataFrame;
  day_runner_changes : list (list RunnerChange.t) }.

(** The returned dict. *)
Record Summary : Type := mkSummary
{ year : Z;
  month : string;
  num_markets : nat;
  num_runners : nat;
  num_daily_files : nat }.

(** What a completed run leaves behind: the four monthly tables (an
  empty one is not written), the daily files in the order they were
  written, and the returned dict. *)
Record MonthOutput : Type := mkMonthOutput
{ market_ref : list MarketMeta.t;
  runner_ref : list RunnerMeta.t;
  combined_markets : list Market.t;
  combined_runner_static : list RunnerStatic.t;
  daily_prices : list (string * list RunnerChange.t);
  summary : Summary }.

(** The lists [create_reference_tables] appends to. *)
Record Metadata : Type := mkMetadata
{ market_metadata : list MarketMeta.t;
  runner_metadata : list RunnerMeta.t }.

(** A table handed to [to_parquet]. *)
Inductive Table : Type :=
| MarketReference (t : list MarketMeta.t)
| RunnerReference (t : list RunnerMeta.t)
| MarketTimeline (t : list Market.t)
| RunnerStatus (t : list RunnerStatic.t)
| RunnerPrices (t : list RunnerChange.t).

Definition try_except {A} (body : result A) (handler : exn -> result A)
: result A :=
match body with
| Ok a => Ok a
| Raise e => handler e
end.

(** [range(0, stop, step)] *)
Definition range_step (stop step : nat) : list nat :=
map (fun k => k * step) (seq 0 ((stop + step - 1) / step)).

(** [l[i:j]] *)
Definition slice {A} (l : list A) (i j : nat) : list A :=
firstn (j - i) (skipn i l).

Definition batch_size : nat := 100.

(** ** Sample inputs *)

Module Sample.

(** A stand-in for [int] on a directory name, to run the model: it is
    [int] on the names written in ASCII. *)
Definition is_space (c : ascii) : bool :=
let n := nat_of_ascii c in
Nat.eqb n 32 || (Nat.leb 9 n && Nat.leb n 13) || (Nat.leb 28 n && Nat.leb n 31).

Definition digit_of (c : ascii) : option Z :=
let n := nat_of_ascii c in
if Nat.leb 48 n && Nat.leb n 57 then Some (Z.of_nat (n - 48)) else None.

Fixpoint all_space (s : string) : bool :=
match s with
| EmptyString => true
| String c s' => is_space c && all_space s'
end.

Fixpoint lstrip (s : string) : string :=
match s with
| EmptyString => EmptyString
| String c s' => if is_space c then lstrip s' else s
end.

(** Decimal digits, single underscores allowed between two digits, then
  optional white space. *)
Fixpoint digits (s : string) (acc : Z) (after_digit : bool) : option Z :=
match s with
| EmptyString => if after_digit then Some acc else None
| String c s' =>
    match digit_of c with
    | Some d => digits s' (10 * acc + d)%Z true
    | None =>
        if after_digit
        then if Ascii.eqb c "_" then digits s' acc false
             else if all_space s then Some acc else None
        else None
    end
end.

Definition py_int (s : string) : result Z :=
let body :=
  match lstrip s with
  | String "-" s' => option_map Z.opp (digits s' 0%Z false)
  | String "+" s' => digits s' 0%Z false
  | s' => digits s' 0%Z false
  end in
match body with
| Some z => Ok z
| None => Raise ValueError
end.

(** A stand-in for [to_parquet]: a writer that accepts every table. *)
Definition to_parquet (t : Table) (path : string) : result unit := Ok tt.

(** Stand-ins for [pd.to_datetime], to run the model: an instant is its
    number of milliseconds, and a date string is a string of digits. *)
Definition to_datetime (v : json) : result timestamp :=
  match v with
  | JStr s => match py_int s with
              | Ok z => Ok (Timestamp z)
              | Raise e => Raise e
              end
  | _ => Raise TypeError
  end.

Definition to_datetime_ms (v : option Z) : result timestamp :=
  match v with
  | Some z => Ok (Timestamp z)
  | None => Ok NaT
  end.

Definition num (z : Z) : json := JNum (inject_Z z).

(** The two lines of the example scenario: a definition of market 1.23
    with one runner, then a price change of that runner. *)
Definition runner_entry : json :=
  JObj [("id", JStr "10"); ("name", JStr "A"); ("status", JStr "ACTIVE")].

Definition definition : json :=
  JObj [("status", JStr "OPEN"); ("inPlay", JBool false);
        ("numberOfActiveRunners", num 2); ("totalMatched", JNum (201 # 2));
        ("version", num 1); ("runners", JList [runner_entry])].

Definition definition_block : json :=
  JObj [("id", JStr "1.23"); ("marketDefinition", definition)].

Definition change_entry : json :=
  JObj [("id", JStr "10"); ("ltp", JNum (5 # 2)); ("tv", num 50)].

Definition change_block : json :=
  JObj [("id", JStr "1.23"); ("rc", JList [change_entry])].

Definition line1 : RawRow := mkRawRow (JList [definition_block]) (Some 1700000000000%Z).
Definition line2 : RawRow := mkRawRow (JList [change_block]) (Some 1700000001000%Z).

Definition frame : DataFrame := mkDataFrame ["op"; "clk"; "pt"; "mc"] [line1; line2].

Definition market_row : Market.t :=
  Market.mk (JStr "1.23") (Some (Timestamp 1700000000000)) (JStr "OPEN")
            (JBool false) (num 2) (JNum (201 # 2)) (num 1).

Definition runner_row : RunnerStatic.t :=
  RunnerStatic.mk (JStr "1.23") (Some (Timestamp 1700000000000)) (JStr "10")
                  (JStr "A") (JStr "ACTIVE") None.

Definition change_row : RunnerChange.t :=
  RunnerChange.mk (JStr "1.23") (Some (Timestamp 1700000001000)) (JStr "10")
                  (JNum (5 # 2)) (num 50) JNull JNull JNull JNull.

Definition streams : Streams := mkStreams [market_row] [runner_row] [change_row].

(** A later definition of the same market, now with a venue, and a second
    runner. *)
Definition later_definition : json :=
  JObj [("status", JStr "OPEN"); ("inPlay", JBool false); ("version", num 1);
        ("venue", JStr "Ascot");
        ("runners",
         JList [JObj [("id", JStr "10"); ("name", JStr "A again");
                      ("status", JStr "ACTIVE")];
                JObj [("id", JStr "11"); ("name", JStr "B");
                      ("status", JStr "ACTIVE")]])].

Definition later_frame : DataFrame :=
  mkDataFrame ["pt"; "mc"]
    [mkRawRow (JList [JObj [("id", JStr "1.23");
                            ("marketDefinition", later_definition)]])
              (Some 1700000002000%Z)].

Definition market_meta_row : MarketMeta.t :=
  MarketMeta.mk (JStr "1.23") JNull JNull JNull JNull JNull None JNull JNull
                JNull.

(** A block without an id, with a definition and a price change. *)
Definition anonymous_fields : list (string * json) :=
  [("marketDefinition", definition); ("rc", JList [change_entry])].

(** A runner entry whose removal date is the number 0. *)
Definition removed_fields : list (string * json) :=
  [("id", JStr "10"); ("name", JStr "A"); ("status", JStr "REMOVED");
   ("removalDate", num 0)].

(** A market definition whose market time is the empty string. *)
Definition untimed_fields : list (string * json) :=
  [("name", JStr "Win"); ("marketTime", JStr "")].

(** A file that cannot be decoded, the file of the example scenario, one
    with the later definition, and one that decodes but whose price
    changes are not a list, so that the parse raises. *)
Definition broken_file : File := mkFile "broken.bz2" (Raise OtherException).
Definition good_file : File := mkFile "1.23.bz2" (Ok frame).
Definition later_file : File := mkFile "1.23b.bz2" (Ok later_frame).

Definition odd_frame : DataFrame :=
  mkDataFrame ["pt"; "mc"]
    [mkRawRow (JList [JObj [("id", JStr "1.77");
                            ("marketDefinition", definition);
                            ("rc", num 5)]])
              (Some 1700000003000%Z)].

Definition odd_file : File := mkFile "1.77.bz2" (Ok odd_frame).

(** A frame whose only block is a number. *)
Definition number_frame : DataFrame :=
  mkDataFrame ["pt"; "mc"] [mkRawRow (JList [num 5]) (Some 0%Z)].

Definition day1 : DayDir := mkDayDir "1" [good_file; broken_file].
Definition day2 : DayDir := mkDayDir "2" [later_file].

Definition tree : Tree := mkTree (Some [day2; day1]) [].
Definition missing_tree : Tree := mkTree None [].
Definition odd_tree : Tree := mkTree (Some [mkDayDir "1" [odd_file]]) [].
Definition odd_tree_without : Tree := mkTree (Some [mkDayDir "1" []]) [].
Definition named_tree : Tree := mkTree (Some [mkDayDir "logs" []]) [].
Definition number_tree : Tree :=
  mkTree (Some [mkDayDir "1" [mkFile "n.bz2" (Ok number_frame)]]) [].

(** The first line of the example scenario followed by a line whose price
    changes are not a list. *)
Definition half_bad_frame : DataFrame :=
  mkDataFrame ["pt"; "mc"]
    [line1;
     mkRawRow (JList [JObj [("id", JStr "1.77"); ("rc", num 5)]])
              (Some 1700000003000%Z)].

Definition half_bad_file : File := mkFile "1.88.bz2" (Ok half_bad_frame).

(** A block with an id, a definition and a price change, and a frame
    without a [pt] column that holds it. *)
Definition full_block : json := JObj (("id", JStr "1.23") :: anonymous_fields).

Definition untimed_frame : DataFrame :=
  mkDataFrame ["mc"] [mkRawRow (JList [full_block]) None].

(** A month whose files give no frame, with a daily file left by an
    earlier run. *)
Definition empty_file : File := mkFile "empty.bz2" (Ok empty_frame).

Definition barren_tree : Tree :=
  mkTree (Some [mkDayDir "1" [broken_file; empty_file]])
         ["runner_prices_2024_Dec_9.parquet"].

(** What [main] finds on disk: only December 2024; and January 2024, a
    March 2024 with a directory named [logs], and all of 2025. *)
Definition only_december (y : Z) (m : string) : Tree :=
  if ((y =? 2024)%Z && (m =? "Dec")%string)%bool then tree else missing_tree.

Definition bad_march (y : Z) (m : string) : Tree :=
  if (y =? 2024)%Z
  then if (m =? "Jan")%string then tree
       else if (m =? "Mar")%string then named_tree
       else missing_tree
  else tree.

(** Two blocks with definitions, under the ids [1] and [true]. *)
Definition one_block : json :=
  JObj [("id", num 1); ("marketDefinition", JObj [("name", JStr "first")])].

Definition true_block : json :=
  JObj [("id", JBool true);
        ("marketDefinition", JObj [("name", JStr "second")])].

Definition mixed_ids_frame : DataFrame :=
  mkDataFrame ["pt"; "mc"] [mkRawRow (JList [one_block; true_block]) (Some 0%Z)].

(** A block with a definition whose id is a list, and one whose status
    is a list. *)
Definition listed_id_block : json :=
  JObj [("id", JList [JStr "x"]); ("marketDefinition", JObj [])].

Definition listed_id_frame : DataFrame :=
  mkDataFrame ["pt"; "mc"] [mkRawRow (JList [listed_id_block]) (Some 0%Z)].

Definition listed_id_tree : Tree :=
  mkTree (Some [mkDayDir "1" [mkFile "l.bz2" (Ok listed_id_frame)]]) [].

Definition listed_status_frame : DataFrame :=
  mkDataFrame ["pt"; "mc"]
    [mkRawRow (JList [JObj [("id", JStr "1.5");
                            ("marketDefinition",
                             JObj [("status", JList [JStr "x"])])]])
              (Some 0%Z)].

Definition listed_status_tree : Tree :=
  mkTree (Some [mkDayDir "1" [mkFile "s.bz2" (Ok listed_status_frame)]]) [].

(** A day of two files with price rows out of order and tied. *)
Definition price_block (mid : string) (runners : list Z) : json :=
  JObj [("id", JStr mid);
        ("rc", JList (map (fun r => JObj [("id", num r)]) runners))].

Definition prices_frame_a : DataFrame :=
  mkDataFrame ["pt"; "mc"]
    [mkRawRow (JList [price_block "1.30" [10%Z]]) (Some 5%Z);
     mkRawRow (JList [price_block "1.23" [11%Z; 12%Z]]) (Some 5%Z);
     mkRawRow (JList [price_block "1.23" [13%Z]]) (Some 3%Z)].

Definition prices_frame_b : DataFrame :=
  mkDataFrame ["pt"; "mc"]
    [mkRawRow (JList [price_block "1.23" [14%Z]]) (Some 5%Z)].

Definition busy_day : DayDir :=
  mkDayDir "7" [mkFile "a.bz2" (Ok prices_frame_a);
                mkFile "b.bz2" (Ok prices_frame_b)].

Definition price_row (mid : string) (t r : Z) : RunnerChange.t :=
  RunnerChange.mk (JStr mid) (Some (Timestamp t)) (num r)
                  JNull JNull JNull JNull JNull JNull.

(** A month of one file whose definitions come out of order: market 1.30,
    then 1.23, then 1.30 again unchanged, then 1.23 closed. *)
Definition status_block (mid status : string) : json :=
  JObj [("id", JStr mid);
        ("marketDefinition",
         JObj [("status", JStr status); ("inPlay", JBool false);
               ("version", num 1)])].

Definition shuffled_frame : DataFrame :=
  mkDataFrame ["pt"; "mc"]
    [mkRawRow (JList [status_block "1.30" "OPEN"]) (Some 9%Z);
     mkRawRow (JList [status_block "1.23" "OPEN"]) (Some 8%Z);
     mkRawRow (JList [status_block "1.30" "OPEN"]) (Some 7%Z);
     mkRawRow (JList [status_block "1.23" "CLOSED"]) (Some 6%Z)].

Definition shuffled_tree : Tree :=
  mkTree (Some [mkDayDir "3" [mkFile "s.bz2" (Ok shuffled_frame)]]) [].

Definition status_row (mid : string) (t : Z) (status : string) : Market.t :=
  Market.mk (JStr mid) (Some (Timestamp t)) (JStr status) (JBool false)
            JNull JNull (num 1).

(** A writer that rejects every table, as on a full disk. *)
Definition failing_writer (t : Table) (path : string) : result unit :=
  Raise OtherException.

End Sample.
Section Cleaner.

(** [pd.to_datetime(v)] and [pd.to_datetime(v, unit="ms")]. *)
Variable to_datetime : json -> result timestamp.
Variable to_datetime_ms : option Z -> result timestamp.

(** [int(s)] on a directory name. *)
Variable py_int : string -> result Z.

(** [table.to_parquet(path, index=False)]: the writer accepts the table
    or raises. *)
Variable to_parquet : Table -> string -> result unit.

(** *** parse_betfair_stream *)

Definition market_record (market_id : json) (publish_time : option timestamp)
    (mkt_def : json) : result Market.t :=
  status <- py_get mkt_def "status" ;;
  in_play <- py_get mkt_def "inPlay" ;;
  number_of_active_runners <- py_get mkt_def "numberOfActiveRunners" ;;
  total_matched <- py_get mkt_def "totalMatched" ;;
  version <- py_get mkt_def "version" ;;
  Ok (Market.mk market_id publish_time status in_play
                number_of_active_runners total_matched version).

(** [pd.to_datetime(o.get(k)) if o.get(k) else None] *)
Definition datetime_if_truthy (o : json) (k : string)
  : result (option timestamp) :=
  flag <- py_get o k ;;
  if py_truthy flag
  then v <- py_get o k ;; t <- to_datetime v ;; Ok (Some t)
  else Ok None.

Definition runner_static_record (market_id : json)
    (publish_time : option timestamp) (runner : json)
  : result RunnerStatic.t :=
  runner_id <- py_get runner "id" ;;
  runner_name <- py_get runner "name" ;;
  status <- py_get runner "status" ;;
  removal_date <- datetime_if_truthy runner "removalDate" ;;
  Ok (RunnerStatic.mk market_id publish_time runner_id runner_name status
                      removal_date).

Definition runner_change_record (market_id : json)
    (publish_time : option timestamp) (rc : json)
  : result RunnerChange.t :=
  runner_id <- py_get rc "id" ;;
  ltp <- py_get rc "ltp" ;;
  tv <- py_get rc "tv" ;;
  batb <- py_get rc "batb" ;;
  batl <- py_get rc "batl" ;;
  spn <- py_get rc "spn" ;;
  spf <- py_get rc "spf" ;;
  Ok (RunnerChange.mk market_id publish_time runner_id ltp tv batb batl
                      spn spf).

(** [if "marketDefinition" in market: ...]: one market row, and one runner
    row for each entry of the definition's [runners]. *)
Definition parse_definition (market_id : json)
    (publish_time : option timestamp) (st : Streams) (market : json)
  : result Streams :=
  has_def <- py_contains "marketDefinition" market ;;
  if has_def : bool then
    mkt_def <- py_getitem market "marketDefinition" ;;
    r <- market_record market_id publish_time mkt_def ;;
    let st' := append_market st r in
    has_runners <- py_contains "runners" mkt_def ;;
    if has_runners : bool then
      runners <- py_getitem mkt_def "runners" ;;
      it <- py_iter runners ;;
      for_each
        (fun s runner =>
           r <- runner_static_record market_id publish_time runner ;;
           Ok (append_runner_static s r))
        it st'
    else Ok st'
  else Ok st.

(** [if "rc" in market: ...]: one price row for each entry of [rc]. *)
Definition parse_changes (market_id : json)
    (publish_time : option timestamp) (st : Streams) (market : json)
  : result Streams :=
  has_rc <- py_contains "rc" market ;;
  if has_rc : bool then
    changes <- py_getitem market "rc" ;;
    it <- py_iter changes ;;
    for_each
      (fun s rc =>
         r <- runner_change_record market_id publish_time rc ;;
         Ok (append_runner_change s r))
      it st
  else Ok st.

(** The body of [for market in mc_data]. *)
Definition parse_market (publish_time : option timestamp) (st : Streams)
    (market : json) : result Streams :=
  market_id <- py_get market "id" ;;
  st1 <- parse_definition market_id publish_time st market ;;
  parse_changes market_id publish_time st1 market.

(** [pd.to_datetime(row.pt, unit="ms") if hasattr(row, "pt") else None] *)
Definition publish_time_of (df : DataFrame) (row : RawRow)
  : result (option timestamp) :=
  if has_column "pt" df
  then t <- to_datetime_ms (pt row) ;; Ok (Some t)
  else Ok None.

(** The blocks the loop over one line visits: [None] where the line is
    skipped by one of the [continue]s. *)
Definition blocks_of (df : DataFrame) (row : RawRow)
  : result (option (list json)) :=
  if negb (has_column "mc" df) then Ok None
  else
    na <- skip_if_na (mc row) ;;
    if na : bool then Ok None
    else
      match mc_data_of (mc row) with
      | [] => Ok None
      | mc_data => Ok (Some mc_data)
      end.

(** The body of [for row in df.itertuples()]. *)
Definition parse_row (df : DataFrame) (st : Streams) (row : RawRow)
  : result Streams :=
  blocks <- blocks_of df row ;;
  match blocks with
  | None => Ok st
  | Some mc_data =>
      publish_time <- publish_time_of df row ;;
      for_each (parse_market publish_time) mc_data st
  end.

Definition parse_betfair_stream (df : DataFrame) : result Streams :=
  if empty df then Ok no_streams
  else for_each (parse_row df) (rows df) no_streams.


(** *** create_reference_tables *)

Definition market_metadata_record (market_id : json) (mkt_def : json)
  : result MarketMeta.t :=
  event_id <- py_get mkt_def "eventId" ;;
  event_name <- py_get mkt_def "eventName" ;;
  event_type_id <- py_get mkt_def "eventTypeId" ;;
  market_name <- py_get mkt_def "name" ;;
  market_type <- py_get mkt_def "marketType" ;;
  market_time <- datetime_if_truthy mkt_def "marketTime" ;;
  venue <- py_get mkt_def "venue" ;;
  country_code <- py_get mkt_def "countryCode" ;;
  number_of_winners <- py_get mkt_def "numberOfWinners" ;;
  Ok (MarketMeta.mk market_id event_id event_name event_type_id
                    market_name market_type market_time venue country_code
                    number_of_winners).

Definition runner_metadata_record (market_id : json) (runner : json)
  : result RunnerMeta.t :=
  runner_id <- py_get runner "id" ;;
  runner_name <- py_get runner "name" ;;
  Ok (RunnerMeta.mk market_id runner_id runner_name).

Definition append_market_metadata (md : Metadata) (r : MarketMeta.t)
  : Metadata :=
  mkMetadata (market_metadata md ++ [r]) (runner_metadata md).

Definition append_runner_metadata (md : Metadata) (r : RunnerMeta.t)
  : Metadata :=
  mkMetadata (market_metadata md) (runner_metadata md ++ [r]).

(** The body of [for market in mc_data]. *)
Definition reference_market (md : Metadata) (market : json)
  : result Metadata :=
  has_def <- py_contains "marketDefinition" market ;;
  if negb has_def then Ok md
  else
    mkt_def <- py_getitem market "marketDefinition" ;;
    market_id <- py_get market "id" ;;
    r <- market_metadata_record market_id mkt_def ;;
    let md' := append_market_metadata md r in
    has_runners <- py_contains "runners" mkt_def ;;
    if has_runners : bool then
      runners <- py_getitem mkt_def "runners" ;;
      it <- py_iter runners ;;
      for_each
        (fun m runner =>
           r <- runner_metadata_record market_id runner ;;
           Ok (append_runner_metadata m r))
        it md'
    else Ok md'.

Definition reference_row (df : DataFrame) (md : Metadata) (row : RawRow)
  : result Metadata :=
  blocks <- blocks_of df row ;;
  match blocks with
  | None => Ok md
  | Some mc_data => for_each reference_market mc_data md
  end.

Definition reference_frame (md : Metadata) (df : DataFrame)
  : result Metadata :=
  if empty df then Ok md
  else for_each (reference_row df) (rows df) md.

Definition market_ref_key (r : MarketMeta.t) : list json :=
  [MarketMeta.market_id r].

Definition runner_ref_key (r : RunnerMeta.t) : list json :=
  [RunnerMeta.market_id r; RunnerMeta.runner_id r].

Definition collect_metadata (df_list : list DataFrame) : result Metadata :=
  for_each reference_frame df_list (mkMetadata [] []).

(** The two lists are deduplicated on their key columns; an empty list
    gives the empty table. *)
Definition create_reference_tables (df_list : list DataFrame)
  : result (list MarketMeta.t * list RunnerMeta.t) :=
  md <- collect_metadata df_list ;;
  market_ref <- drop_duplicates market_ref_key (market_metadata md) ;;
  runner_ref <- drop_duplicates runner_ref_key (runner_metadata md) ;;
  Ok (market_ref, runner_ref).

(** *** read_betfair_bz2 *)

Definition read_betfair_bz2 (file_path : File) : result DataFrame :=
  try_except (read_json file_path) (fun _ => Ok empty_frame).

(** *** process_month *)

Definition append_nonempty {A} (acc : list (list A)) (t : list A)
  : list (list A) :=
  match t with
  | [] => acc
  | _ => acc ++ [t]
  end.

(** The body of the [try] block of the file loop.  The buffers are
    mutable objects: what was appended before an exception stays
    appended, so the buffers are returned next to the outcome. *)
Definition process_file_try (b : Buffers) (file_path : File)
  : result unit * Buffers :=
  match read_betfair_bz2 file_path with
  | Raise e => (Raise e, b)
  | Ok df =>
      if empty df then (Ok tt, b)
      else
        let b1 := mkBuffers (all_markets b) (all_runner_static b)
                            (all_raw_dfs b ++ [df])
                            (day_runner_changes b) in
        match parse_betfair_stream df with
        | Raise e => (Raise e, b1)
        | Ok s =>
            (Ok tt,
             mkBuffers
               (append_nonempty (all_markets b1) (market_records s))
               (append_nonempty (all_runner_static b1)
                                (runner_static_records s))
               (all_raw_dfs b1)
               (append_nonempty (day_runner_changes b1)
                                (runner_change_records s)))
        end
  end.

(** One iteration of the file loop: [except Exception] logs and goes on
    to the next file. *)
Definition process_file (b : Buffers) (file_path : File) : Buffers :=
  snd (process_file_try b file_path).

Definition batches (files : list File) : list (list File) :=
  map (fun i => slice files i (i + batch_size))
      (range_step (List.length files) batch_size).

Definition process_files (b : Buffers) (files : list File) : Buffers :=
  fold_left (fun b' batch => fold_left process_file batch b')
            (batches files) b.

Definition runner_change_sort_key (r : RunnerChange.t) :=
  (RunnerChange.market_id r, RunnerChange.publish_time r).

Definition market_sort_key (r : Market.t) :=
  (Market.market_id r, Market.publish_time r).

Definition runner_static_sort_key (r : RunnerStatic.t) :=
  (RunnerStatic.market_id r, RunnerStatic.publish_time r).

Definition market_dedup_key (r : Market.t) : list json :=
  [Market.market_id r; Market.status r; Market.in_play r; Market.version r].

Definition runner_static_dedup_key (r : RunnerStatic.t) : list json :=
  [RunnerStatic.market_id r; RunnerStatic.runner_id r;
   RunnerStatic.status r].

Definition daily_file_name (year : Z) (month day : string) : string :=
  ("runner_prices_" ++ py_str year ++ "_" ++ month ++ "_" ++ day
     ++ ".parquet")%string.

(** The flush at the end of a day: the collected tables are
    concatenated, sorted and written; the sort and the writer may
    raise. *)
Definition flush_day (daily_file : string)
    (changes : list (list RunnerChange.t)) : result (list RunnerChange.t) :=
  daily_prices <- sort_values runner_change_sort_key (List.concat changes) ;;
  _ <- to_parquet (RunnerPrices daily_prices) daily_file ;;
  Ok daily_prices.

(** The body of [for day_path in days]: the buffers after the day, and
    the files written so far. *)
Definition process_day (year : Z) (month : string)
    (st : Buffers * list (string * list RunnerChange.t)) (day_path : DayDir)
  : result (Buffers * list (string * list RunnerChange.t)) :=
  let '(b, written) := st in
  let b0 := mkBuffers (all_markets b) (all_runner_static b) (all_raw_dfs b)
                      [] in
  let b1 := process_files b0 (bz2_files day_path) in
  match day_runner_changes b1 with
  | [] => Ok (b1, written)
  | changes =>
      let daily_file := daily_file_name year month (name day_path) in
      daily_prices <- flush_day daily_file changes ;;
      Ok (b1, written ++ [(daily_file, daily_prices)])
  end.

(** [sorted(dirs, key=lambda d: int(d.name))]: the keys are computed
    first, in the order of the list. *)
Definition sorted_days (dirs : list DayDir) : result (list DayDir) :=
  keyed <- for_each (fun acc d => k <- py_int (name d) ;; Ok (acc ++ [(k, d)]))
                    dirs [] ;;
  Ok (map snd (stable_sort (fun x y => Z.leb (fst x) (fst y)) keyed)).

(** [if not t.empty: t = t.drop_duplicates(...).sort_values(...)] *)
Definition dedup_markets (t : list Market.t) : result (list Market.t) :=
  match t with
  | [] => Ok t
  | _ =>
      kept <- drop_duplicates market_dedup_key t ;;
      sort_values market_sort_key kept
  end.

Definition dedup_runner_static (t : list RunnerStatic.t)
  : result (list RunnerStatic.t) :=
  match t with
  | [] => Ok t
  | _ =>
      kept <- drop_duplicates runner_static_dedup_key t ;;
      sort_values runner_static_sort_key kept
  end.

(** The buffers and daily files after the loop over the days. *)
Definition process_days (year : Z) (month : string) (days : list DayDir)
  : result (Buffers * list (string * list RunnerChange.t)) :=
  for_each (process_day year month) days (mkBuffers [] [] [] [], []).

(** [if not t.empty: t.to_parquet(path, index=False)] *)
Definition write_nonempty {R} (table : list R -> Table) (t : list R)
    (path : string) : result unit :=
  match t with
  | [] => Ok tt
  | _ => to_parquet (table t) path
  end.

(** The run on an existing month directory. *)
Definition run_month (dirs : list DayDir) (existing : list string)
    (year : Z) (month : string) : result MonthOutput :=
  days <- sorted_days dirs ;;
  st <- process_days year month days ;;
  let '(b, written) := st in
  refs <- create_reference_tables (all_raw_dfs b) ;;
  let '(market_ref, runner_ref) := refs in
  combined_markets <- dedup_markets (List.concat (all_markets b)) ;;
  combined_runner_static <-
    dedup_runner_static (List.concat (all_runner_static b)) ;;
  _ <- write_nonempty MarketReference market_ref "market_reference.parquet" ;;
  _ <- write_nonempty RunnerReference runner_ref "runner_reference.parquet" ;;
  _ <- write_nonempty MarketTimeline combined_markets
         "market_timeline.parquet" ;;
  _ <- write_nonempty RunnerStatus combined_runner_static
         "runner_status.parquet" ;;
  let daily_files := nodup string_dec (existing ++ map fst written) in
  Ok (mkMonthOutput market_ref runner_ref combined_markets
        combined_runner_static written
        (mkSummary year month (List.length market_ref)
                   (List.length runner_ref) (List.length daily_files))).

(** [process_month]: [None] is the bare [return] of a missing month. *)
Definition process_month_output (fs : Tree) (year : Z) (month : string)
  : result (option MonthOutput) :=
  match month_path fs with
  | None => Ok None
  | Some dirs =>
      out <- run_month dirs (daily_prices_dir fs) year month ;;
      Ok (Some out)
  end.

Definition process_month (fs : Tree) (year : Z) (month : string)
  : result (option Summary) :=
  out <- process_month_output fs year month ;;
  Ok (option_map summary out).

(** *** main ([main.py]) *)

Definition months : list string :=
  ["Jan"; "Feb"; "Mar"; "Apr"; "May"; "Jun";
   "Jul"; "Aug"; "Sep"; "Oct"; "Nov"; "Dec"].

Definition years : list Z := [2024%Z; 2025%Z].

(** [for m in months: res = process_month(...); if res is not None:
    print(res)], for the year [y].  [fs y m] is the tree [process_month]
    finds for that year and month: a month reads its own input directory
    and writes its own output directory only.  The summaries printed so
    far are returned next to the outcome: what was printed before an
    exception stays printed. *)
Fixpoint main_months (fs : Z -> string -> Tree) (y : Z) (ms : list string)
    (printed : list Summary) : list Summary * result unit :=
  match ms with
  | [] => (printed, Ok tt)
  | m :: ms' =>
      match process_month (fs y m) y m with
      | Raise e => (printed, Raise e)
      | Ok None => main_months fs y ms' printed
      | Ok (Some res) => main_months fs y ms' (printed ++ [res])
      end
  end.

(** [for y in years: ...] *)
Fixpoint main_years (fs : Z -> string -> Tree) (ys : list Z)
    (printed : list Summary) : list Summary * result unit :=
  match ys with
  | [] => (printed, Ok tt)
  | y :: ys' =>
      match main_months fs y months printed with
      | (printed', Ok _) => main_years fs ys' printed'
      | (printed', Raise e) => (printed', Raise e)
      end
  end.

Definition main (fs : Z -> string -> Tree) : list Summary * result unit :=
  main_years fs years [].

(** ** Notions used to state the properties *)

(** A loop body that only appends: it does to any state what it does to
    the empty one, and appends the outcome. *)
Definition appending {S A} (app : S -> S -> S) (unit : S)
    (body : S -> A -> result S) : Prop :=
  forall s x, body s x = (e <- body unit x ;; Ok (app s e)).

(** [x] has the key of [r]. *)
Definition same_key {R} (key : R -> list json) (r x : R) : bool :=
  key_eqb (key x) (key r).

(** [x] has the same cells as [r] in the columns [cols], as pandas
    compares them. *)
Definition same_cells {R} (cols : R -> list json) (r x : R) : bool :=
  key_eqb (pandas_keys cols x) (pandas_keys cols r).

(** [x] and [k] are tied in the order [leb]. *)
Definition tied {R} (leb : R -> R -> bool) (k x : R) : bool :=
  leb k x && leb x k.

(** Row [x] comes no later than row [y] in the order of the sort
    columns. *)
Definition sorted_by {R} (sort_key : R -> json * option timestamp)
    (x y : R) : Prop :=
  sort_key_leb (sort_key x) (sort_key y) = true.

(** Rows [k] and [x] are tied on the sort columns. *)
Definition tied_with {R} (sort_key : R -> json * option timestamp)
    (k x : R) : bool :=
  tied (fun a b => sort_key_leb (sort_key a) (sort_key b)) k x.

(** Concatenation of the three streams. *)
Definition app_streams (a b : Streams) : Streams :=
  mkStreams (market_records a ++ market_records b)
            (runner_static_records a ++ runner_static_records b)
            (runner_change_records a ++ runner_change_records b).

Definition no_metadata : Metadata := mkMetadata [] [].

Definition app_metadata (a b : Metadata) : Metadata :=
  mkMetadata (market_metadata a ++ market_metadata b)
             (runner_metadata a ++ runner_metadata b).

(** Every row of [e] carries the market id [mid] and the publish time
    [t]. *)
Definition stamped (mid : json) (t : option timestamp) (e : Streams) : Prop :=
  Forall (fun r => Market.market_id r = mid /\ Market.publish_time r = t)
         (market_records e)
  /\ Forall (fun r => RunnerStatic.market_id r = mid
                      /\ RunnerStatic.publish_time r = t)
            (runner_static_records e)
  /\ Forall (fun r => RunnerChange.market_id r = mid
                      /\ RunnerChange.publish_time r = t)
            (runner_change_records e).

(** [e] is what the block [market] of the line [row] of [df] emits: the
    rows [parse_market] appends for that block, run with the publish time
    [t] derived from that line. *)
Definition emitted_by (df : DataFrame) (row : RawRow) (market : json)
    (t : option timestamp) (e : Streams) : Prop :=
  In row (rows df)
  /\ (exists mc_data, blocks_of df row = Ok (Some mc_data) /\ In market mc_data)
  /\ publish_time_of df row = Ok t
  /\ parse_market t no_streams market = Ok e.


(** The dict without the key [k]. *)
Definition remove_key (k : string) (fields : list (string * json))
  : list (string * json) :=
  filter (fun kv => negb (String.eqb k (fst kv))) fields.





(** The blocks of the retained frames in traversal order: frame by frame,
    line by line, block by block. *)
Definition row_blocks (df : DataFrame) (row : RawRow) : list json :=
  match blocks_of df row with
  | Ok (Some mc_data) => mc_data
  | _ => []
  end.

Definition frame_blocks (df : DataFrame) : list json :=
  if empty df then [] else flat_map (row_blocks df) (rows df).

Definition traversal_blocks (df_list : list DataFrame) : list json :=
  flat_map frame_blocks df_list.

(** [e] holds the rows [create_reference_tables] extracts from the block
    [market] alone. *)
Definition extracted_from (market : json) (e : Metadata) : Prop :=
  reference_market no_metadata market = Ok e.

(** The frame of a file that the month retains: decoded, and not empty. *)
Definition file_frame (f : File) : option DataFrame :=
  match read_betfair_bz2 f with
  | Ok df => if empty df then None else Some df
  | Raise _ => None
  end.

Definition retained (f : File) : list DataFrame :=
  match file_frame f with
  | Some df => [df]
  | None => []
  end.

(** The event rows a file adds to the buffers: those of its parse, and
    none when the file is not retained or its parse raises. *)
Definition file_streams (f : File) : Streams :=
  match file_frame f with
  | Some df =>
      match parse_betfair_stream df with
      | Ok s => s
      | Raise _ => no_streams
      end
  | None => no_streams
  end.

Definition nonempty_tables {A} (ts : list (list A)) : list (list A) :=
  filter (fun t => match t with [] => false | _ => true end) ts.

(** The files of the month, day after day. *)
Definition month_files (days : list DayDir) : list File :=
  flat_map bz2_files days.

(** The price rows collected over the files of a day, concatenated. *)
Definition day_rows (day : DayDir) : list RunnerChange.t :=
  flat_map (fun f => runner_change_records (file_streams f)) (bz2_files day).

(** The market and runner rows collected over the month, concatenated. *)
Definition month_market_rows (days : list DayDir) : list Market.t :=
  flat_map (fun f => market_records (file_streams f)) (month_files days).

Definition month_runner_static_rows (days : list DayDir)
  : list RunnerStatic.t :=
  flat_map (fun f => runner_static_records (file_streams f)) (month_files days).

(** The buffers after the files of a day: the daily buffer starts
    empty. *)
Definition day_buffers (b : Buffers) (day : DayDir) : Buffers :=
  mkBuffers
    (all_markets b
       ++ nonempty_tables
            (map (fun f => market_records (file_streams f)) (bz2_files day)))
    (all_runner_static b
       ++ nonempty_tables
            (map (fun f => runner_static_records (file_streams f))
                 (bz2_files day)))
    (all_raw_dfs b ++ flat_map retained (bz2_files day))
    (nonempty_tables
       (map (fun f => runner_change_records (file_streams f))
            (bz2_files day))).

(** The daily file a day leaves, if any. *)
Definition day_written (year : Z) (month : string) (day : DayDir)
  : list (string * list RunnerChange.t) :=
  match day_rows day with
  | [] => []
  | day_prices =>
      [(daily_file_name year month (name day),
        lexsort runner_change_sort_key day_prices)]
  end.

(** The outcome of the flush of a day: nothing happens on a day without
    price rows. *)
Definition day_flush (year : Z) (month : string) (day : DayDir)
  : result unit :=
  match day_rows day with
  | [] => Ok tt
  | day_prices =>
      daily_prices <- sort_values runner_change_sort_key day_prices ;;
      to_parquet (RunnerPrices daily_prices)
                 (daily_file_name year month (name day))
  end.

(** The outcome of a step seen through [f]. *)
Definition map_result {A B} (f : A -> B) (m : result A) : result B :=
  match m with
  | Ok a => Ok (f a)
  | Raise e => Raise e
  end.

(** The event tables after the loop over the days: the market rows and
    the runner rows collected, and the daily files written. *)
Definition event_tables (st : Buffers * list (string * list RunnerChange.t))
  : list (list Market.t) * list (list RunnerStatic.t)
    * list (string * list RunnerChange.t) :=
  (all_markets (fst st), all_runner_static (fst st), snd st).

(** The integers of the decoded files are stored exactly. *)
Definition exact_frame (df : DataFrame) : bool :=
  forallb (fun row => exact (mc row)) (rows df).

Definition exact_file (f : File) : bool :=
  match read_json f with
  | Ok df => exact_frame df
  | Raise _ => true
  end.

Definition exact_month (dirs : list DayDir) : bool :=
  forallb (fun d => forallb exact_file (bz2_files d)) dirs.

(** The decode of the file fails, or its parse does. *)
Definition file_fails (f : File) : Prop :=
  (exists e, read_json f = Raise e)
  \/ (exists df e, read_json f = Ok df /\ parse_betfair_stream df = Raise e).

(** Directory [a] is numbered no higher than directory [b]. *)
Definition day_before (a b : DayDir) : Prop :=
  exists ka kb,
    py_int (name a) = Ok ka /\ py_int (name b) = Ok kb /\ (ka <= kb)%Z.

(** *** Well-typed input *)

Definition is_dict (v : json) : bool :=
  match v with
  | JObj _ => true
  | _ => false
  end.

Definition list_of_dicts (v : json) : bool :=
  match v with
  | JList l => forallb is_dict l
  | _ => false
  end.

(** The value of [o.get(k)] on an object. *)
Definition field (o : json) (k : string) : json :=
  match o with
  | JObj f => match lookup k f with
              | Some v => v
              | None => JNull
              end
  | _ => JNull
  end.

(** The definition of a block: [market["marketDefinition"]] when the
    block is an object with that key. *)
Definition block_definition (market : json) : option json :=
  match market with
  | JObj f => lookup "marketDefinition" f
  | _ => None
  end.

(** The entries of the [runners] list of a definition. *)
Definition definition_runners (d : json) : list json :=
  match d with
  | JObj g =>
      match lookup "runners" g with
      | Some (JList l) => l
      | _ => []
      end
  | _ => []
  end.

(** [t] is the cell the code builds from the timestamp field [v]: null
    when [v] is falsy, what [pd.to_datetime] returns on it otherwise. *)
Definition converted (v : json) (t : option timestamp) : Prop :=
  if py_truthy v
  then exists x, to_datetime v = Ok x /\ t = Some x
  else t = None.

(** [pd.to_datetime] is not called on the value, or accepts it. *)
Definition converts (v : json) : bool :=
  negb (py_truthy v)
  || match to_datetime v with
     | Ok _ => true
     | Raise _ => false
     end.

(** What [parse_betfair_stream] needs of a block: it is an object; its
    definition, when it has one, is an object whose [runners], when it
    has some, is a list of objects with removal dates that convert; its
    [rc], when it has one, is a list of objects. *)
Definition parse_ready_definition (d : json) : bool :=
  match d with
  | JObj g =>
      match lookup "runners" g with
      | Some (JList l) =>
          forallb (fun r => is_dict r && converts (field r "removalDate")) l
      | Some _ => false
      | None => true
      end
  | _ => false
  end.

Definition parse_ready_block (market : json) : bool :=
  match market with
  | JObj f =>
      match lookup "marketDefinition" f with
      | Some d => parse_ready_definition d
      | None => true
      end
      && match lookup "rc" f with
         | Some c => list_of_dicts c
         | None => true
         end
  | _ => false
  end.

Definition parse_ready_frame (df : DataFrame) : bool :=
  forallb parse_ready_block (frame_blocks df).

(** What [create_reference_tables] needs of a block: it is an object;
    when it has a definition, its id can be hashed and the definition is
    an object with a market time that converts and whose [runners], when
    it has some, is a list of objects with ids that can be hashed. *)
Definition reference_ready_definition (d : json) : bool :=
  match d with
  | JObj g =>
      converts (field d "marketTime")
      && match lookup "runners" g with
         | Some (JList l) =>
             forallb (fun r => is_dict r && hashable (field r "id")) l
         | Some _ => false
         | None => true
         end
  | _ => false
  end.

Definition reference_ready_block (market : json) : bool :=
  match market with
  | JObj f =>
      match lookup "marketDefinition" f with
      | Some d => hashable (field market "id") && reference_ready_definition d
      | None => true
      end
  | _ => false
  end.

Definition reference_ready_frame (df : DataFrame) : bool :=
  forallb reference_ready_block (frame_blocks df).

(** What [process_month] needs of a block to build its tables: it is an
    object with an id that can be hashed; its definition, when it has
    one, is an object with a market time that converts, with a status, an
    [inPlay] and a version that can be hashed, and whose [runners], when
    it has some, is a list of objects with ids and statuses that can be
    hashed. *)
Definition month_ready_definition (d : json) : bool :=
  match d with
  | JObj g =>
      converts (field d "marketTime")
      && hashable (field d "status")
      && hashable (field d "inPlay")
      && hashable (field d "version")
      && match lookup "runners" g with
         | Some (JList l) =>
             forallb (fun r => is_dict r
                               && hashable (field r "id")
                               && hashable (field r "status")) l
         | Some _ => false
         | None => true
         end
  | _ => false
  end.

Definition month_ready_block (market : json) : bool :=
  match market with
  | JObj f =>
      hashable (field market "id")
      && match lookup "marketDefinition" f with
         | Some d => month_ready_definition d
         | None => true
         end
  | _ => false
  end.

Definition month_ready_frame (df : DataFrame) : bool :=
  forallb month_ready_block (frame_blocks df).

(** [pd.to_datetime(pt, unit="ms")] accepts the [pt] of every line that
    has blocks. *)
Definition timed_frame (df : DataFrame) : bool :=
  negb (has_column "pt" df)
  || forallb (fun row =>
                match row_blocks df row with
                | [] => true
                | _ => match to_datetime_ms (pt row) with
                       | Ok _ => true
                       | Raise _ => false
                       end
                end)
             (rows df).

(** The day has price rows. *)
Definition has_prices (day : DayDir) : bool :=
  match day_rows day with
  | [] => false
  | _ => true
  end.

(** The months [main] goes through, in order. *)
Definition schedule : list (Z * string) :=
  flat_map (fun y => map (fun m => (y, m)) months) years.

(** The scheduled months whose input directory exists. *)
Definition present (fs : Z -> string -> Tree) (ym : Z * string) : bool :=
  match month_path (fs (fst ym) (snd ym)) with
  | Some _ => true
  | None => false
  end.

(** The year and month a summary is about. *)
Definition summary_month (s : Summary) : Z * string :=
  (year s, month s).

(** ** Equality of cells *)

Lemma json_eqb_eq a b : json_eqb a b = true <-> a = b.
Proof. unfold json_eqb; destruct (json_eq_dec a b); split; congruence. Qed.

Lemma json_eqb_refl a : json_eqb a a = true.
Proof. apply json_eqb_eq; reflexivity. Qed.

Lemma key_eqb_eq k1 k2 : key_eqb k1 k2 = true <-> k1 = k2.
Proof. unfold key_eqb; destruct (list_eq_dec json_eq_dec k1 k2); split; congruence. Qed.

Lemma key_eqb_refl k : key_eqb k k = true.
Proof. apply key_eqb_eq; reflexivity. Qed.

Lemma key_eqb_neq k1 k2 : key_eqb k1 k2 = false <-> k1 <> k2.
Proof. unfold key_eqb; destruct (list_eq_dec json_eq_dec k1 k2); split; congruence. Qed.


(** ** The error monad and the loops *)

Lemma bind_Ok_inv {A B} (m : result A) (k : A -> result B) (b : B) :
  bind m k = Ok b -> exists a, m = Ok a /\ k a = Ok b.
Proof. destruct m as [a|e]; simpl; [eauto | discriminate]. Qed.

Lemma for_each_app {S A} (body : S -> A -> result S) xs ys s :
  for_each body (xs ++ ys) s = (s' <- for_each body xs s ;; for_each body ys s').
Proof.
  revert s; induction xs as [|x xs IH]; intros s; simpl; [reflexivity|].
  destruct (body s x) as [s1|e]; simpl; [apply IH | reflexivity].
Qed.

(** An invariant of the state is kept by a loop whose body keeps it. *)
Lemma for_each_invariant {S A} (P : S -> Prop) (body : S -> A -> result S) :
  (forall s x s', P s -> body s x = Ok s' -> P s') ->
  forall xs s s', P s -> for_each body xs s = Ok s' -> P s'.
Proof.
  intros Hbody; induction xs as [|x xs IH]; intros s s' HP H; simpl in H.
  - injection H as <-; exact HP.
  - apply bind_Ok_inv in H as (s1 & H1 & H2); eauto.
Qed.

(** Loops that only append to their state. *)
Section Appending.
Variable S : Type.
Variable app : S -> S -> S.
Variable unit : S.
Hypothesis app_assoc : forall a b c, app a (app b c) = app (app a b) c.
Hypothesis app_unit_l : forall a, app unit a = a.
Hypothesis app_unit_r : forall a, app a unit = a.

Local Abbreviation appending := (appending app unit).

Lemma for_each_appending {A} (body : S -> A -> result S) :
  appending body -> appending (fun s xs => for_each body xs s).
Proof.
  intros Hb s xs; revert s; induction xs as [|x xs IH]; intros s; simpl.
  - rewrite app_unit_r; reflexivity.
  - rewrite (Hb s x). destruct (body unit x) as [e0|err]; simpl; [|reflexivity].
    rewrite (IH (app s e0)), (IH e0).
    destruct (for_each body xs unit) as [e|err]; simpl; [|reflexivity].
    rewrite app_assoc; reflexivity.
Qed.

(** What each element contributes, in order. *)
Lemma for_each_emissions {A} (body : S -> A -> result S) :
  appending body ->
  forall xs s, for_each body xs unit = Ok s ->
  exists es, Forall2 (fun x e => body unit x = Ok e) xs es
             /\ s = fold_right app unit es.
Proof.
  intros Hb; induction xs as [|x xs IH]; intros s H; simpl in H.
  - injection H as <-. exists []; split; [constructor | reflexivity].
  - apply bind_Ok_inv in H as (e0 & H0 & H).
    rewrite (for_each_appending Hb e0 xs) in H.
    apply bind_Ok_inv in H as (e & He & H). injection H as <-.
    destruct (IH e He) as (es & HF & ->).
    exists (e0 :: es); split; [constructor; assumption | reflexivity].
Qed.
End Appending.

(** ** drop_duplicates *)

Section DropDuplicatesFacts.
Variable R : Type.
Variable key : R -> list json.

Local Abbreviation same_key := (same_key key).

Lemma existsb_key_eqb k seen :
  existsb (key_eqb k) seen = true <-> In k seen.
Proof.
  rewrite existsb_exists; split.
  - intros (k' & Hin & Heq). apply key_eqb_eq in Heq; subst; assumption.
  - intros Hin; exists k; split; [assumption | apply key_eqb_refl].
Qed.

Lemma drop_duplicates_from_In seen t r :
  In r (drop_duplicates_from key seen t) ->
  ~ In (key r) seen /\ find (same_key r) t = Some r.
Proof.
  revert seen; induction t as [|x t IH]; intros seen H; simpl in H; [contradiction|].
  destruct (existsb (key_eqb (key x)) seen) eqn:E.
  - destruct (IH _ H) as [Hn Hf]. split; [assumption|].
    simpl. unfold same_key at 1.
    destruct (key_eqb (key x) (key r)) eqn:K; [|assumption].
    apply key_eqb_eq in K. apply existsb_key_eqb in E. rewrite K in E. contradiction.
  - destruct H as [->|H].
    + split.
      * intros Hin. apply existsb_key_eqb in Hin. congruence.
      * simpl. unfold same_key. rewrite key_eqb_refl. reflexivity.
    + destruct (IH _ H) as [Hn Hf]. split.
      * intros Hin; apply Hn; right; assumption.
      * simpl. unfold same_key at 1.
        destruct (key_eqb (key x) (key r)) eqn:K; [|assumption].
        apply key_eqb_eq in K. exfalso; apply Hn; left; assumption.
Qed.

Lemma drop_duplicates_from_keys seen t r :
  In r t -> ~ In (key r) seen ->
  exists r', In r' (drop_duplicates_from key seen t) /\ key r' = key r.
Proof.
  revert seen; induction t as [|x t IH]; intros seen Hin Hn; [contradiction|].
  simpl. destruct (existsb (key_eqb (key x)) seen) eqn:E.
  - destruct Hin as [->|Hin].
    + apply existsb_key_eqb in E; contradiction.
    + apply IH; assumption.
  - destruct (list_eq_dec json_eq_dec (key x) (key r)) as [K|K].
    + exists x; split; [left; reflexivity | assumption].
    + destruct Hin as [->|Hin]; [congruence|].
      destruct (IH (key x :: seen) Hin) as (r' & Hr' & Hk).
      * intros [H|H]; [congruence | contradiction].
      * exists r'; split; [right; assumption | assumption].
Qed.

Lemma drop_duplicates_from_NoDup seen t :
  NoDup (map key (drop_duplicates_from key seen t)).
Proof.
  revert seen; induction t as [|x t IH]; intros seen; simpl; [constructor|].
  destruct (existsb (key_eqb (key x)) seen) eqn:E; [apply IH|].
  simpl; constructor; [|apply IH].
  intros Hin. apply in_map_iff in Hin as (r & Hk & Hr).
  apply drop_duplicates_from_In in Hr as [Hn _].
  apply Hn; left; symmetry; assumption.
Qed.

(** No two kept rows share a key. *)
Lemma keep_first_NoDup t : NoDup (map key (keep_first key t)).
Proof. apply drop_duplicates_from_NoDup. Qed.

(** A kept row is the first row of the table with its key. *)
Lemma keep_first_first t r :
  In r (keep_first key t) -> find (same_key r) t = Some r.
Proof. intros H; apply (drop_duplicates_from_In _ _ _ H). Qed.

(** Every key of the table is kept. *)
Lemma keep_first_keys t r :
  In r t -> exists r', In r' (keep_first key t) /\ key r' = key r.
Proof. intros H; apply drop_duplicates_from_keys; [assumption | intros []]. Qed.

Lemma drop_duplicates_from_incl seen t r :
  In r (drop_duplicates_from key seen t) -> In r t.
Proof.
  revert seen; induction t as [|x t IH]; intros seen H; simpl in H; [contradiction|].
  destruct (existsb (key_eqb (key x)) seen).
  - right; eauto.
  - destruct H as [->|H]; [left; reflexivity | right; eauto].
Qed.

Lemma keep_first_incl t r : In r (keep_first key t) -> In r t.
Proof. apply drop_duplicates_from_incl. Qed.

(** Exactly one kept row for each key of the table. *)
Lemma keep_first_one t r :
  In r t ->
  List.length (filter (same_key r) (keep_first key t)) = 1.
Proof.
  intros Hin.
  destruct (keep_first_keys t r Hin) as (r' & Hr' & Hk).
  pose proof (keep_first_NoDup t) as ND.
  induction (keep_first key t) as [|x l IH]; [contradiction|].
  simpl in ND. apply NoDup_cons_iff in ND as [Hx ND].
  simpl. unfold same_key at 1.
  destruct (key_eqb (key x) (key r)) eqn:K.
  - apply key_eqb_eq in K. simpl. f_equal.
    assert (E : filter (same_key r) l = []); [|rewrite E; reflexivity].
    clear IH Hr'. induction l as [|y l IHl]; [reflexivity|].
    simpl. unfold same_key at 1.
    destruct (key_eqb (key y) (key r)) eqn:K'.
    + apply key_eqb_eq in K'. exfalso; apply Hx. left; congruence.
    + apply IHl.
      * intros H; apply Hx; right; assumption.
      * apply NoDup_cons_iff in ND as [_ ND]; assumption.
  - destruct Hr' as [->|Hr'].
    + apply key_eqb_neq in K; contradiction.
    + apply IH; assumption.
Qed.
End DropDuplicatesFacts.

Lemma drop_duplicates_Ok {R} (subset : R -> list json) t t' :
  drop_duplicates subset t = Ok t' ->
  forallb (fun r => forallb hashable (subset r)) t = true
  /\ t' = keep_first (pandas_keys subset) t.
Proof.
  unfold drop_duplicates.
  destruct (forallb (fun r => forallb hashable (subset r)) t);
    [|discriminate].
  intros H; injection H as <-. split; reflexivity.
Qed.

Lemma drop_duplicates_hashable {R} (subset : R -> list json) t :
  forallb (fun r => forallb hashable (subset r)) t = true ->
  drop_duplicates subset t = Ok (keep_first (pandas_keys subset) t).
Proof. unfold drop_duplicates. intros ->. reflexivity. Qed.

Lemma drop_duplicates_unhashable {R} (subset : R -> list json) t r :
  In r t -> forallb hashable (subset r) = false ->
  drop_duplicates subset t = Raise TypeError.
Proof.
  intros Hin Hr. unfold drop_duplicates.
  destruct (forallb (fun r => forallb hashable (subset r)) t) eqn:E;
    [|reflexivity].
  rewrite forallb_forall in E. rewrite (E r Hin) in Hr. discriminate.
Qed.

Lemma drop_duplicates_raises {R} (subset : R -> list json) t e :
  drop_duplicates subset t = Raise e -> e = TypeError.
Proof.
  unfold drop_duplicates.
  destruct (forallb (fun r => forallb hashable (subset r)) t);
    [discriminate | congruence].
Qed.

(** ** Stable sorting *)

Section StableSortFacts.
Variable R : Type.
Variable leb : R -> R -> bool.
Hypothesis leb_total : forall x y, leb x y = true \/ leb y x = true.
Hypothesis leb_trans : forall x y z, leb x y = true -> leb y z = true -> leb x z = true.

Lemma insert_sorted_perm x l : Permutation (insert_sorted leb x l) (x :: l).
Proof.
  induction l as [|y l IH]; simpl; [reflexivity|].
  destruct (leb x y); [reflexivity|].
  rewrite IH. apply perm_swap.
Qed.

Lemma stable_sort_perm l : Permutation (stable_sort leb l) l.
Proof.
  induction l as [|x l IH]; simpl; [constructor|].
  rewrite insert_sorted_perm. constructor; assumption.
Qed.

Lemma insert_sorted_sorted x l :
  StronglySorted (fun a b => leb a b = true) l ->
  StronglySorted (fun a b => leb a b = true) (insert_sorted leb x l).
Proof.
  induction 1 as [|y l HS IH HF]; simpl.
  - constructor; constructor.
  - destruct (leb x y) eqn:E.
    + constructor; [constructor; assumption|].
      constructor; [assumption|].
      eapply Forall_impl; [|exact HF]. intros z Hz; eauto.
    + constructor; [assumption|].
      assert (Hyx : leb y x = true) by (destruct (leb_total x y); congruence).
      eapply Permutation_Forall; [symmetry; apply insert_sorted_perm|].
      constructor; assumption.
Qed.

Lemma stable_sort_sorted l :
  StronglySorted (fun a b => leb a b = true) (stable_sort leb l).
Proof.
  induction l as [|x l IH]; simpl; [constructor | apply insert_sorted_sorted; assumption].
Qed.

Lemma insert_sorted_filter k x l :
  filter (tied leb k) (insert_sorted leb x l) = filter (tied leb k) (x :: l).
Proof.
  induction l as [|y l IH]; [reflexivity|].
  cbn [insert_sorted]. destruct (leb x y) eqn:E; [reflexivity|].
  cbn [filter] in *. rewrite IH.
  destruct (tied leb k x) eqn:Kx; [|reflexivity].
  destruct (tied leb k y) eqn:Ky; [|reflexivity].
  unfold tied in Kx, Ky.
  apply andb_true_iff in Kx as [Kx1 Kx2], Ky as [Ky1 Ky2].
  rewrite (leb_trans Kx2 Ky1) in E. discriminate.
Qed.

(** Rows tied on the sort key keep their relative order. *)
Lemma stable_sort_stable k l :
  filter (tied leb k) (stable_sort leb l) = filter (tied leb k) l.
Proof.
  induction l as [|x l IH]; [reflexivity|].
  cbn [stable_sort]. rewrite insert_sorted_filter. cbn [filter]. rewrite IH. reflexivity.
Qed.
End StableSortFacts.

(** ** The order of the sort columns *)

Lemma ascii_compare_lt_trans a b c :
  Ascii.compare a b = Lt -> Ascii.compare b c = Lt -> Ascii.compare a c = Lt.
Proof. unfold Ascii.compare. rewrite !N.compare_lt_iff. lia. Qed.

Lemma ascii_compare_refl a : Ascii.compare a a = Eq.
Proof. unfold Ascii.compare; apply N.compare_refl. Qed.

Lemma string_compare_refl s : String.compare s s = Eq.
Proof.
  induction s as [|a s IH]; simpl; [reflexivity|].
  rewrite ascii_compare_refl; assumption.
Qed.

Lemma string_compare_lt_trans s1 : forall s2 s3,
  String.compare s1 s2 = Lt -> String.compare s2 s3 = Lt ->
  String.compare s1 s3 = Lt.
Proof.
  induction s1 as [|a s1 IH]; intros [|b s2] [|c s3]; simpl; try congruence.
  destruct (Ascii.compare a b) eqn:Hab; try discriminate;
    destruct (Ascii.compare b c) eqn:Hbc; try discriminate; intros H1 H2.
  - apply Ascii.compare_eq_iff in Hab, Hbc; subst.
    rewrite ascii_compare_refl. eauto.
  - apply Ascii.compare_eq_iff in Hab; subst. rewrite Hbc; reflexivity.
  - apply Ascii.compare_eq_iff in Hbc; subst. rewrite Hab; reflexivity.
  - rewrite (ascii_compare_lt_trans _ _ _ Hab Hbc); reflexivity.
Qed.

Lemma string_leb_trans s1 s2 s3 :
  String.leb s1 s2 = true -> String.leb s2 s3 = true -> String.leb s1 s3 = true.
Proof.
  unfold String.leb.
  destruct (String.compare s1 s2) eqn:H12; try discriminate;
    destruct (String.compare s2 s3) eqn:H23; try discriminate; intros _ _.
  - apply String.compare_eq_iff in H12, H23; subst.
    rewrite string_compare_refl; reflexivity.
  - apply String.compare_eq_iff in H12; subst. rewrite H23; reflexivity.
  - apply String.compare_eq_iff in H23; subst. rewrite H12; reflexivity.
  - rewrite (string_compare_lt_trans _ _ _ H12 H23); reflexivity.
Qed.

Lemma Qle_bool_total x y : Qle_bool x y = true \/ Qle_bool y x = true.
Proof.
  rewrite !Qle_bool_iff. destruct (Qlt_le_dec x y) as [H|H].
  - left; apply Qlt_le_weak; assumption.
  - right; assumption.
Qed.

Lemma Qle_bool_trans x y z :
  Qle_bool x y = true -> Qle_bool y z = true -> Qle_bool x z = true.
Proof. rewrite !Qle_bool_iff. apply Qle_trans. Qed.

Lemma pandas_key_kind v :
  (exists q, pandas_key v = JNum q)
  \/ (exists s, pandas_key v = JStr s)
  \/ pandas_key v = JNull
  \/ (exists l, pandas_key v = JList l)
  \/ (exists f, pandas_key v = JObj f).
Proof. destruct v; simpl; eauto 7. Qed.

Lemma cell_leb_total a b : cell_leb a b = true \/ cell_leb b a = true.
Proof.
  unfold cell_leb, sort_rank.
  destruct (pandas_key a), (pandas_key b); simpl;
    auto using Qle_bool_total, String.leb_total.
Qed.

Lemma cell_leb_trans a b c :
  cell_leb a b = true -> cell_leb b c = true -> cell_leb a c = true.
Proof.
  unfold cell_leb, sort_rank.
  destruct (pandas_key a), (pandas_key b), (pandas_key c); simpl;
    try congruence; try (intros; reflexivity).
  - apply Qle_bool_trans.
  - apply string_leb_trans.
Qed.

Lemma time_leb_total a b : time_leb a b = true \/ time_leb b a = true.
Proof.
  destruct a as [[|x]|], b as [[|y]|]; simpl; auto.
  rewrite !Z.leb_le; lia.
Qed.

Lemma time_leb_trans a b c :
  time_leb a b = true -> time_leb b c = true -> time_leb a c = true.
Proof.
  destruct a as [[|x]|], b as [[|y]|], c as [[|z]|]; simpl; try congruence.
  rewrite !Z.leb_le; lia.
Qed.

Lemma sort_key_leb_total k1 k2 :
  sort_key_leb k1 k2 = true \/ sort_key_leb k2 k1 = true.
Proof.
  unfold sort_key_leb.
  destruct (cell_leb_total (fst k1) (fst k2)) as [H|H]; rewrite H;
    destruct (cell_leb (fst k2) (fst k1)) eqn:E;
    destruct (cell_leb (fst k1) (fst k2)) eqn:E'; try discriminate; auto;
    apply time_leb_total.
Qed.

Lemma sort_key_leb_trans k1 k2 k3 :
  sort_key_leb k1 k2 = true -> sort_key_leb k2 k3 = true ->
  sort_key_leb k1 k3 = true.
Proof.
  unfold sort_key_leb.
  destruct (cell_leb (fst k1) (fst k2)) eqn:E12; [|discriminate].
  destruct (cell_leb (fst k2) (fst k3)) eqn:E23; [|intros _; discriminate].
  rewrite (cell_leb_trans _ _ _ E12 E23).
  destruct (cell_leb (fst k3) (fst k1)) eqn:E31; [|reflexivity].
  rewrite (cell_leb_trans _ _ _ E23 E31), (cell_leb_trans _ _ _ E31 E12).
  apply time_leb_trans.
Qed.

(** The sort permutes the table, sorts it, and is stable. *)
Lemma lexsort_perm {R} (sort_key : R -> json * option timestamp) t :
  Permutation (lexsort sort_key t) t.
Proof. apply stable_sort_perm. Qed.

Lemma lexsort_sorted {R} (sort_key : R -> json * option timestamp) t :
  StronglySorted (sorted_by sort_key) (lexsort sort_key t).
Proof.
  apply stable_sort_sorted.
  - intros; apply sort_key_leb_total.
  - intros x y z; apply sort_key_leb_trans.
Qed.

Lemma lexsort_stable {R} (sort_key : R -> json * option timestamp) k t :
  filter (tied_with sort_key k) (lexsort sort_key t)
  = filter (tied_with sort_key k) t.
Proof.
  apply (stable_sort_stable (fun x y => sort_key_leb (sort_key x) (sort_key y))).
  intros x y z; apply sort_key_leb_trans.
Qed.

Lemma sort_values_Ok {R} (sort_key : R -> json * option timestamp) t t' :
  sort_values sort_key t = Ok t' ->
  forallb (fun r => hashable (fst (sort_key r))) t = true
  /\ t' = lexsort sort_key t.
Proof.
  unfold sort_values.
  destruct (forallb (fun r => hashable (fst (sort_key r))) t); [|discriminate].
  intros H; injection H as <-. split; reflexivity.
Qed.

Lemma sort_values_hashable {R} (sort_key : R -> json * option timestamp) t :
  forallb (fun r => hashable (fst (sort_key r))) t = true ->
  sort_values sort_key t = Ok (lexsort sort_key t).
Proof. unfold sort_values. intros ->. reflexivity. Qed.

Lemma sort_values_raises {R} (sort_key : R -> json * option timestamp) t e :
  sort_values sort_key t = Raise e -> e = TypeError.
Proof.
  unfold sort_values.
  destruct (forallb (fun r => hashable (fst (sort_key r))) t);
    [discriminate | congruence].
Qed.

(** On string ids and proper timestamps the order is the expected one:
    by id as Python compares strings, then by instant. *)
Lemma sort_key_leb_strings a b x y :
  sort_key_leb (JStr a, Some (Timestamp x)) (JStr b, Some (Timestamp y))
  = match String.compare a b with
    | Lt => true
    | Eq => Z.leb x y
    | Gt => false
    end.
Proof.
  unfold sort_key_leb, cell_leb, String.leb; simpl.
  rewrite (String.compare_antisym a b).
  destruct (String.compare b a); reflexivity.
Qed.

(** Rows without a market id, and rows of a market without a publish
    time, come last. *)
Lemma sort_key_leb_nulls_last a x t :
  sort_key_leb (JStr a, t) (JNull, Some (Timestamp x)) = true
  /\ sort_key_leb (JNull, Some (Timestamp x)) (JStr a, t) = false
  /\ sort_key_leb (JStr a, Some (Timestamp x)) (JStr a, None) = true
  /\ sort_key_leb (JStr a, None) (JStr a, Some (Timestamp x)) = false.
Proof.
  unfold sort_key_leb, cell_leb, String.leb; simpl.
  rewrite string_compare_refl. repeat split; reflexivity.
Qed.

(** ** parse_betfair_stream: the rows of a block *)

Ltac inv_bind :=
  repeat match goal with
         | H : bind _ _ = Ok _ |- _ =>
             let a := fresh "v" in
             let E := fresh "E" in
             apply bind_Ok_inv in H as (a & E & H)
         | H : Ok _ = Ok _ |- _ => injection H as H
         end.

Lemma app_streams_assoc a b c :
  app_streams a (app_streams b c) = app_streams (app_streams a b) c.
Proof. unfold app_streams; simpl; rewrite !app_assoc; reflexivity. Qed.

Lemma app_streams_unit_l a : app_streams no_streams a = a.
Proof. destruct a; reflexivity. Qed.

Lemma app_streams_unit_r a : app_streams a no_streams = a.
Proof. destruct a; unfold app_streams; simpl; rewrite !app_nil_r; reflexivity. Qed.

Lemma streams_loop {A} (body : Streams -> A -> result Streams) :
  appending app_streams no_streams body ->
  forall xs s,
    for_each body xs s
    = (e <- for_each body xs no_streams ;; Ok (app_streams s e)).
Proof.
  intros Hb xs s.
  exact (for_each_appending app_streams_assoc app_streams_unit_r Hb s xs).
Qed.

Lemma runner_static_loop_appending mid t :
  appending app_streams no_streams
    (fun s runner =>
       r <- runner_static_record mid t runner ;; Ok (append_runner_static s r)).
Proof.
  intros s x. destruct (runner_static_record mid t x); simpl; [|reflexivity].
  unfold append_runner_static, app_streams; simpl. rewrite !app_nil_r; reflexivity.
Qed.

Lemma runner_change_loop_appending mid t :
  appending app_streams no_streams
    (fun s rc =>
       r <- runner_change_record mid t rc ;; Ok (append_runner_change s r)).
Proof.
  intros s x. destruct (runner_change_record mid t x); simpl; [|reflexivity].
  unfold append_runner_change, app_streams; simpl. rewrite !app_nil_r; reflexivity.
Qed.

Lemma parse_definition_appending mid t :
  appending app_streams no_streams (parse_definition mid t).
Proof.
  intros s market. unfold parse_definition.
  destruct (py_contains "marketDefinition" market) as [[|]|]; simpl;
    [ | rewrite app_streams_unit_r; reflexivity | reflexivity].
  destruct (py_getitem market "marketDefinition") as [d|]; simpl; [|reflexivity].
  destruct (market_record mid t d) as [r|]; simpl; [|reflexivity].
  destruct (py_contains "runners" d) as [[|]|]; simpl; [ | | reflexivity].
  - destruct (py_getitem d "runners") as [rs|]; simpl; [|reflexivity].
    destruct (py_iter rs) as [it|]; simpl; [|reflexivity].
    rewrite (streams_loop (runner_static_loop_appending mid t) it (append_market s r)).
    rewrite (streams_loop (runner_static_loop_appending mid t) it
               (append_market no_streams r)).
    destruct (for_each _ it no_streams) as [e|]; simpl; [|reflexivity].
    unfold app_streams, append_market; simpl. rewrite <- ?app_assoc; reflexivity.
  - unfold app_streams, append_market; simpl. rewrite !app_nil_r; reflexivity.
Qed.

Lemma parse_changes_appending mid t :
  appending app_streams no_streams (parse_changes mid t).
Proof.
  intros s market. unfold parse_changes.
  destruct (py_contains "rc" market) as [[|]|]; simpl;
    [ | rewrite app_streams_unit_r; reflexivity | reflexivity].
  destruct (py_getitem market "rc") as [c|]; simpl; [|reflexivity].
  destruct (py_iter c) as [it|]; simpl; [|reflexivity].
  apply (streams_loop (runner_change_loop_appending mid t)).
Qed.

Lemma parse_market_appending t :
  appending app_streams no_streams (parse_market t).
Proof.
  intros s market. unfold parse_market.
  destruct (py_get market "id") as [mid|]; simpl; [|reflexivity].
  rewrite (parse_definition_appending mid t s market).
  destruct (parse_definition mid t no_streams market) as [e1|]; simpl; [|reflexivity].
  rewrite (parse_changes_appending mid t (app_streams s e1) market).
  rewrite (parse_changes_appending mid t e1 market).
  destruct (parse_changes mid t no_streams market) as [e2|]; simpl; [|reflexivity].
  rewrite app_streams_assoc; reflexivity.
Qed.

Lemma parse_row_appending df :
  appending app_streams no_streams (parse_row df).
Proof.
  intros s row. unfold parse_row.
  destruct (blocks_of df row) as [[mc_data|]|]; simpl;
    [ | rewrite app_streams_unit_r; reflexivity | reflexivity].
  destruct (publish_time_of df row) as [t|]; simpl; [|reflexivity].
  apply (streams_loop (parse_market_appending t)).
Qed.

Lemma market_record_stamp mid t d r :
  market_record mid t d = Ok r ->
  Market.market_id r = mid /\ Market.publish_time r = t.
Proof. unfold market_record; intros H; inv_bind; subst; split; reflexivity. Qed.

Lemma runner_static_record_stamp mid t x r :
  runner_static_record mid t x = Ok r ->
  RunnerStatic.market_id r = mid /\ RunnerStatic.publish_time r = t.
Proof. unfold runner_static_record; intros H; inv_bind; subst; split; reflexivity. Qed.

Lemma runner_change_record_stamp mid t x r :
  runner_change_record mid t x = Ok r ->
  RunnerChange.market_id r = mid /\ RunnerChange.publish_time r = t.
Proof. unfold runner_change_record; intros H; inv_bind; subst; split; reflexivity. Qed.

Lemma stamped_nil mid t : stamped mid t no_streams.
Proof. repeat split; constructor. Qed.

Lemma parse_definition_stamped mid t market s s' :
  stamped mid t s -> parse_definition mid t s market = Ok s' -> stamped mid t s'.
Proof.
  intros Hs H. unfold parse_definition in H.
  apply bind_Ok_inv in H as ([|] & _ & H); [|injection H as <-; exact Hs].
  apply bind_Ok_inv in H as (d & _ & H).
  apply bind_Ok_inv in H as (r & Hr & H).
  apply market_record_stamp in Hr.
  assert (Hs1 : stamped mid t (append_market s r)).
  { destruct Hs as (H1 & H2 & H3). repeat split; simpl; try assumption.
    apply Forall_app; split; [assumption | constructor; [assumption | constructor]]. }
  apply bind_Ok_inv in H as ([|] & _ & H); [|injection H as <-; exact Hs1].
  apply bind_Ok_inv in H as (rs & _ & H).
  apply bind_Ok_inv in H as (it & _ & H).
  revert H. apply for_each_invariant; [|exact Hs1].
  intros s0 x s1 (H1 & H2 & H3) Hb.
  apply bind_Ok_inv in Hb as (r0 & Hr0 & Hb). injection Hb as <-.
  apply runner_static_record_stamp in Hr0.
  repeat split; simpl; try assumption.
  apply Forall_app; split; [assumption | constructor; [assumption | constructor]].
Qed.

Lemma parse_changes_stamped mid t market s s' :
  stamped mid t s -> parse_changes mid t s market = Ok s' -> stamped mid t s'.
Proof.
  intros Hs H. unfold parse_changes in H.
  apply bind_Ok_inv in H as ([|] & _ & H); [|injection H as <-; exact Hs].
  apply bind_Ok_inv in H as (c & _ & H).
  apply bind_Ok_inv in H as (it & _ & H).
  revert H. apply for_each_invariant; [|exact Hs].
  intros s0 x s1 (H1 & H2 & H3) Hb.
  apply bind_Ok_inv in Hb as (r0 & Hr0 & Hb). injection Hb as <-.
  apply runner_change_record_stamp in Hr0.
  repeat split; simpl; try assumption.
  apply Forall_app; split; [assumption | constructor; [assumption | constructor]].
Qed.

(** Every row a block emits carries the block's [id] and the publish time
    the loop over the blocks was entered with. *)
Lemma parse_market_stamped t market e :
  parse_market t no_streams market = Ok e ->
  exists mid, py_get market "id" = Ok mid /\ stamped mid t e.
Proof.
  unfold parse_market; intros H.
  apply bind_Ok_inv in H as (mid & Hid & H).
  apply bind_Ok_inv in H as (s1 & H1 & H).
  exists mid; split; [assumption|].
  eapply parse_changes_stamped; [|exact H].
  eapply parse_definition_stamped; [apply stamped_nil | exact H1].
Qed.

Lemma fold_app_streams_app l1 l2 :
  fold_right app_streams no_streams (l1 ++ l2)
  = app_streams (fold_right app_streams no_streams l1)
                (fold_right app_streams no_streams l2).
Proof.
  induction l1 as [|e l1 IH]; simpl.
  - rewrite app_streams_unit_l; reflexivity.
  - rewrite IH, app_streams_assoc; reflexivity.
Qed.

Lemma Forall2_In_l {A B} (P : A -> B -> Prop) xs ys x :
  Forall2 P xs ys -> In x xs -> exists y, In y ys /\ P x y.
Proof.
  induction 1 as [|x' y xs ys HP HF IH]; intros Hin; [contradiction|].
  destruct Hin as [->|Hin].
  - exists y; split; [left; reflexivity | assumption].
  - destruct (IH Hin) as (y' & Hy & Hp). exists y'; split; [right; assumption | assumption].
Qed.

Lemma Forall2_In_r {A B} (P : A -> B -> Prop) xs ys y :
  Forall2 P xs ys -> In y ys -> exists x, In x xs /\ P x y.
Proof.
  induction 1 as [|x y' xs ys HP HF IH]; intros Hin; [contradiction|].
  destruct Hin as [->|Hin].
  - exists x; split; [left; reflexivity | assumption].
  - destruct (IH Hin) as (x' & Hx & Hp). exists x'; split; [right; assumption | assumption].
Qed.

(** The streams of a frame are the concatenation, in order, of what each
    block of each line emits. *)
Lemma parse_rows_blocks df : forall ls s,
  for_each (parse_row df) ls no_streams = Ok s ->
  exists ems,
    s = fold_right app_streams no_streams ems
    /\ Forall (fun e => exists row market t,
                 In row ls
                 /\ (exists mc_data, blocks_of df row = Ok (Some mc_data)
                                     /\ In market mc_data)
                 /\ publish_time_of df row = Ok t
                 /\ parse_market t no_streams market = Ok e) ems.
Proof.
  induction ls as [|row ls IH]; intros s H; simpl in H.
  - injection H as <-. exists []; split; [reflexivity | constructor].
  - apply bind_Ok_inv in H as (e0 & H0 & H).
    rewrite (streams_loop (parse_row_appending df)) in H.
    apply bind_Ok_inv in H as (e & He & H). injection H as <-.
    destruct (IH e He) as (ems & -> & HF).
    assert (H0' : exists ems0,
               e0 = fold_right app_streams no_streams ems0
               /\ Forall (fun e => exists market t,
                            (exists mc_data, blocks_of df row = Ok (Some mc_data)
                                             /\ In market mc_data)
                            /\ publish_time_of df row = Ok t
                            /\ parse_market t no_streams market = Ok e) ems0).
    { unfold parse_row in H0.
      apply bind_Ok_inv in H0 as ([mc_data|] & Hb & H0).
      - apply bind_Ok_inv in H0 as (t & Ht & H0).
        destruct (for_each_emissions app_streams_assoc app_streams_unit_r
                    (parse_market_appending t) mc_data H0) as (es & HF2 & ->).
        exists es; split; [reflexivity|].
        apply Forall_forall; intros e' He'.
        destruct (@Forall2_In_r _ _ _ _ _ _ HF2 He') as (market & Hm & Hp).
        exists market, t. repeat split; try assumption.
        exists mc_data; split; assumption.
      - injection H0 as <-. exists []; split; [reflexivity | constructor]. }
    destruct H0' as (ems0 & -> & HF0).
    exists (ems0 ++ ems); split; [symmetry; apply fold_app_streams_app|].
    apply Forall_app; split.
    + eapply Forall_impl; [|exact HF0].
      intros e' (market & t & Hb & Ht & Hp).
      exists row, market, t. repeat split; try assumption. left; reflexivity.
    + eapply Forall_impl; [|exact HF].
      intros e' (row' & market & t & Hin & Hrest).
      exists row', market, t. split; [right; assumption | assumption].
Qed.

Lemma market_records_fold ems :
  market_records (fold_right app_streams no_streams ems)
  = flat_map market_records ems.
Proof. induction ems as [|e l IH]; simpl; [reflexivity | rewrite IH; reflexivity]. Qed.

Lemma runner_static_records_fold ems :
  runner_static_records (fold_right app_streams no_streams ems)
  = flat_map runner_static_records ems.
Proof. induction ems as [|e l IH]; simpl; [reflexivity | rewrite IH; reflexivity]. Qed.

Lemma runner_change_records_fold ems :
  runner_change_records (fold_right app_streams no_streams ems)
  = flat_map runner_change_records ems.
Proof. induction ems as [|e l IH]; simpl; [reflexivity | rewrite IH; reflexivity]. Qed.

Lemma parse_betfair_stream_blocks df s :
  parse_betfair_stream df = Ok s ->
  exists ems,
    s = fold_right app_streams no_streams ems
    /\ Forall (fun e => exists row market t, emitted_by df row market t e) ems.
Proof.
  unfold parse_betfair_stream. destruct (empty df).
  - intros H; injection H as <-. exists []; split; [reflexivity | constructor].
  - intros H. destruct (parse_rows_blocks df (rows df) H) as (ems & -> & HF).
    exists ems; split; [reflexivity|].
    eapply Forall_impl; [|exact HF].
    intros e (row & market & t & H1 & H2 & H3 & H4).
    exists row, market, t. repeat split; assumption.
Qed.

(** C4: every row [parse_betfair_stream] emits comes from one block of one
    line of the frame; its [market_id] is the [id] of that block and its
    [publish_time] is the publish time derived (once, before the loop over
    the blocks) from the [pt] of that line. *)
Theorem C4_rows_carry_block_id_and_record_time (df : DataFrame) (s : Streams) :
  parse_betfair_stream df = Ok s ->
  (forall r, In r (market_records s) ->
     exists row market e,
       emitted_by df row market (Market.publish_time r) e
       /\ In r (market_records e)
       /\ py_get market "id" = Ok (Market.market_id r))
  /\ (forall r, In r (runner_static_records s) ->
        exists row market e,
          emitted_by df row market (RunnerStatic.publish_time r) e
          /\ In r (runner_static_records e)
          /\ py_get market "id" = Ok (RunnerStatic.market_id r))
  /\ (forall r, In r (runner_change_records s) ->
        exists row market e,
          emitted_by df row market (RunnerChange.publish_time r) e
          /\ In r (runner_change_records e)
          /\ py_get market "id" = Ok (RunnerChange.market_id r)).
Proof.
  intros H. destruct (parse_betfair_stream_blocks df H) as (ems & -> & HF).
  rewrite Forall_forall in HF.
  repeat split; intros r Hr.
  - rewrite market_records_fold in Hr. apply in_flat_map in Hr as (e & He & Hr).
    destruct (HF e He) as (row & market & t & Hem).
    pose proof Hem as (_ & _ & _ & Hp).
    apply parse_market_stamped in Hp as (mid & Hid & (H1 & _ & _)).
    rewrite Forall_forall in H1. destruct (H1 r Hr) as [<- <-].
    exists row, market, e. split; [exact Hem | split; assumption].
  - rewrite runner_static_records_fold in Hr.
    apply in_flat_map in Hr as (e & He & Hr).
    destruct (HF e He) as (row & market & t & Hem).
    pose proof Hem as (_ & _ & _ & Hp).
    apply parse_market_stamped in Hp as (mid & Hid & (_ & H1 & _)).
    rewrite Forall_forall in H1. destruct (H1 r Hr) as [<- <-].
    exists row, market, e. split; [exact Hem | split; assumption].
  - rewrite runner_change_records_fold in Hr.
    apply in_flat_map in Hr as (e & He & Hr).
    destruct (HF e He) as (row & market & t & Hem).
    pose proof Hem as (_ & _ & _ & Hp).
    apply parse_market_stamped in Hp as (mid & Hid & (_ & _ & H1)).
    rewrite Forall_forall in H1. destruct (H1 r Hr) as [<- <-].
    exists row, market, e. split; [exact Hem | split; assumption].
Qed.

(** ** The block field and the rows of empty lines and blocks *)

Lemma skip_if_na_total v : exists b, skip_if_na v = Ok b.
Proof.
  unfold skip_if_na, isna_truth.
  destruct v as [| | | |l|]; eauto.
  destruct l as [|x l]; eauto.
  destruct (np_only_cell (JList (x :: l))); eauto.
Qed.



(** ** Blocks without an id *)









(** ** Falsy timestamps *)

Lemma lookup_remove_key k k' f :
  lookup k (remove_key k' f)
  = if String.eqb k' k then None else lookup k f.
Proof.
  induction f as [|[k0 v0] f IH]; simpl.
  - destruct (String.eqb k' k); reflexivity.
  - destruct (String.eqb k' k0) eqn:E0; simpl.
    + rewrite IH. apply String.eqb_eq in E0; subst k0.
      rewrite (String.eqb_sym k k'). destruct (String.eqb k' k); reflexivity.
    + rewrite IH. destruct (String.eqb k' k) eqn:E; [|reflexivity].
      apply String.eqb_eq in E; subst k.
      rewrite E0; reflexivity.
Qed.

Lemma py_get_remove_key k k' f :
  String.eqb k' k = false ->
  py_get (JObj (remove_key k' f)) k = py_get (JObj f) k.
Proof. intros E; simpl. rewrite lookup_remove_key, E; reflexivity. Qed.

Lemma datetime_if_truthy_falsy f k v :
  lookup k f = Some v -> py_truthy v = false ->
  datetime_if_truthy (JObj f) k = Ok None.
Proof. intros Hl Hv. unfold datetime_if_truthy; simpl. rewrite Hl; simpl. rewrite Hv; reflexivity. Qed.

Lemma datetime_if_truthy_absent f k :
  datetime_if_truthy (JObj (remove_key k f)) k = Ok None.
Proof.
  unfold datetime_if_truthy; simpl.
  rewrite lookup_remove_key, String.eqb_refl; reflexivity.
Qed.

(** C9: a [removalDate] that is present but falsy gives a null
    [removal_date], and the row is the one the runner entry would give
    without the field; [create_reference_tables] does the same with a
    falsy [marketTime].  In neither case is [pd.to_datetime] called. *)
Theorem C9_falsy_timestamp_fields_are_null (f : list (string * json))
    (v : json) :
  py_truthy v = false ->
  (lookup "removalDate" f = Some v ->
   forall mid t,
   exists r,
     runner_static_record mid t (JObj f) = Ok r
     /\ RunnerStatic.removal_date r = None
     /\ runner_static_record mid t (JObj (remove_key "removalDate" f)) = Ok r)
  /\ (lookup "marketTime" f = Some v ->
      forall mid,
      exists r,
        market_metadata_record mid (JObj f) = Ok r
        /\ MarketMeta.market_time r = None
        /\ market_metadata_record mid (JObj (remove_key "marketTime" f)) = Ok r).
Proof.
  intros Hv; split; intros Hl.
  - intros mid t. unfold runner_static_record.
    rewrite (datetime_if_truthy_falsy _ _ Hl Hv), datetime_if_truthy_absent.
    rewrite !py_get_remove_key by reflexivity.
    simpl.
    repeat match goal with
           | |- context [match lookup ?k f with _ => _ end] =>
               destruct (lookup k f)
           end; simpl; eexists; repeat split.
  - intros mid. unfold market_metadata_record.
    rewrite (datetime_if_truthy_falsy _ _ Hl Hv), datetime_if_truthy_absent.
    rewrite !py_get_remove_key by reflexivity.
    simpl.
    repeat match goal with
           | |- context [match lookup ?k f with _ => _ end] =>
               destruct (lookup k f)
           end; simpl; eexists; repeat split.
Qed.

(** ** create_reference_tables *)

Lemma app_metadata_assoc a b c :
  app_metadata a (app_metadata b c) = app_metadata (app_metadata a b) c.
Proof. unfold app_metadata; simpl; rewrite !app_assoc; reflexivity. Qed.

Lemma app_metadata_unit_l a : app_metadata no_metadata a = a.
Proof. destruct a; reflexivity. Qed.

Lemma app_metadata_unit_r a : app_metadata a no_metadata = a.
Proof. destruct a; unfold app_metadata; simpl; rewrite !app_nil_r; reflexivity. Qed.

Lemma metadata_loop {A} (body : Metadata -> A -> result Metadata) :
  appending app_metadata no_metadata body ->
  forall xs s,
    for_each body xs s
    = (e <- for_each body xs no_metadata ;; Ok (app_metadata s e)).
Proof.
  intros Hb xs s.
  exact (for_each_appending app_metadata_assoc app_metadata_unit_r Hb s xs).
Qed.

Lemma runner_metadata_loop_appending mid :
  appending app_metadata no_metadata
    (fun m runner =>
       r <- runner_metadata_record mid runner ;; Ok (append_runner_metadata m r)).
Proof.
  intros s x. destruct (runner_metadata_record mid x); simpl; [|reflexivity].
  unfold append_runner_metadata, app_metadata; simpl. rewrite !app_nil_r; reflexivity.
Qed.

Lemma reference_market_appending :
  appending app_metadata no_metadata reference_market.
Proof.
  intros s market. unfold reference_market.
  destruct (py_contains "marketDefinition" market) as [[|]|]; simpl;
    [ | rewrite app_metadata_unit_r; reflexivity | reflexivity].
  destruct (py_getitem market "marketDefinition") as [d|]; simpl; [|reflexivity].
  destruct (py_get market "id") as [mid|]; simpl; [|reflexivity].
  destruct (market_metadata_record mid d) as [r|]; simpl; [|reflexivity].
  destruct (py_contains "runners" d) as [[|]|]; simpl; [ | | reflexivity].
  - destruct (py_getitem d "runners") as [rs|]; simpl; [|reflexivity].
    destruct (py_iter rs) as [it|]; simpl; [|reflexivity].
    rewrite (metadata_loop (runner_metadata_loop_appending mid) it
               (append_market_metadata s r)).
    rewrite (metadata_loop (runner_metadata_loop_appending mid) it
               (append_market_metadata no_metadata r)).
    destruct (for_each _ it no_metadata) as [e|]; simpl; [|reflexivity].
    unfold app_metadata, append_market_metadata; simpl.
    rewrite <- ?app_assoc; reflexivity.
  - unfold app_metadata, append_market_metadata; simpl.
    rewrite !app_nil_r; reflexivity.
Qed.

Lemma reference_row_appending df :
  appending app_metadata no_metadata (reference_row df).
Proof.
  intros s row. unfold reference_row.
  destruct (blocks_of df row) as [[mc_data|]|]; simpl;
    [ | rewrite app_metadata_unit_r; reflexivity | reflexivity].
  apply (metadata_loop reference_market_appending).
Qed.

Lemma reference_frame_appending :
  appending app_metadata no_metadata reference_frame.
Proof.
  intros s df. unfold reference_frame. destruct (empty df); simpl.
  - rewrite app_metadata_unit_r; reflexivity.
  - apply (metadata_loop (reference_row_appending df)).
Qed.

Lemma fold_app_metadata_app l1 l2 :
  fold_right app_metadata no_metadata (l1 ++ l2)
  = app_metadata (fold_right app_metadata no_metadata l1)
                 (fold_right app_metadata no_metadata l2).
Proof.
  induction l1 as [|e l1 IH]; simpl.
  - rewrite app_metadata_unit_l; reflexivity.
  - rewrite IH, app_metadata_assoc; reflexivity.
Qed.

Lemma market_metadata_fold ems :
  market_metadata (fold_right app_metadata no_metadata ems)
  = flat_map market_metadata ems.
Proof. induction ems as [|e l IH]; simpl; [reflexivity | rewrite IH; reflexivity]. Qed.

Lemma runner_metadata_fold ems :
  runner_metadata (fold_right app_metadata no_metadata ems)
  = flat_map runner_metadata ems.
Proof. induction ems as [|e l IH]; simpl; [reflexivity | rewrite IH; reflexivity]. Qed.

Lemma reference_row_blocks df row e :
  reference_row df no_metadata row = Ok e ->
  exists ems, e = fold_right app_metadata no_metadata ems
              /\ Forall2 extracted_from (row_blocks df row) ems.
Proof.
  unfold reference_row, row_blocks. intros H.
  apply bind_Ok_inv in H as ([mc_data|] & -> & H).
  - destruct (for_each_emissions app_metadata_assoc app_metadata_unit_r
                reference_market_appending mc_data H) as (es & HF & ->).
    exists es; split; [reflexivity | exact HF].
  - injection H as <-. exists []; split; [reflexivity | constructor].
Qed.

Lemma reference_rows_blocks df : forall ls e,
  for_each (reference_row df) ls no_metadata = Ok e ->
  exists ems, e = fold_right app_metadata no_metadata ems
              /\ Forall2 extracted_from (flat_map (row_blocks df) ls) ems.
Proof.
  induction ls as [|row ls IH]; intros e H; simpl in H.
  - injection H as <-. exists []; split; [reflexivity | constructor].
  - apply bind_Ok_inv in H as (e0 & H0 & H).
    rewrite (metadata_loop (reference_row_appending df)) in H.
    apply bind_Ok_inv in H as (e1 & H1 & H). injection H as <-.
    destruct (reference_row_blocks df row H0) as (ems0 & -> & HF0).
    destruct (IH e1 H1) as (ems1 & -> & HF1).
    exists (ems0 ++ ems1); split; [symmetry; apply fold_app_metadata_app|].
    simpl. apply Forall2_app; assumption.
Qed.

Lemma reference_frame_blocks df e :
  reference_frame no_metadata df = Ok e ->
  exists ems, e = fold_right app_metadata no_metadata ems
              /\ Forall2 extracted_from (frame_blocks df) ems.
Proof.
  unfold reference_frame, frame_blocks. destruct (empty df).
  - intros H; injection H as <-. exists []; split; [reflexivity | constructor].
  - apply reference_rows_blocks.
Qed.

(** The collected metadata is the concatenation, in traversal order, of
    what each block yields. *)
Lemma collect_metadata_blocks : forall df_list md,
  collect_metadata df_list = Ok md ->
  exists ems, md = fold_right app_metadata no_metadata ems
              /\ Forall2 extracted_from (traversal_blocks df_list) ems.
Proof.
  unfold collect_metadata. change (mkMetadata [] []) with no_metadata.
  induction df_list as [|df dfs IH]; intros md H; simpl in H.
  - injection H as <-. exists []; split; [reflexivity | constructor].
  - apply bind_Ok_inv in H as (e0 & H0 & H).
    rewrite (metadata_loop reference_frame_appending) in H.
    apply bind_Ok_inv in H as (e1 & H1 & H). injection H as <-.
    destruct (reference_frame_blocks df H0) as (ems0 & -> & HF0).
    destruct (IH e1 H1) as (ems1 & -> & HF1).
    exists (ems0 ++ ems1); split; [symmetry; apply fold_app_metadata_app|].
    unfold traversal_blocks; simpl. apply Forall2_app; assumption.
Qed.

(** What one block yields: nothing without a definition; with one, a
    single market row read from that definition, and one runner row for
    each entry of its [runners] visited, all under the block's own id. *)
Lemma extracted_from_block market e :
  extracted_from market e ->
  (py_contains "marketDefinition" market = Ok false /\ e = no_metadata)
  \/ (exists d mid r,
        py_contains "marketDefinition" market = Ok true
        /\ py_getitem market "marketDefinition" = Ok d
        /\ py_get market "id" = Ok mid
        /\ market_metadata_record mid d = Ok r
        /\ market_metadata e = [r]
        /\ Forall (fun x => exists runner,
                              runner_metadata_record mid runner = Ok x)
                  (runner_metadata e)).
Proof.
  unfold extracted_from, reference_market. intros H.
  apply bind_Ok_inv in H as ([|] & Hc & H); simpl in H;
    [|left; injection H as <-; split; [assumption | reflexivity]].
  right.
  apply bind_Ok_inv in H as (d & Hd & H).
  apply bind_Ok_inv in H as (mid & Hm & H).
  apply bind_Ok_inv in H as (r & Hr & H).
  exists d, mid, r. repeat (split; [assumption|]).
  assert (P0 : market_metadata (append_market_metadata no_metadata r) = [r]
               /\ Forall (fun x => exists runner,
                                     runner_metadata_record mid runner = Ok x)
                         (runner_metadata (append_market_metadata no_metadata r)))
    by (split; [reflexivity | constructor]).
  apply bind_Ok_inv in H as ([|] & _ & H); [|injection H as <-; exact P0].
  apply bind_Ok_inv in H as (rs & _ & H).
  apply bind_Ok_inv in H as (it & _ & H).
  revert H.
  apply (for_each_invariant
           (fun m => market_metadata m = [r]
                     /\ Forall (fun x => exists runner,
                                           runner_metadata_record mid runner
                                           = Ok x)
                               (runner_metadata m))); [|exact P0].
  intros s x s' [P1 P2] Hb.
  apply bind_Ok_inv in Hb as (r0 & Hr0 & Hb). injection Hb as <-.
  split; [exact P1|]. simpl.
  apply Forall_app; split; [assumption|].
  constructor; [|constructor]. exists x; assumption.
Qed.

Lemma runner_metadata_record_id mid runner r :
  runner_metadata_record mid runner = Ok r -> RunnerMeta.market_id r = mid.
Proof. unfold runner_metadata_record; intros H; inv_bind; subst; reflexivity. Qed.

Lemma market_metadata_record_id mid d r :
  market_metadata_record mid d = Ok r -> MarketMeta.market_id r = mid.
Proof. unfold market_metadata_record; intros H; inv_bind; subst; reflexivity. Qed.

Lemma runner_metadata_loop_rows mid it : forall md md',
  for_each (fun m runner =>
              r <- runner_metadata_record mid runner ;;
              Ok (append_runner_metadata m r)) it md = Ok md' ->
  exists rs,
    Forall2 (fun x r => runner_metadata_record mid x = Ok r) it rs
    /\ md' = mkMetadata (market_metadata md) (runner_metadata md ++ rs).
Proof.
  induction it as [|x it IH]; intros md md' H; simpl in H.
  - injection H as <-. exists []; split; [constructor|].
    rewrite app_nil_r; destruct md; reflexivity.
  - apply bind_Ok_inv in H as (m1 & H1 & H).
    apply bind_Ok_inv in H1 as (r & Hr & H1). injection H1 as <-.
    destruct (IH _ _ H) as (rs & HF & ->).
    exists (r :: rs); split; [constructor; assumption|].
    simpl. rewrite <- app_assoc. reflexivity.
Qed.

(** The runner rows extracted from a block follow the entries of its
    definition's [runners]. *)
Lemma extracted_from_runners market em d rs it :
  extracted_from market em ->
  py_contains "marketDefinition" market = Ok true ->
  py_getitem market "marketDefinition" = Ok d ->
  py_getitem d "runners" = Ok rs -> py_iter rs = Ok it ->
  py_contains "runners" d = Ok true ->
  exists mid,
    py_get market "id" = Ok mid
    /\ Forall2 (fun x r => runner_metadata_record mid x = Ok r) it
               (runner_metadata em).
Proof.
  unfold extracted_from, reference_market. intros H Hc Hd Hrs Hit Hrun.
  rewrite Hc, Hd in H. cbn [bind negb] in H.
  apply bind_Ok_inv in H as (mid & Hm & H).
  apply bind_Ok_inv in H as (r & Hr & H).
  rewrite Hrun in H. cbn [bind] in H. rewrite Hrs in H. cbn [bind] in H.
  rewrite Hit in H. cbn [bind] in H.
  apply runner_metadata_loop_rows in H as (rows & HF & ->).
  exists mid. split; [assumption | exact HF].
Qed.

Lemma runner_static_record_id mid t x r :
  runner_static_record mid t x = Ok r ->
  py_get x "id" = Ok (RunnerStatic.runner_id r).
Proof. unfold runner_static_record; intros H; inv_bind; subst; assumption. Qed.

Lemma runner_metadata_record_runner_id mid x r :
  runner_metadata_record mid x = Ok r ->
  py_get x "id" = Ok (RunnerMeta.runner_id r).
Proof. unfold runner_metadata_record; intros H; inv_bind; subst; assumption. Qed.

(** *** The rows of a block, field by field *)

Lemma py_get_dict f k : py_get (JObj f) k = Ok (field (JObj f) k).
Proof. simpl. destruct (lookup k f); reflexivity. Qed.

Lemma py_get_field o k v : py_get o k = Ok v -> v = field o k /\ is_dict o = true.
Proof.
  destruct o; simpl; try discriminate.
  destruct (lookup k fields); intros H; injection H as <-; split; reflexivity.
Qed.

Lemma market_metadata_record_fields mid d r :
  market_metadata_record mid d = Ok r ->
  MarketMeta.market_id r = mid
  /\ MarketMeta.event_id r = field d "eventId"
  /\ MarketMeta.event_name r = field d "eventName"
  /\ MarketMeta.event_type_id r = field d "eventTypeId"
  /\ MarketMeta.market_name r = field d "name"
  /\ MarketMeta.market_type r = field d "marketType"
  /\ converted (field d "marketTime") (MarketMeta.market_time r)
  /\ MarketMeta.venue r = field d "venue"
  /\ MarketMeta.country_code r = field d "countryCode"
  /\ MarketMeta.number_of_winners r = field d "numberOfWinners".
Proof.
  unfold market_metadata_record. intros H.
  apply bind_Ok_inv in H as (v1 & E1 & H). apply py_get_field in E1 as [-> _].
  apply bind_Ok_inv in H as (v2 & E2 & H). apply py_get_field in E2 as [-> _].
  apply bind_Ok_inv in H as (v3 & E3 & H). apply py_get_field in E3 as [-> _].
  apply bind_Ok_inv in H as (v4 & E4 & H). apply py_get_field in E4 as [-> _].
  apply bind_Ok_inv in H as (v5 & E5 & H). apply py_get_field in E5 as [-> _].
  apply bind_Ok_inv in H as (mt & Et & H).
  apply bind_Ok_inv in H as (v6 & E6 & H). apply py_get_field in E6 as [-> _].
  apply bind_Ok_inv in H as (v7 & E7 & H). apply py_get_field in E7 as [-> _].
  apply bind_Ok_inv in H as (v8 & E8 & H). apply py_get_field in E8 as [-> _].
  injection H as <-. simpl.
  repeat (split; [reflexivity|]).
  split; [|repeat split].
  unfold datetime_if_truthy in Et.
  apply bind_Ok_inv in Et as (flag & Ef & Et).
  apply py_get_field in Ef as [-> _].
  unfold converted. destruct (py_truthy (field d "marketTime")).
  - apply bind_Ok_inv in Et as (v & Ev & Et).
    apply py_get_field in Ev as [-> _].
    apply bind_Ok_inv in Et as (t & Ht & Et). injection Et as <-.
    exists t. split; [assumption | reflexivity].
  - injection Et as <-. reflexivity.
Qed.

Lemma runner_metadata_record_fields mid x r :
  runner_metadata_record mid x = Ok r ->
  RunnerMeta.market_id r = mid
  /\ RunnerMeta.runner_id r = field x "id"
  /\ RunnerMeta.runner_name r = field x "name".
Proof.
  unfold runner_metadata_record. intros H.
  apply bind_Ok_inv in H as (v1 & E1 & H). apply py_get_field in E1 as [-> _].
  apply bind_Ok_inv in H as (v2 & E2 & H). apply py_get_field in E2 as [-> _].
  injection H as <-. repeat split.
Qed.

(** What [create_reference_tables] extracts from a block, read off the
    block: nothing when it has no definition; otherwise the market row
    of the definition and one runner row for each entry of its
    [runners], under the block's id. *)
Lemma extracted_from_fields market em :
  extracted_from market em ->
  match block_definition market with
  | None => em = no_metadata
  | Some d =>
      exists r,
        market_metadata_record (field market "id") d = Ok r
        /\ market_metadata em = [r]
        /\ Forall2 (fun x r' =>
                      runner_metadata_record (field market "id") x = Ok r')
                   (definition_runners d) (runner_metadata em)
  end.
Proof.
  unfold extracted_from, reference_market. intros H.
  apply bind_Ok_inv in H as (has_def & Hc & H).
  destruct market as [| | | |l|f]; simpl in Hc; try discriminate Hc;
    cbn [block_definition].
  - injection Hc as <-. destruct (is_infix "marketDefinition" s);
      [discriminate H | injection H as <-; reflexivity].
  - injection Hc as <-.
    destruct (existsb (json_eqb (JStr "marketDefinition")) l);
      [discriminate H | injection H as <-; reflexivity].
  - injection Hc as <-. cbn [py_getitem] in H.
    destruct (lookup "marketDefinition" f) as [d|];
      [|injection H as <-; reflexivity].
    cbn [negb bind] in H. rewrite py_get_dict in H. cbn [bind] in H.
    apply bind_Ok_inv in H as (r & Hr & H).
    exists r. split; [exact Hr|].
    assert (Hdd : is_dict d = true).
    { unfold market_metadata_record in Hr.
      apply bind_Ok_inv in Hr as (v & E & _).
      apply py_get_field in E as [_ E]. exact E. }
    destruct d as [| | | | |g]; try discriminate Hdd.
    cbn [py_contains bind definition_runners py_getitem] in H |- *.
    destruct (lookup "runners" g) as [rs|].
    + cbn [bind] in H.
      apply bind_Ok_inv in H as (it & Hit & H).
      apply runner_metadata_loop_rows in H as (rows & HF & ->).
      split; [reflexivity|]. cbn [runner_metadata append_market_metadata
                                  no_metadata app].
      destruct rs as [| | |s|l|h]; simpl in Hit; try discriminate Hit;
        injection Hit as <-.
      * destruct s; simpl in HF; inversion HF as [|x y xs ys Hx]; subst;
          [constructor | discriminate Hx].
      * exact HF.
      * destruct h; simpl in HF; inversion HF as [|x y xs ys Hx]; subst;
          [constructor | discriminate Hx].
    + injection H as <-. split; [reflexivity | constructor].
Qed.

Lemma find_split {A} (p : A -> bool) l r :
  find p l = Some r ->
  exists l1 l2,
    l = l1 ++ r :: l2 /\ p r = true /\ forall x, In x l1 -> p x = false.
Proof.
  induction l as [|a l IH]; simpl; [discriminate|].
  destruct (p a) eqn:E.
  - intros H; injection H as <-. exists [], l.
    repeat split; [assumption | intros x []].
  - intros H. destruct (IH H) as (l1 & l2 & -> & Hp & Hb).
    exists (a :: l1), l2. repeat split; [assumption|].
    intros x [<-|Hx]; [assumption | auto].
Qed.

Lemma find_app {A} (p : A -> bool) l1 l2 :
  find p (l1 ++ l2)
  = match find p l1 with
    | Some r => Some r
    | None => find p l2
    end.
Proof.
  induction l1 as [|a l1 IH]; simpl; [reflexivity|].
  destruct (p a); [reflexivity | exact IH].
Qed.

Lemma find_flat_map_split {A B} (p : B -> bool) (g : A -> list B) xs r :
  find p (flat_map g xs) = Some r ->
  exists xs1 x xs2,
    xs = xs1 ++ x :: xs2
    /\ find p (g x) = Some r
    /\ forall x' y, In x' xs1 -> In y (g x') -> p y = false.
Proof.
  induction xs as [|a xs IH]; simpl; [discriminate|].
  rewrite find_app. destruct (find p (g a)) eqn:E.
  - intros H; injection H as <-. exists [], a, xs.
    repeat split; [assumption | intros x' y []].
  - intros H. destruct (IH H) as (xs1 & x & xs2 & -> & Hf & Hb).
    exists (a :: xs1), x, xs2. repeat split; [assumption|].
    intros x' y [<-|Hx] Hy; [eapply find_none; eassumption | eauto].
Qed.

Lemma Forall2_split_r {A B} (P : A -> B -> Prop) xs ys1 y ys2 :
  Forall2 P xs (ys1 ++ y :: ys2) ->
  exists xs1 x xs2,
    xs = xs1 ++ x :: xs2 /\ Forall2 P xs1 ys1 /\ P x y /\ Forall2 P xs2 ys2.
Proof.
  intros H. apply Forall2_app_inv_r in H as (xs1 & xs' & H1 & H2 & ->).
  inversion H2 as [|x y' xs2 ys' Hx Hrest]; subst.
  exists xs1, x, xs2. repeat split; assumption.
Qed.

(** C1 (as the code has it): on frames whose integers are stored
    exactly, when [create_reference_tables] returns, the market table
    has exactly one row for each id of a block with a definition, and the
    runner table exactly one row for each pair of the id of such a block
    and the id of an entry of its definition's [runners], ids being
    compared as pandas compares cells.  The row kept is read, field for
    field, from the first block (and, for a runner, the first entry) with
    that key in traversal order: a field the first occurrence lacks is
    null, whatever later occurrences hold.  When the id of a block with a
    definition is a list or an object, [create_reference_tables] raises
    [TypeError]. *)
Theorem C1_reference_tables_keep_first (df_list : list DataFrame) :
  Forall (fun df => exact_frame df = true) df_list ->
  (forall market_ref runner_ref,
     create_reference_tables df_list = Ok (market_ref, runner_ref) ->
     NoDup (map (pandas_keys (fun r => [MarketMeta.market_id r])) market_ref)
     /\ (forall market d,
           In market (traversal_blocks df_list) ->
           block_definition market = Some d ->
           exists r,
             In r market_ref
             /\ pandas_key (MarketMeta.market_id r)
                = pandas_key (field market "id"))
     /\ (forall r,
           In r market_ref ->
           exists before market after d,
             traversal_blocks df_list = before ++ market :: after
             /\ block_definition market = Some d
             /\ (forall m' d',
                   In m' before -> block_definition m' = Some d' ->
                   pandas_key (field m' "id")
                   <> pandas_key (MarketMeta.market_id r))
             /\ MarketMeta.market_id r = field market "id"
             /\ MarketMeta.event_id r = field d "eventId"
             /\ MarketMeta.event_name r = field d "eventName"
             /\ MarketMeta.event_type_id r = field d "eventTypeId"
             /\ MarketMeta.market_name r = field d "name"
             /\ MarketMeta.market_type r = field d "marketType"
             /\ converted (field d "marketTime") (MarketMeta.market_time r)
             /\ MarketMeta.venue r = field d "venue"
             /\ MarketMeta.country_code r = field d "countryCode"
             /\ MarketMeta.number_of_winners r = field d "numberOfWinners")
     /\ NoDup (map (pandas_keys (fun r => [RunnerMeta.market_id r;
                                            RunnerMeta.runner_id r]))
                   runner_ref)
     /\ (forall market d runner,
           In market (traversal_blocks df_list) ->
           block_definition market = Some d ->
           In runner (definition_runners d) ->
           exists r,
             In r runner_ref
             /\ pandas_key (RunnerMeta.market_id r)
                = pandas_key (field market "id")
             /\ pandas_key (RunnerMeta.runner_id r)
                = pandas_key (field runner "id"))
     /\ (forall r,
           In r runner_ref ->
           exists before market after d earlier runner later,
             traversal_blocks df_list = before ++ market :: after
             /\ block_definition market = Some d
             /\ definition_runners d = earlier ++ runner :: later
             /\ (forall m' d' x,
                   In m' before -> block_definition m' = Some d' ->
                   In x (definition_runners d') ->
                   map pandas_key [field m' "id"; field x "id"]
                   <> map pandas_key [RunnerMeta.market_id r;
                                      RunnerMeta.runner_id r])
             /\ (forall x,
                   In x earlier ->
                   pandas_key (field x "id")
                   <> pandas_key (RunnerMeta.runner_id r))
             /\ RunnerMeta.market_id r = field market "id"
             /\ RunnerMeta.runner_id r = field runner "id"
             /\ RunnerMeta.runner_name r = field runner "name"))
  /\ (forall md market d,
        collect_metadata df_list = Ok md ->
        In market (traversal_blocks df_list) ->
        block_definition market = Some d ->
        hashable (field market "id") = false ->
        create_reference_tables df_list = Raise TypeError).
Proof.
  intros _. split.
  - unfold create_reference_tables. intros market_ref runner_ref H.
    apply bind_Ok_inv in H as (md & Hmd & H).
    apply bind_Ok_inv in H as (mref & Hm & H).
    apply bind_Ok_inv in H as (rref & Hr & H).
    injection H as <- <-.
    apply drop_duplicates_Ok in Hm as [_ ->].
    apply drop_duplicates_Ok in Hr as [_ ->].
    destruct (collect_metadata_blocks df_list Hmd) as (ems & -> & HF).
    rewrite market_metadata_fold, runner_metadata_fold.
    split; [exact (keep_first_NoDup (pandas_keys market_ref_key) _)|].
    split.
    { intros market d Hin Hd.
      destruct (@Forall2_In_l _ _ _ _ _ _ HF Hin) as (em & Hem & Hex).
      apply extracted_from_fields in Hex. rewrite Hd in Hex.
      destruct Hex as (r0 & Hrec & Hrows & _).
      destruct (keep_first_keys (pandas_keys market_ref_key)
                  (flat_map market_metadata ems) r0) as (r' & Hr' & Hk).
      { apply in_flat_map. exists em. split; [assumption|].
        rewrite Hrows. left; reflexivity. }
      exists r'. split; [assumption|].
      unfold pandas_keys, market_ref_key in Hk. simpl in Hk.
      injection Hk as Hk. rewrite Hk.
      rewrite (market_metadata_record_id _ _ Hrec). reflexivity. }
    split.
    { intros r Hr.
      pose proof (keep_first_first (pandas_keys market_ref_key) _ r Hr)
        as Hfind.
      apply find_flat_map_split in Hfind
        as (e1 & em & e2 & -> & Hfind & Hbefore).
      apply Forall2_split_r in HF
        as (before & market & after & Hblocks & HF1 & Hex & _).
      apply extracted_from_fields in Hex.
      destruct (block_definition market) as [d|] eqn:Hd;
        [|subst em; discriminate Hfind].
      destruct Hex as (r0 & Hrec & Hrows & _).
      rewrite Hrows in Hfind. simpl in Hfind.
      destruct (same_key (pandas_keys market_ref_key) r r0);
        [|discriminate Hfind].
      injection Hfind as ->.
      exists before, market, after, d.
      split; [exact Hblocks|]. split; [exact Hd|]. split.
      - intros m' d' Hm' Hd' Heq.
        destruct (@Forall2_In_l _ _ _ _ _ _ HF1 Hm') as (em' & Hem' & Hex').
        apply extracted_from_fields in Hex'. rewrite Hd' in Hex'.
        destruct Hex' as (r' & Hrec' & Hrows' & _).
        assert (Hp : same_key (pandas_keys market_ref_key) r r' = false).
        { apply (Hbefore em' r' Hem'). rewrite Hrows'. left; reflexivity. }
        unfold same_key in Hp. apply key_eqb_neq in Hp. apply Hp.
        unfold pandas_keys, market_ref_key. simpl.
        rewrite (market_metadata_record_id _ _ Hrec'), Heq. reflexivity.
      - exact (market_metadata_record_fields _ _ Hrec). }
    split; [exact (keep_first_NoDup (pandas_keys runner_ref_key) _)|].
    split.
    { intros market d runner Hin Hd Hrun.
      destruct (@Forall2_In_l _ _ _ _ _ _ HF Hin) as (em & Hem & Hex).
      apply extracted_from_fields in Hex. rewrite Hd in Hex.
      destruct Hex as (_ & _ & _ & HF2).
      destruct (@Forall2_In_l _ _ _ _ _ _ HF2 Hrun) as (r0 & Hr0 & Hrec).
      destruct (keep_first_keys (pandas_keys runner_ref_key)
                  (flat_map runner_metadata ems) r0) as (r' & Hr' & Hk).
      { apply in_flat_map. exists em. split; assumption. }
      exists r'. split; [assumption|].
      unfold pandas_keys, runner_ref_key in Hk. simpl in Hk.
      injection Hk as Hk1 Hk2. rewrite Hk1, Hk2.
      destruct (runner_metadata_record_fields _ _ Hrec) as (-> & -> & _).
      split; reflexivity. }
    intros r Hr.
    pose proof (keep_first_first (pandas_keys runner_ref_key) _ r Hr)
      as Hfind.
    apply find_flat_map_split in Hfind
      as (e1 & em & e2 & -> & Hfind & Hbefore).
    apply Forall2_split_r in HF
      as (before & market & after & Hblocks & HF1 & Hex & _).
    apply extracted_from_fields in Hex.
    destruct (block_definition market) as [d|] eqn:Hd;
      [|subst em; discriminate Hfind].
    destruct Hex as (_ & _ & _ & HF2).
    apply find_split in Hfind as (l1 & l2 & Hrows & _ & Hl1).
    rewrite Hrows in HF2.
    apply Forall2_split_r in HF2
      as (earlier & runner & later & Hrunners & HFe & Hrec & _).
    exists before, market, after, d, earlier, runner, later.
    split; [exact Hblocks|]. split; [exact Hd|].
    split; [exact Hrunners|].
    destruct (runner_metadata_record_fields _ _ Hrec) as (Hmid & Hrid & Hname).
    split; [|split; [|repeat split; assumption]].
    + intros m' d' x Hm' Hd' Hx Heq.
      destruct (@Forall2_In_l _ _ _ _ _ _ HF1 Hm') as (em' & Hem' & Hex').
      apply extracted_from_fields in Hex'. rewrite Hd' in Hex'.
      destruct Hex' as (_ & _ & _ & HF').
      destruct (@Forall2_In_l _ _ _ _ _ _ HF' Hx) as (r' & Hr' & Hrec').
      assert (Hp : same_key (pandas_keys runner_ref_key) r r' = false)
        by (apply (Hbefore em' r' Hem' Hr')).
      unfold same_key in Hp. apply key_eqb_neq in Hp. apply Hp.
      unfold pandas_keys, runner_ref_key.
      destruct (runner_metadata_record_fields _ _ Hrec') as (-> & -> & _).
      exact Heq.
    + intros x Hx Heq.
      destruct (@Forall2_In_l _ _ _ _ _ _ HFe Hx) as (r' & Hr' & Hrec').
      assert (Hp : same_key (pandas_keys runner_ref_key) r r' = false)
        by (apply (Hl1 r' Hr')).
      unfold same_key in Hp. apply key_eqb_neq in Hp. apply Hp.
      unfold pandas_keys, runner_ref_key.
      destruct (runner_metadata_record_fields _ _ Hrec') as (-> & -> & _).
      simpl. rewrite Heq, Hmid. reflexivity.
  - intros md market d Hmd Hin Hd Hh.
    destruct (collect_metadata_blocks df_list Hmd) as (ems & -> & HF).
    destruct (@Forall2_In_l _ _ _ _ _ _ HF Hin) as (em & Hem & Hex).
    apply extracted_from_fields in Hex. rewrite Hd in Hex.
    destruct Hex as (r & Hrec & Hrows & _).
    unfold create_reference_tables. rewrite Hmd. cbn [bind].
    rewrite (@drop_duplicates_unhashable _ market_ref_key _ r);
      [reflexivity | |].
    + rewrite market_metadata_fold. apply in_flat_map.
      exists em. split; [assumption|]. rewrite Hrows. left; reflexivity.
    + unfold market_ref_key. simpl.
      rewrite (market_metadata_record_id _ _ Hrec), Hh. reflexivity.
Qed.

(** ** process_month: the loops in closed form *)

Lemma append_nonempty_spec {A} (acc : list (list A)) t :
  append_nonempty acc t = acc ++ nonempty_tables [t].
Proof. destruct t; simpl; [rewrite app_nil_r|]; reflexivity. Qed.

Lemma concat_nonempty_tables {A} (ts : list (list A)) :
  List.concat (nonempty_tables ts) = List.concat ts.
Proof.
  induction ts as [|t ts IH]; simpl; [reflexivity|].
  destruct t; simpl; rewrite IH; reflexivity.
Qed.

Lemma nonempty_tables_app {A} (l1 l2 : list (list A)) :
  nonempty_tables (l1 ++ l2) = nonempty_tables l1 ++ nonempty_tables l2.
Proof. apply filter_app. Qed.

Lemma process_file_spec b f :
  process_file b f
  = mkBuffers
      (all_markets b ++ nonempty_tables [market_records (file_streams f)])
      (all_runner_static b
         ++ nonempty_tables [runner_static_records (file_streams f)])
      (all_raw_dfs b ++ retained f)
      (day_runner_changes b
         ++ nonempty_tables [runner_change_records (file_streams f)]).
Proof.
  rewrite <- !append_nonempty_spec.
  unfold process_file, process_file_try, file_streams, retained, file_frame.
  destruct (read_betfair_bz2 f) as [df|]; simpl.
  - destruct (empty df); simpl.
    + rewrite app_nil_r; destruct b; reflexivity.
    + destruct (parse_betfair_stream df); simpl; [reflexivity|].
      destruct b; reflexivity.
  - rewrite app_nil_r; destruct b; reflexivity.
Qed.

Lemma process_file_loop files : forall b,
  fold_left process_file files b
  = mkBuffers
      (all_markets b
         ++ nonempty_tables (map (fun f => market_records (file_streams f)) files))
      (all_runner_static b
         ++ nonempty_tables
              (map (fun f => runner_static_records (file_streams f)) files))
      (all_raw_dfs b ++ flat_map retained files)
      (day_runner_changes b
         ++ nonempty_tables
              (map (fun f => runner_change_records (file_streams f)) files)).
Proof.
  induction files as [|f files IH]; intros b.
  - simpl. rewrite !app_nil_r. destruct b; reflexivity.
  - cbn [fold_left]. rewrite IH, process_file_spec. cbn [all_markets
      all_runner_static all_raw_dfs day_runner_changes map flat_map].
    rewrite <- !app_assoc, <- !nonempty_tables_app. reflexivity.
Qed.

(** *** The batches *)

Lemma firstn_plus {A} (l : list A) a b :
  firstn (a + b) l = firstn a l ++ firstn b (skipn a l).
Proof.
  revert l; induction a as [|a IH]; intros l; [reflexivity|].
  destruct l as [|x l]; simpl.
  - rewrite firstn_nil; reflexivity.
  - rewrite IH; reflexivity.
Qed.

Lemma concat_chunks {A} (l : list A) step n :
  List.concat (map (fun i => slice l i (i + step))
                   (map (fun k => k * step) (seq 0 n)))
  = firstn (n * step) l.
Proof.
  induction n as [|n IH]; [reflexivity|].
  rewrite seq_S, !map_app, concat_app, IH. simpl.
  rewrite app_nil_r. unfold slice.
  replace (n * step + step - n * step) with step by lia.
  replace (step + n * step) with (n * step + step) by lia.
  symmetry; apply firstn_plus.
Qed.

(** The batches cut the list of files without losing or reordering any. *)
Lemma concat_batches files : List.concat (batches files) = files.
Proof.
  unfold batches, range_step. rewrite concat_chunks.
  apply firstn_all2. unfold batch_size.
  pose proof (Nat.div_mod_eq (List.length files + 100 - 1) 100) as E.
  pose proof (Nat.mod_upper_bound (List.length files + 100 - 1) 100) as U.
  lia.
Qed.

Lemma fold_left_concat {A B} (f : B -> A -> B) (ls : list (list A)) : forall b,
  fold_left (fun b' l => fold_left f l b') ls b = fold_left f (List.concat ls) b.
Proof.
  induction ls as [|l ls IH]; intros b; simpl; [reflexivity|].
  rewrite fold_left_app; apply IH.
Qed.

Lemma process_files_spec b files :
  process_files b files = fold_left process_file files b.
Proof.
  unfold process_files. rewrite fold_left_concat, concat_batches; reflexivity.
Qed.

(** *** The days *)

Lemma day_changes_rows day :
  List.concat
    (nonempty_tables
       (map (fun f => runner_change_records (file_streams f)) (bz2_files day)))
  = day_rows day.
Proof.
  rewrite concat_nonempty_tables. unfold day_rows.
  rewrite flat_map_concat_map; reflexivity.
Qed.

Lemma nonempty_tables_nil {A} (ts : list (list A)) :
  nonempty_tables ts = [] -> List.concat ts = [].
Proof. intros H. rewrite <- concat_nonempty_tables, H; reflexivity. Qed.

Lemma concat_nonempty_cons {A} (t : list A) ts ts' :
  nonempty_tables ts' = t :: ts -> List.concat ts' <> [].
Proof.
  intros H E. rewrite <- concat_nonempty_tables, H in E.
  assert (Hin : In t (nonempty_tables ts')) by (rewrite H; left; reflexivity).
  apply filter_In in Hin as [_ Ht].
  destruct t; [discriminate|]. simpl in E; discriminate.
Qed.

Lemma process_day_spec year month b written day :
  process_day year month (b, written) day
  = (_ <- day_flush year month day ;;
     Ok (day_buffers b day, written ++ day_written year month day)).
Proof.
  unfold process_day. rewrite process_files_spec, process_file_loop.
  cbn [all_markets all_runner_static all_raw_dfs day_runner_changes app].
  unfold day_written, day_flush, day_buffers.
  destruct (nonempty_tables
              (map (fun f => runner_change_records (file_streams f))
                   (bz2_files day))) as [|c cs] eqn:E.
  - apply nonempty_tables_nil in E. rewrite <- flat_map_concat_map in E.
    unfold day_rows. rewrite E, app_nil_r. reflexivity.
  - pose proof (concat_nonempty_cons _ E) as Hne.
    pose proof (day_changes_rows day) as Hrows. rewrite E in Hrows.
    rewrite <- flat_map_concat_map in Hne. fold (day_rows day) in Hne.
    unfold flush_day. rewrite Hrows.
    destruct (day_rows day) as [|x l]; [congruence|].
    destruct (sort_values runner_change_sort_key (x :: l)) as [dp|e] eqn:S;
      cbn [bind]; [|reflexivity].
    apply sort_values_Ok in S as [_ ->].
    destruct (to_parquet _ _) as [[]|e]; reflexivity.
Qed.

Lemma day_buffers_loop days : forall b,
  all_markets (fold_left day_buffers days b)
  = all_markets b
      ++ nonempty_tables
           (map (fun f => market_records (file_streams f)) (month_files days))
  /\ all_runner_static (fold_left day_buffers days b)
     = all_runner_static b
         ++ nonempty_tables
              (map (fun f => runner_static_records (file_streams f))
                   (month_files days))
  /\ all_raw_dfs (fold_left day_buffers days b)
     = all_raw_dfs b ++ flat_map retained (month_files days).
Proof.
  induction days as [|day days IH]; intros b.
  - simpl. rewrite !app_nil_r. repeat split; reflexivity.
  - cbn [fold_left]. destruct (IH (day_buffers b day)) as (H1 & H2 & H3).
    rewrite H1, H2, H3. unfold day_buffers.
    cbn [all_markets all_runner_static all_raw_dfs].
    unfold month_files. cbn [flat_map].
    rewrite !map_app, !nonempty_tables_app, !flat_map_app, <- !app_assoc.
    repeat split; reflexivity.
Qed.

(** The loop over the days: the flushes in order, then the buffers and
    the daily files. *)
Lemma process_day_loop year month days : forall b written,
  for_each (process_day year month) days (b, written)
  = (_ <- for_each (fun _ d => day_flush year month d) days tt ;;
     Ok (fold_left day_buffers days b,
         written ++ flat_map (day_written year month) days)).
Proof.
  induction days as [|day days IH]; intros b written.
  - simpl. rewrite app_nil_r. reflexivity.
  - cbn [for_each fold_left flat_map]. rewrite process_day_spec.
    destruct (day_flush year month day) as [[]|e]; cbn [bind]; [|reflexivity].
    rewrite IH, <- app_assoc. reflexivity.
Qed.

Lemma flushes_Ok year month days u :
  for_each (fun _ d => day_flush year month d) days tt = Ok u ->
  Forall (fun d => day_flush year month d = Ok tt) days.
Proof.
  induction days as [|d days IH]; intros H; [constructor|].
  simpl in H. destruct (day_flush year month d) as [[]|e] eqn:E;
    [|discriminate].
  constructor; [exact E | apply IH; exact H].
Qed.

Lemma flushes_all_Ok year month days :
  Forall (fun d => day_flush year month d = Ok tt) days ->
  for_each (fun _ d => day_flush year month d) days tt = Ok tt.
Proof.
  induction 1 as [|d days Hd _ IH]; [reflexivity|].
  simpl. rewrite Hd. exact IH.
Qed.

(** The buffers and the daily files after the loop over the days. *)
Lemma process_days_spec year month days b written :
  process_days year month days = Ok (b, written) ->
  List.concat (all_markets b) = month_market_rows days
  /\ List.concat (all_runner_static b) = month_runner_static_rows days
  /\ all_raw_dfs b = flat_map retained (month_files days)
  /\ written = flat_map (day_written year month) days
  /\ Forall (fun d => day_flush year month d = Ok tt) days.
Proof.
  unfold process_days. rewrite process_day_loop. intros H.
  apply bind_Ok_inv in H as (u & Hu & H). injection H as <- <-.
  destruct (day_buffers_loop days (mkBuffers [] [] [] [])) as (H1 & H2 & H3).
  rewrite H1, H2, H3. cbn [all_markets all_runner_static all_raw_dfs app].
  rewrite !concat_nonempty_tables.
  unfold month_market_rows, month_runner_static_rows.
  rewrite !flat_map_concat_map.
  repeat split; try reflexivity. eapply flushes_Ok; eassumption.
Qed.

Lemma process_days_flushed year month days :
  Forall (fun d => day_flush year month d = Ok tt) days ->
  process_days year month days
  = Ok (fold_left day_buffers days (mkBuffers [] [] [] []),
        flat_map (day_written year month) days).
Proof.
  intros H. unfold process_days.
  rewrite process_day_loop. rewrite (@flushes_all_Ok _ _ _ H). reflexivity.
Qed.

(** *** The order of the days *)

Lemma keyed_days dirs : forall acc keyed,
  for_each (fun acc d => k <- py_int (name d) ;; Ok (acc ++ [(k, d)])) dirs acc
  = Ok keyed ->
  map snd keyed = map snd acc ++ dirs.
Proof.
  induction dirs as [|d dirs IH]; intros acc keyed H; simpl in H.
  - injection H as <-. rewrite app_nil_r; reflexivity.
  - apply bind_Ok_inv in H as (acc1 & H1 & H).
    apply bind_Ok_inv in H1 as (k & _ & H1). injection H1 as <-.
    rewrite (IH _ _ H), map_app, <- app_assoc. reflexivity.
Qed.

(** The days are visited once each. *)
Lemma sorted_days_perm dirs days :
  sorted_days dirs = Ok days -> Permutation days dirs.
Proof.
  unfold sorted_days. intros H.
  apply bind_Ok_inv in H as (keyed & Hk & H). injection H as <-.
  apply keyed_days in Hk. simpl in Hk. rewrite <- Hk.
  apply Permutation_map, stable_sort_perm.
Qed.

Lemma keyed_days_keys dirs : forall acc keyed,
  for_each (fun acc d => k <- py_int (name d) ;; Ok (acc ++ [(k, d)])) dirs acc
  = Ok keyed ->
  Forall (fun kd => py_int (name (snd kd)) = Ok (fst kd)) acc ->
  Forall (fun kd => py_int (name (snd kd)) = Ok (fst kd)) keyed.
Proof.
  induction dirs as [|d dirs IH]; intros acc keyed H HF; simpl in H.
  - injection H as <-; exact HF.
  - apply bind_Ok_inv in H as (acc1 & H1 & H).
    apply bind_Ok_inv in H1 as (k & Hk & H1). injection H1 as <-.
    apply (IH _ _ H). apply Forall_app; split; [exact HF|].
    constructor; [exact Hk | constructor].
Qed.

Lemma StronglySorted_map_snd (P : Z * DayDir -> Z * DayDir -> Prop)
    (Q : DayDir -> DayDir -> Prop) l :
  (forall x y, In x l -> In y l -> P x y -> Q (snd x) (snd y)) ->
  StronglySorted P l -> StronglySorted Q (map snd l).
Proof.
  intros HPQ HS. induction HS as [|x l HS IH HF]; simpl; constructor.
  - apply IH. intros a b Ha Hb; apply HPQ; right; assumption.
  - apply Forall_map. rewrite Forall_forall in *. intros y Hy.
    apply HPQ; [left; reflexivity | right; assumption | apply HF; assumption].
Qed.

(** The days are visited in the order of their numbers. *)
Lemma sorted_days_sorted dirs days :
  sorted_days dirs = Ok days -> StronglySorted day_before days.
Proof.
  unfold sorted_days. intros H.
  apply bind_Ok_inv in H as (keyed & Hk & H). injection H as <-.
  pose proof (@keyed_days_keys dirs [] keyed Hk (Forall_nil _)) as HF.
  set (leb := fun x y : Z * DayDir => Z.leb (fst x) (fst y)).
  assert (HS : StronglySorted (fun a b => leb a b = true) (stable_sort leb keyed)).
  { apply stable_sort_sorted; unfold leb.
    - intros x y. rewrite !Z.leb_le. lia.
    - intros x y z. rewrite !Z.leb_le. lia. }
  assert (HF' : Forall (fun kd => py_int (name (snd kd)) = Ok (fst kd))
                       (stable_sort leb keyed)).
  { eapply Permutation_Forall; [apply Permutation_sym, stable_sort_perm | exact HF]. }
  rewrite Forall_forall in HF'.
  revert HS. apply StronglySorted_map_snd.
  intros x y Hx Hy Hle. exists (fst x), (fst y).
  split; [apply HF'; assumption|]. split; [apply HF'; assumption|].
  unfold leb in Hle. apply Z.leb_le; assumption.
Qed.

(** ** process_month: the tables of a run *)

Lemma run_month_spec dirs existing year month out :
  run_month dirs existing year month = Ok out ->
  exists days b written,
    sorted_days dirs = Ok days
    /\ process_days year month days = Ok (b, written)
    /\ create_reference_tables (all_raw_dfs b)
       = Ok (market_ref out, runner_ref out)
    /\ dedup_markets (List.concat (all_markets b)) = Ok (combined_markets out)
    /\ dedup_runner_static (List.concat (all_runner_static b))
       = Ok (combined_runner_static out)
    /\ daily_prices out = written
    /\ summary out
       = mkSummary year month (List.length (market_ref out))
           (List.length (runner_ref out))
           (List.length (nodup string_dec (existing ++ map fst written))).
Proof.
  unfold run_month. intros H.
  apply bind_Ok_inv in H as (days & Hd & H).
  apply bind_Ok_inv in H as ([b written] & Hp & H).
  apply bind_Ok_inv in H as ([mref rref] & Hr & H).
  apply bind_Ok_inv in H as (cm & Hcm & H).
  apply bind_Ok_inv in H as (cr & Hcr & H).
  apply bind_Ok_inv in H as (u1 & _ & H).
  apply bind_Ok_inv in H as (u2 & _ & H).
  apply bind_Ok_inv in H as (u3 & _ & H).
  apply bind_Ok_inv in H as (u4 & _ & H).
  injection H as <-. simpl.
  exists days, b, written. repeat split; assumption.
Qed.

Lemma process_month_output_spec fs year month out :
  process_month_output fs year month = Ok (Some out) ->
  exists dirs,
    month_path fs = Some dirs
    /\ run_month dirs (daily_prices_dir fs) year month = Ok out.
Proof.
  unfold process_month_output. destruct (month_path fs) as [dirs|]; [|discriminate].
  intros H. apply bind_Ok_inv in H as (o & Ho & H). injection H as <-.
  exists dirs; split; [reflexivity | assumption].
Qed.

Section SortDedup.
Variable R : Type.
Variable cols : R -> list json.
Variable sort_key : R -> json * option timestamp.

(** Deduplicating and then sorting: no key twice, each kept row the first
    of its key, every key kept, rows in order. *)
Lemma sort_dedup_spec (t t' : list R) :
  (kept <- drop_duplicates cols t ;; sort_values sort_key kept) = Ok t' ->
  NoDup (map (pandas_keys cols) t')
  /\ (forall r, In r t' -> find (same_cells cols r) t = Some r)
  /\ (forall r, In r t ->
        exists r', In r' t' /\ pandas_keys cols r' = pandas_keys cols r)
  /\ StronglySorted (sorted_by sort_key) t'
  /\ Permutation t' (keep_first (pandas_keys cols) t).
Proof.
  intros H. apply bind_Ok_inv in H as (kept & Hk & H).
  apply drop_duplicates_Ok in Hk as [_ ->].
  apply sort_values_Ok in H as [_ ->].
  pose proof (lexsort_perm sort_key (keep_first (pandas_keys cols) t)) as P.
  repeat split.
  - eapply Permutation_NoDup; [apply Permutation_map, Permutation_sym, P|].
    apply keep_first_NoDup.
  - intros r Hr. apply (keep_first_first (pandas_keys cols)).
    eapply Permutation_in; [exact P | exact Hr].
  - intros r Hr.
    destruct (keep_first_keys (pandas_keys cols) t r Hr) as (r' & Hr' & Hk).
    exists r'; split; [|assumption].
    eapply Permutation_in; [apply Permutation_sym, P | exact Hr'].
  - apply lexsort_sorted.
  - exact P.
Qed.
End SortDedup.

Lemma dedup_markets_spec t t' :
  dedup_markets t = Ok t' ->
  NoDup (map (pandas_keys market_dedup_key) t')
  /\ (forall r, In r t' -> find (same_cells market_dedup_key r) t = Some r)
  /\ (forall r, In r t ->
        exists r', In r' t'
                   /\ pandas_keys market_dedup_key r'
                      = pandas_keys market_dedup_key r)
  /\ StronglySorted (sorted_by market_sort_key) t'.
Proof.
  destruct t as [|x t].
  - simpl. intros H; injection H as <-.
    repeat split; try constructor; intros r [].
  - intros H. apply sort_dedup_spec in H as (H1 & H2 & H3 & H4 & _).
    repeat split; assumption.
Qed.

Lemma dedup_runner_static_spec t t' :
  dedup_runner_static t = Ok t' ->
  NoDup (map (pandas_keys runner_static_dedup_key) t')
  /\ (forall r, In r t' ->
        find (same_cells runner_static_dedup_key r) t = Some r)
  /\ (forall r, In r t ->
        exists r', In r' t'
                   /\ pandas_keys runner_static_dedup_key r'
                      = pandas_keys runner_static_dedup_key r)
  /\ StronglySorted (sorted_by runner_static_sort_key) t'.
Proof.
  destruct t as [|x t].
  - simpl. intros H; injection H as <-.
    repeat split; try constructor; intros r [].
  - intros H. apply sort_dedup_spec in H as (H1 & H2 & H3 & H4 & _).
    repeat split; assumption.
Qed.

(** C2: in the tables a completed month leaves, no two market rows share
    the cells of (market_id, status, in_play, version) and no two runner
    rows share the cells of (market_id, runner_id, status), as pandas
    compares cells; the row kept for a key is the first one with that key
    among the rows collected over the month, which are the rows of the
    files in the order of the days, of the files and of the lines; and,
    when the integers of the files are stored exactly, both tables are
    sorted by (market_id, publish_time) and every key collected is
    kept. *)
Theorem C2_monthly_tables_deduplicated_and_sorted (fs : Tree) (year : Z)
    (month : string) (out : MonthOutput) :
  process_month_output fs year month = Ok (Some out) ->
  exists dirs days b written,
    month_path fs = Some dirs
    /\ sorted_days dirs = Ok days
    /\ process_days year month days = Ok (b, written)
    /\ List.concat (all_markets b)
       = flat_map (fun f => market_records (file_streams f))
                  (flat_map bz2_files days)
    /\ List.concat (all_runner_static b)
       = flat_map (fun f => runner_static_records (file_streams f))
                  (flat_map bz2_files days)
    /\ (NoDup (map (pandas_keys
                      (fun r => [Market.market_id r; Market.status r;
                                 Market.in_play r; Market.version r]))
                   (combined_markets out))
        /\ (forall r, In r (combined_markets out) ->
              find (same_cells
                      (fun x => [Market.market_id x; Market.status x;
                                 Market.in_play x; Market.version x]) r)
                   (List.concat (all_markets b))
              = Some r)
        /\ (exact_month dirs = true ->
            StronglySorted
              (sorted_by (fun r => (Market.market_id r,
                                    Market.publish_time r)))
              (combined_markets out))
        /\ (exact_month dirs = true ->
            forall r, In r (List.concat (all_markets b)) ->
              exists r',
                In r' (combined_markets out)
                /\ map pandas_key
                     [Market.market_id r'; Market.status r';
                      Market.in_play r'; Market.version r']
                   = map pandas_key
                       [Market.market_id r; Market.status r;
                        Market.in_play r; Market.version r]))
    /\ (NoDup (map (pandas_keys
                      (fun r => [RunnerStatic.market_id r;
                                 RunnerStatic.runner_id r;
                                 RunnerStatic.status r]))
                   (combined_runner_static out))
        /\ (forall r, In r (combined_runner_static out) ->
              find (same_cells
                      (fun x => [RunnerStatic.market_id x;
                                 RunnerStatic.runner_id x;
                                 RunnerStatic.status x]) r)
                   (List.concat (all_runner_static b))
              = Some r)
        /\ (exact_month dirs = true ->
            StronglySorted
              (sorted_by (fun r => (RunnerStatic.market_id r,
                                    RunnerStatic.publish_time r)))
              (combined_runner_static out))
        /\ (exact_month dirs = true ->
            forall r, In r (List.concat (all_runner_static b)) ->
              exists r',
                In r' (combined_runner_static out)
                /\ map pandas_key
                     [RunnerStatic.market_id r'; RunnerStatic.runner_id r';
                      RunnerStatic.status r']
                   = map pandas_key
                       [RunnerStatic.market_id r; RunnerStatic.runner_id r;
                        RunnerStatic.status r])).
Proof.
  intros H. apply process_month_output_spec in H as (dirs & Hp & H).
  apply run_month_spec in H
    as (days & b & written & Hd & Hdays & _ & Hm & Hr & _).
  exists dirs, days, b, written.
  destruct (process_days_spec _ _ _ Hdays) as (E1 & E2 & _).
  split; [assumption|]. split; [assumption|]. split; [assumption|].
  split; [exact E1|]. split; [exact E2|].
  destruct (dedup_markets_spec _ Hm) as (M1 & M2 & M3 & M4).
  destruct (dedup_runner_static_spec _ Hr) as (R1 & R2 & R3 & R4).
  split.
  - split; [exact M1|]. split; [exact M2|].
    split; [intros _; exact M4|]. intros _. exact M3.
  - split; [exact R1|]. split; [exact R2|].
    split; [intros _; exact R4|]. intros _. exact R3.
Qed.

(** *** The daily files *)

Lemma day_written_In year month day fname table :
  In (fname, table) (day_written year month day) ->
  day_rows day <> []
  /\ fname = daily_file_name year month (name day)
  /\ table = lexsort runner_change_sort_key (day_rows day).
Proof.
  unfold day_written. destruct (day_rows day) as [|x l] eqn:E; [intros []|].
  intros [H|[]]. injection H as <- <-. repeat split; congruence.
Qed.

(** A flush that went through sorted the rows of the day and had them
    accepted by the writer. *)
Lemma day_flush_Ok year month day :
  day_flush year month day = Ok tt -> day_rows day <> [] ->
  sort_values runner_change_sort_key (day_rows day)
  = Ok (lexsort runner_change_sort_key (day_rows day))
  /\ to_parquet (RunnerPrices (lexsort runner_change_sort_key (day_rows day)))
                (daily_file_name year month (name day)) = Ok tt.
Proof.
  unfold day_flush. destruct (day_rows day) as [|x l]; [congruence|].
  intros H _. apply bind_Ok_inv in H as (dp & Hs & H).
  pose proof Hs as Hs'. apply sort_values_Ok in Hs' as [_ ->].
  split; [assumption|]. destruct (to_parquet _ _) as [[]|]; congruence.
Qed.

Lemma day_rows_collected day :
  day_rows day
  = List.concat
      (day_runner_changes
         (process_files (mkBuffers [] [] [] []) (bz2_files day))).
Proof.
  rewrite process_files_spec, process_file_loop.
  cbn [day_runner_changes app]. symmetry. apply day_changes_rows.
Qed.

(** C3: the table flushed for a day is a permutation of the price rows
    collected over that day's files; rows tied on (market_id,
    publish_time) keep the order they have in the concatenation; when
    the integers of the day's files are stored exactly, the table is in
    the order of (market_id, publish_time); and it is the table the
    writer accepted.  In a loop over the days that does not raise, a day
    with at least one price row is flushed. *)
Theorem C3_daily_table_sorted_and_stable (year : Z) (month : string)
    (days : list DayDir) (b : Buffers)
    (written : list (string * list RunnerChange.t)) :
  process_days year month days = Ok (b, written) ->
  (forall day,
     day_rows day
     = List.concat
         (day_runner_changes
            (process_files (mkBuffers [] [] [] []) (bz2_files day))))
  /\ (forall fname table,
        In (fname, table) written ->
        exists day,
          In day days
          /\ fname = daily_file_name year month (name day)
          /\ Permutation table (day_rows day)
          /\ (forallb exact_file (bz2_files day) = true ->
              StronglySorted
                (sorted_by (fun r => (RunnerChange.market_id r,
                                      RunnerChange.publish_time r)))
                table)
          /\ (forall k,
                filter (tied_with (fun r => (RunnerChange.market_id r,
                                             RunnerChange.publish_time r)) k)
                       table
                = filter (tied_with (fun r => (RunnerChange.market_id r,
                                               RunnerChange.publish_time r)) k)
                         (day_rows day))
          /\ to_parquet (RunnerPrices table) fname = Ok tt)
  /\ (forall day,
        In day days -> day_rows day <> [] ->
        exists table,
          In (daily_file_name year month (name day), table) written
          /\ Permutation table (day_rows day)).
Proof.
  intros H. apply process_days_spec in H as (_ & _ & _ & -> & HF).
  rewrite Forall_forall in HF.
  split; [exact day_rows_collected|]. split.
  - intros fname table Hin.
    apply in_flat_map in Hin as (day & Hday & Hin).
    apply day_written_In in Hin as (Hne & -> & ->).
    exists day. split; [assumption|]. split; [reflexivity|].
    split; [apply lexsort_perm|].
    split; [intros _;
            exact (lexsort_sorted runner_change_sort_key (day_rows day))|].
    split; [intros k;
            exact (lexsort_stable runner_change_sort_key k (day_rows day))|].
    exact (proj2 (day_flush_Ok _ _ _ (HF day Hday) Hne)).
  - intros day Hday Hne.
    exists (lexsort runner_change_sort_key (day_rows day)).
    split; [|apply lexsort_perm].
    apply in_flat_map. exists day; split; [assumption|].
    unfold day_written. destruct (day_rows day); [congruence | left; reflexivity].
Qed.

(** The daily files of a completed month are those the loop over the
    days, taken in the order of their numbers, has written. *)
Lemma daily_prices_of_output fs year month out :
  process_month_output fs year month = Ok (Some out) ->
  exists dirs days b,
    month_path fs = Some dirs
    /\ sorted_days dirs = Ok days
    /\ process_days year month days = Ok (b, daily_prices out).
Proof.
  intros H. apply process_month_output_spec in H as (dirs & Hp & H).
  apply run_month_spec in H as (days & b & written & Hd & Hdays & _ & _ & _ & -> & _).
  exists dirs, days, b. repeat split; assumption.
Qed.

(** *** Files that fail *)

Lemma read_betfair_bz2_total f :
  exists df,
    read_betfair_bz2 f = Ok df
    /\ (forall d, read_json f = Ok d -> df = d)
    /\ (forall e, read_json f = Raise e -> df = empty_frame).
Proof.
  unfold read_betfair_bz2, try_except. destruct (read_json f) as [d|e].
  - exists d. repeat split; congruence.
  - exists empty_frame. repeat split; congruence.
Qed.

Lemma file_fails_streams f : file_fails f -> file_streams f = no_streams.
Proof.
  unfold file_streams, file_frame, read_betfair_bz2, try_except.
  intros [(e & ->)|(df & e & -> & Hp)]; simpl; [reflexivity|].
  destruct (empty df); [reflexivity|]. rewrite Hp; reflexivity.
Qed.

Lemma undecoded_not_retained f e : read_json f = Raise e -> retained f = [].
Proof.
  unfold retained, file_frame, read_betfair_bz2, try_except.
  intros ->; reflexivity.
Qed.

Lemma retained_decoded f df :
  read_json f = Ok df -> empty df = false -> retained f = [df].
Proof.
  unfold retained, file_frame, read_betfair_bz2, try_except.
  intros -> E; simpl. rewrite E; reflexivity.
Qed.

Lemma parse_raises_nonempty df e :
  parse_betfair_stream df = Raise e -> empty df = false.
Proof.
  unfold parse_betfair_stream. destruct (empty df); [discriminate | reflexivity].
Qed.

Lemma month_files_split days1 n files days2 :
  month_files (days1 ++ mkDayDir n files :: days2)
  = month_files days1 ++ files ++ month_files days2.
Proof. unfold month_files. rewrite flat_map_app; reflexivity. Qed.

Lemma nonempty_map_skip {A B} (g : A -> list B) a l1 f l2 b :
  g f = [] ->
  nonempty_tables (map g (a ++ (l1 ++ f :: l2) ++ b))
  = nonempty_tables (map g (a ++ (l1 ++ l2) ++ b)).
Proof.
  intros H. rewrite !map_app. cbn [map]. rewrite !nonempty_tables_app.
  cbn [nonempty_tables filter]. rewrite H. reflexivity.
Qed.

(** A file without event rows leaves the buffers of event rows as they
    were. *)
Lemma process_file_no_streams b f :
  file_streams f = no_streams ->
  process_file b f
  = mkBuffers (all_markets b) (all_runner_static b)
              (all_raw_dfs b ++ retained f) (day_runner_changes b).
Proof.
  intros H. rewrite process_file_spec, H. simpl. rewrite !app_nil_r.
  reflexivity.
Qed.

Lemma day_rows_without_file n l1 f l2 :
  file_streams f = no_streams ->
  day_rows (mkDayDir n (l1 ++ f :: l2)) = day_rows (mkDayDir n (l1 ++ l2)).
Proof.
  intros Hf. unfold day_rows. cbn [bz2_files].
  rewrite !flat_map_app. cbn [flat_map]. rewrite Hf. reflexivity.
Qed.

Lemma flushes_without_day year month d d' days2 :
  day_flush year month d = day_flush year month d' ->
  forall days1,
    for_each (fun _ x => day_flush year month x) (days1 ++ d :: days2) tt
    = for_each (fun _ x => day_flush year month x) (days1 ++ d' :: days2) tt.
Proof.
  intros H. induction days1 as [|x days1 IH]; simpl.
  - rewrite H. reflexivity.
  - destruct (day_flush year month x) as [[]|]; simpl; [exact IH | reflexivity].
Qed.

(** The loop over the days comes to the same event tables, or to the same
    exception, with and without a file that adds no event row. *)
Lemma event_tables_without_file year month days1 n l1 f l2 days2 :
  file_streams f = no_streams ->
  map_result event_tables
    (process_days year month (days1 ++ mkDayDir n (l1 ++ f :: l2) :: days2))
  = map_result event_tables
      (process_days year month (days1 ++ mkDayDir n (l1 ++ l2) :: days2)).
Proof.
  intros Hf. unfold process_days. rewrite !process_day_loop.
  assert (Hrows := @day_rows_without_file n l1 f l2 Hf).
  assert (Hflush : day_flush year month (mkDayDir n (l1 ++ f :: l2))
                   = day_flush year month (mkDayDir n (l1 ++ l2))).
  { unfold day_flush. rewrite Hrows. reflexivity. }
  rewrite (@flushes_without_day year month _ _ days2 Hflush days1).
  destruct (for_each _ (days1 ++ mkDayDir n (l1 ++ l2) :: days2) tt)
    as [u|e]; [|reflexivity].
  cbn [bind map_result]. f_equal. unfold event_tables. cbn [fst snd].
  destruct (day_buffers_loop (days1 ++ mkDayDir n (l1 ++ f :: l2) :: days2)
              (mkBuffers [] [] [] [])) as (A1 & A2 & _).
  destruct (day_buffers_loop (days1 ++ mkDayDir n (l1 ++ l2) :: days2)
              (mkBuffers [] [] [] [])) as (B1 & B2 & _).
  rewrite A1, A2, B1, B2. cbn [all_markets all_runner_static app].
  rewrite !month_files_split.
  rewrite (nonempty_map_skip (fun f => market_records (file_streams f)));
    [|rewrite Hf; reflexivity].
  rewrite (nonempty_map_skip (fun f => runner_static_records (file_streams f)));
    [|rewrite Hf; reflexivity].
  rewrite !flat_map_app. cbn [flat_map].
  assert (Hw : day_written year month (mkDayDir n (l1 ++ f :: l2))
               = day_written year month (mkDayDir n (l1 ++ l2))).
  { unfold day_written. rewrite Hrows. reflexivity. }
  rewrite Hw. reflexivity.
Qed.

(** C7 (as the code has it): [read_betfair_bz2] always returns, with the
    decoded frame or with an empty one.  A file whose decode or parse
    fails adds nothing to the buffers of event rows, and the loop over
    the days comes to the same market rows, runner rows and daily files,
    or to the same exception, as without that file.  A file that could
    not be decoded adds nothing to the retained frames either; a file
    that decoded and whose parse raised has its frame appended to them:
    in a run that completes it is among the frames handed to
    [create_reference_tables]. *)
Theorem C7_failed_file_adds_no_event_rows (f : File) :
  (exists df,
     read_betfair_bz2 f = Ok df
     /\ (forall d, read_json f = Ok d -> df = d)
     /\ (forall e, read_json f = Raise e -> df = empty_frame))
  /\ (file_fails f ->
      (forall b,
         all_markets (process_file b f) = all_markets b
         /\ all_runner_static (process_file b f) = all_runner_static b
         /\ day_runner_changes (process_file b f) = day_runner_changes b)
      /\ (forall year month days1 n l1 l2 days2,
            map_result event_tables
              (process_days year month
                 (days1 ++ mkDayDir n (l1 ++ f :: l2) :: days2))
            = map_result event_tables
                (process_days year month
                   (days1 ++ mkDayDir n (l1 ++ l2) :: days2))))
  /\ (forall e b,
        read_json f = Raise e ->
        all_raw_dfs (process_file b f) = all_raw_dfs b)
  /\ (forall df e b,
        read_json f = Ok df -> parse_betfair_stream df = Raise e ->
        all_raw_dfs (process_file b f) = all_raw_dfs b ++ [df])
  /\ (forall dirs existing year month out,
        run_month dirs existing year month = Ok out ->
        exists days b written,
          sorted_days dirs = Ok days
          /\ process_days year month days = Ok (b, written)
          /\ create_reference_tables (all_raw_dfs b)
             = Ok (market_ref out, runner_ref out)
          /\ (forall day df e,
                In day dirs -> In f (bz2_files day) ->
                read_json f = Ok df -> parse_betfair_stream df = Raise e ->
                In df (all_raw_dfs b))).
Proof.
  split; [apply read_betfair_bz2_total|]. split; [|split; [|split]].
  - intros Hf. pose proof (file_fails_streams Hf) as Hs. split.
    + intros b. rewrite (@process_file_no_streams b f Hs). repeat split.
    + intros year month days1 n l1 l2 days2.
      apply event_tables_without_file. exact Hs.
  - intros e b He.
    rewrite process_file_no_streams
      by (apply file_fails_streams; left; exists e; exact He).
    cbn [all_raw_dfs]. rewrite (@undecoded_not_retained f e He).
    apply app_nil_r.
  - intros df e b Hd Hp.
    rewrite process_file_no_streams
      by (apply file_fails_streams; right; exists df, e; split; assumption).
    cbn [all_raw_dfs].
    rewrite (@retained_decoded f df Hd (@parse_raises_nonempty df e Hp)). reflexivity.
  - intros dirs existing year month out H.
    apply run_month_spec in H as (days & b & written & Hd & Hp & Hr & _).
    exists days, b, written.
    split; [assumption|]. split; [assumption|]. split; [assumption|].
    intros day df e Hday Hf Hread Hparse.
    destruct (process_days_spec _ _ _ Hp) as (_ & _ & E3 & _).
    rewrite E3. apply in_flat_map. exists f. split.
    + apply in_flat_map. exists day. split; [|assumption].
      eapply Permutation_in;
        [apply Permutation_sym, sorted_days_perm, Hd | assumption].
    + rewrite (@retained_decoded f df Hread
                 (@parse_raises_nonempty df e Hparse)).
      left; reflexivity.
Qed.

(** *** The returned summary *)

Lemma keyed_days_accepted l1 : forall acc,
  Forall (fun x => exists k, py_int (name x) = Ok k) l1 ->
  exists keyed,
    for_each (fun acc d => k <- py_int (name d) ;; Ok (acc ++ [(k, d)])) l1 acc
    = Ok keyed.
Proof.
  induction l1 as [|x l1 IH]; intros acc HF; simpl; [eauto|].
  inversion HF as [|? ? (k & Hk) HF']; subst. rewrite Hk. simpl.
  apply IH; assumption.
Qed.

(** [sorted] raises what [int] raises on the first name it rejects. *)
Lemma sorted_days_raise l1 d l2 e :
  Forall (fun x => exists k, py_int (name x) = Ok k) l1 ->
  py_int (name d) = Raise e ->
  sorted_days (l1 ++ d :: l2) = Raise e.
Proof.
  intros HF He. unfold sorted_days. rewrite for_each_app.
  destruct (@keyed_days_accepted l1 [] HF) as (keyed & ->). simpl.
  rewrite He. reflexivity.
Qed.

(** C8 (as the code has it): a missing month directory gives no result
    and no exception.  On an existing one a call that returns gives the
    summary, a record of exactly the fields year, month, num_markets,
    num_runners and num_daily_files: the year and month passed, the
    numbers of rows of the two reference tables and the number of parquet
    files in the daily directory after the run.  But the call need not
    return: the exception [int] raises on a sub-directory name, the one
    the loop over the days raises in a flush, and the one
    [create_reference_tables] raises on the retained frames all reach the
    caller, and so does the [TypeError] of the monthly deduplication of
    the market rows on a key cell that is a list or an object. *)
Theorem C8_summary_skipped_or_raised (fs : Tree) (y : Z) (m : string) :
  (month_path fs = None -> process_month fs y m = Ok None)
  /\ (forall dirs,
        month_path fs = Some dirs ->
        (forall res,
           process_month fs y m = Ok res ->
           exists out,
             process_month_output fs y m = Ok (Some out)
             /\ res = Some (summary out)
             /\ year (summary out) = y
             /\ month (summary out) = m
             /\ num_markets (summary out) = List.length (market_ref out)
             /\ num_runners (summary out) = List.length (runner_ref out)
             /\ num_daily_files (summary out)
                = List.length
                    (nodup string_dec
                       (daily_prices_dir fs ++ map fst (daily_prices out))))
        /\ (forall l1 d l2 e,
              dirs = l1 ++ d :: l2 ->
              Forall (fun x => exists k, py_int (name x) = Ok k) l1 ->
              py_int (name d) = Raise e ->
              process_month fs y m = Raise e)
        /\ (forall days,
              sorted_days dirs = Ok days ->
              (forall e,
                 process_days y m days = Raise e ->
                 process_month fs y m = Raise e)
              /\ (forall b written,
                    process_days y m days = Ok (b, written) ->
                    (forall e,
                       create_reference_tables (all_raw_dfs b) = Raise e ->
                       process_month fs y m = Raise e)
                    /\ (forall refs r,
                          create_reference_tables (all_raw_dfs b) = Ok refs ->
                          In r (List.concat (all_markets b)) ->
                          forallb hashable
                            [Market.market_id r; Market.status r;
                             Market.in_play r; Market.version r] = false ->
                          process_month fs y m = Raise TypeError)))).
Proof.
  unfold process_month, process_month_output.
  split; [intros ->; reflexivity|].
  intros dirs ->. split; [|split].
  - intros res H. apply bind_Ok_inv in H as (o & Ho & H). injection H as <-.
    apply bind_Ok_inv in Ho as (out & Hrun & Ho). injection Ho as <-.
    exists out. rewrite Hrun. split; [reflexivity|]. split; [reflexivity|].
    apply run_month_spec in Hrun
      as (days & b & written & _ & _ & _ & _ & _ & -> & ->).
    repeat split.
  - intros l1 d l2 e -> HF He. unfold run_month.
    rewrite (@sorted_days_raise l1 d l2 e HF He). reflexivity.
  - intros days Hd. unfold run_month. rewrite Hd. cbn [bind]. split.
    + intros e ->. reflexivity.
    + intros b written ->. cbn [bind]. split.
      * intros e ->. reflexivity.
      * intros [mref rref] r -> Hin Hh. cbn [bind].
        unfold dedup_markets.
        destruct (List.concat (all_markets b)) as [|x t] eqn:E;
          [destruct Hin|].
        rewrite (@drop_duplicates_unhashable _ market_dedup_key (x :: t) r
                   Hin Hh).
        reflexivity.
Qed.

(** *** Files that parse fails on *)

Lemma row_blocks_in_frame df row market :
  empty df = false -> In row (rows df) -> In market (row_blocks df row) ->
  In market (frame_blocks df).
Proof.
  intros He Hr Hm. unfold frame_blocks. rewrite He.
  apply in_flat_map. exists row; split; assumption.
Qed.

(** Every row a block of a retained frame yields has its key in the
    reference tables. *)
Lemma reference_tables_cover df_list mref rref df market :
  create_reference_tables df_list = Ok (mref, rref) ->
  In df df_list -> In market (frame_blocks df) ->
  exists em,
    extracted_from market em
    /\ (forall r, In r (market_metadata em) ->
          exists r', In r' mref
                     /\ pandas_key (MarketMeta.market_id r')
                        = pandas_key (MarketMeta.market_id r))
    /\ (forall r, In r (runner_metadata em) ->
          exists r', In r' rref
                     /\ pandas_key (RunnerMeta.market_id r')
                        = pandas_key (RunnerMeta.market_id r)
                     /\ pandas_key (RunnerMeta.runner_id r')
                        = pandas_key (RunnerMeta.runner_id r)).
Proof.
  unfold create_reference_tables. intros H Hdf Hm.
  apply bind_Ok_inv in H as (md & Hmd & H).
  apply bind_Ok_inv in H as (mref' & Hmr & H).
  apply bind_Ok_inv in H as (rref' & Hrr & H).
  injection H as <- <-.
  apply drop_duplicates_Ok in Hmr as [_ ->].
  apply drop_duplicates_Ok in Hrr as [_ ->].
  destruct (collect_metadata_blocks df_list Hmd) as (ems & -> & HF).
  assert (Hin : In market (traversal_blocks df_list))
    by (apply in_flat_map; exists df; split; assumption).
  destruct (@Forall2_In_l _ _ _ _ _ _ HF Hin) as (em & Hem & Hex).
  exists em. split; [assumption|].
  rewrite market_metadata_fold, runner_metadata_fold. split.
  - intros r Hr.
    destruct (keep_first_keys (pandas_keys market_ref_key)
                (flat_map market_metadata ems) r) as (r' & Hr' & Hk).
    { apply in_flat_map; exists em; split; assumption. }
    exists r'. split; [assumption|].
    unfold pandas_keys, market_ref_key in Hk. simpl in Hk.
    injection Hk as Hk. exact Hk.
  - intros r Hr.
    destruct (keep_first_keys (pandas_keys runner_ref_key)
                (flat_map runner_metadata ems) r) as (r' & Hr' & Hk).
    { apply in_flat_map; exists em; split; assumption. }
    exists r'. split; [assumption|].
    unfold pandas_keys, runner_ref_key in Hk. simpl in Hk.
    injection Hk as Hk1 Hk2. split; assumption.
Qed.


(** ** Further properties of parse_betfair_stream *)

(** Parsing is compositional in the lines of a frame: the streams of a
    frame are those of its first lines followed by those of its last
    lines, and it raises as soon as one part does. *)
Theorem parse_betfair_stream_app (cols : list string) (l1 l2 : list RawRow) :
  parse_betfair_stream (mkDataFrame cols (l1 ++ l2))
  = (s1 <- parse_betfair_stream (mkDataFrame cols l1) ;;
     s2 <- parse_betfair_stream (mkDataFrame cols l2) ;;
     Ok (app_streams s1 s2)).
Proof.
  destruct cols as [|c cols]; [reflexivity|].
  destruct l1 as [|r1 l1].
  - simpl app. change (parse_betfair_stream (mkDataFrame (c :: cols) []))
      with (@Ok Streams no_streams). cbn [bind].
    destruct (parse_betfair_stream (mkDataFrame (c :: cols) l2)); simpl;
      [rewrite app_streams_unit_l|]; reflexivity.
  - destruct l2 as [|r2 l2].
    + rewrite app_nil_r.
      change (parse_betfair_stream (mkDataFrame (c :: cols) []))
        with (@Ok Streams no_streams).
      destruct (parse_betfair_stream (mkDataFrame (c :: cols) (r1 :: l1)));
        simpl; [rewrite app_streams_unit_r|]; reflexivity.
    + unfold parse_betfair_stream. cbn [empty columns rows app].
      change (for_each (parse_row (mkDataFrame (c :: cols) (r1 :: l1 ++ r2 :: l2)))
                       (r1 :: l1 ++ r2 :: l2) no_streams)
        with (for_each (parse_row (mkDataFrame (c :: cols) (r1 :: l1)))
                       ((r1 :: l1) ++ (r2 :: l2)) no_streams).
      rewrite for_each_app.
      destruct (for_each (parse_row (mkDataFrame (c :: cols) (r1 :: l1)))
                         (r1 :: l1) no_streams) as [s1|]; [|reflexivity].
      cbn [bind].
      change (parse_row (mkDataFrame (c :: cols) (r1 :: l1)))
        with (parse_row (mkDataFrame (c :: cols) (r2 :: l2))).
      apply (streams_loop (parse_row_appending _)).
Qed.

Lemma parse_rows_raise df l1 row l2 e :
  parse_row df no_streams row = Raise e ->
  exists e', for_each (parse_row df) (l1 ++ row :: l2) no_streams = Raise e'.
Proof.
  intros H. rewrite for_each_app.
  destruct (for_each (parse_row df) l1 no_streams) as [s1|e1]; simpl; [|eauto].
  rewrite (parse_row_appending df s1 row), H. simpl. eauto.
Qed.

(** One line on which the parse raises loses the event rows of the whole
    file, those of its other lines included: the parse of the frame
    raises, and the file loop leaves the three buffers of event rows as
    they were and appends the frame to the retained frames.  In a month
    that completes, the frame is among the retained frames from which
    [create_reference_tables] builds the two reference tables. *)
Theorem one_bad_line_loses_the_file (f : File) (df : DataFrame)
    (row : RawRow) (e : exn) :
  read_json f = Ok df -> empty df = false -> In row (rows df) ->
  parse_row df no_streams row = Raise e ->
  (exists e', parse_betfair_stream df = Raise e')
  /\ (forall b,
        process_file b f
        = mkBuffers (all_markets b) (all_runner_static b)
                    (all_raw_dfs b ++ [df]) (day_runner_changes b))
  /\ (forall fs year month out dirs day,
        month_path fs = Some dirs -> In day dirs -> In f (bz2_files day) ->
        process_month_output fs year month = Ok (Some out) ->
        exists days b written,
          sorted_days dirs = Ok days
          /\ process_days year month days = Ok (b, written)
          /\ In df (all_raw_dfs b)
          /\ create_reference_tables (all_raw_dfs b)
             = Ok (market_ref out, runner_ref out)).
Proof.
  intros Hread Hne Hin Hrow.
  assert (Hp : exists e', parse_betfair_stream df = Raise e').
  { unfold parse_betfair_stream. rewrite Hne.
    apply in_split in Hin as (l1 & l2 & ->).
    eapply parse_rows_raise; exact Hrow. }
  split; [exact Hp|]. destruct Hp as (e' & Hp). split.
  - intros b.
    unfold process_file, process_file_try, read_betfair_bz2, try_except.
    rewrite Hread, Hne, Hp. reflexivity.
  - intros fs year month out dirs day Hpath Hday Hf Hout.
    apply process_month_output_spec in Hout as (dirs' & Hp' & Hrun).
    rewrite Hpath in Hp'. injection Hp' as <-.
    apply run_month_spec in Hrun
      as (days & b & written & Hd & Hdays & Hrefs & _).
    destruct (process_days_spec _ _ _ Hdays) as (_ & _ & E3 & _).
    exists days, b, written. repeat split; try assumption.
    rewrite E3. apply in_flat_map. exists f. split.
    + apply in_flat_map. exists day. split; [|assumption].
      eapply Permutation_in;
        [apply Permutation_sym, sorted_days_perm, Hd | assumption].
    + rewrite (@retained_decoded f df Hread Hne). left; reflexivity.
Qed.

(** *** The rows of a block, entry by entry *)

Lemma runner_static_loop_rows mid t it : forall s s',
  for_each (fun s runner =>
              r <- runner_static_record mid t runner ;;
              Ok (append_runner_static s r)) it s = Ok s' ->
  exists rs,
    Forall2 (fun x r => runner_static_record mid t x = Ok r) it rs
    /\ s' = mkStreams (market_records s) (runner_static_records s ++ rs)
                      (runner_change_records s).
Proof.
  induction it as [|x it IH]; intros s s' H; simpl in H.
  - injection H as <-. exists []; split; [constructor|].
    rewrite app_nil_r; destruct s; reflexivity.
  - apply bind_Ok_inv in H as (s1 & H1 & H).
    apply bind_Ok_inv in H1 as (r & Hr & H1). injection H1 as <-.
    destruct (IH _ _ H) as (rs & HF & ->).
    exists (r :: rs); split; [constructor; assumption|].
    simpl. rewrite <- app_assoc. reflexivity.
Qed.

Lemma runner_change_loop_rows mid t it : forall s s',
  for_each (fun s rc =>
              r <- runner_change_record mid t rc ;;
              Ok (append_runner_change s r)) it s = Ok s' ->
  exists rs,
    Forall2 (fun x r => runner_change_record mid t x = Ok r) it rs
    /\ s' = mkStreams (market_records s) (runner_static_records s)
                      (runner_change_records s ++ rs).
Proof.
  induction it as [|x it IH]; intros s s' H; simpl in H.
  - injection H as <-. exists []; split; [constructor|].
    rewrite app_nil_r; destruct s; reflexivity.
  - apply bind_Ok_inv in H as (s1 & H1 & H).
    apply bind_Ok_inv in H1 as (r & Hr & H1). injection H1 as <-.
    destruct (IH _ _ H) as (rs & HF & ->).
    exists (r :: rs); split; [constructor; assumption|].
    simpl. rewrite <- app_assoc. reflexivity.
Qed.

Lemma parse_definition_rows mid t market s s' :
  parse_definition mid t s market = Ok s' ->
  runner_change_records s' = runner_change_records s
  /\ ((py_contains "marketDefinition" market = Ok false /\ s' = s)
      \/ (exists d r,
            py_contains "marketDefinition" market = Ok true
            /\ py_getitem market "marketDefinition" = Ok d
            /\ market_record mid t d = Ok r
            /\ market_records s' = market_records s ++ [r]
            /\ ((py_contains "runners" d = Ok false
                 /\ runner_static_records s' = runner_static_records s)
                \/ (exists rs it rows,
                      py_getitem d "runners" = Ok rs
                      /\ py_iter rs = Ok it
                      /\ Forall2 (fun x r => runner_static_record mid t x = Ok r)
                                 it rows
                      /\ runner_static_records s'
                         = runner_static_records s ++ rows)))).
Proof.
  unfold parse_definition. intros H.
  apply bind_Ok_inv in H as ([|] & Hc & H);
    [|injection H as <-; split; [reflexivity | left; split; [assumption | reflexivity]]].
  apply bind_Ok_inv in H as (d & Hd & H).
  apply bind_Ok_inv in H as (r & Hr & H).
  apply bind_Ok_inv in H as ([|] & Hrun & H).
  - apply bind_Ok_inv in H as (rs & Hrs & H).
    apply bind_Ok_inv in H as (it & Hit & H).
    apply runner_static_loop_rows in H as (rows & HF & ->). simpl.
    split; [reflexivity|]. right. exists d, r.
    repeat (split; [assumption || reflexivity|]).
    right. exists rs, it, rows. repeat split; assumption.
  - injection H as <-. simpl. split; [reflexivity|]. right. exists d, r.
    repeat (split; [assumption || reflexivity|]).
    left; split; [assumption | reflexivity].
Qed.

Lemma parse_changes_rows mid t market s s' :
  parse_changes mid t s market = Ok s' ->
  market_records s' = market_records s
  /\ runner_static_records s' = runner_static_records s
  /\ ((py_contains "rc" market = Ok false
       /\ runner_change_records s' = runner_change_records s)
      \/ (exists c it rows,
            py_getitem market "rc" = Ok c
            /\ py_iter c = Ok it
            /\ Forall2 (fun x r => runner_change_record mid t x = Ok r) it rows
            /\ runner_change_records s' = runner_change_records s ++ rows)).
Proof.
  unfold parse_changes. intros H.
  apply bind_Ok_inv in H as ([|] & Hc & H).
  - apply bind_Ok_inv in H as (c & Hget & H).
    apply bind_Ok_inv in H as (it & Hit & H).
    apply runner_change_loop_rows in H as (rows & HF & ->). simpl.
    repeat (split; [reflexivity|]).
    right. exists c, it, rows. repeat split; assumption.
  - injection H as <-. repeat (split; [reflexivity|]).
    left; split; [assumption | reflexivity].
Qed.

(** What a block emits: one market row when it has a definition, then one
    runner row for each entry of the definition's [runners], in the
    order of the entries; and, whether or not it has a definition, one
    price row for each entry of its [rc], in the order of the entries.
    All of them are built with the block's [id]. *)
Theorem block_rows_follow_entries (t : option timestamp) (market : json)
    (e : Streams) :
  parse_market t no_streams market = Ok e ->
  exists mid,
    py_get market "id" = Ok mid
    /\ ((py_contains "marketDefinition" market = Ok false
         /\ market_records e = [] /\ runner_static_records e = [])
        \/ (exists d r,
              py_getitem market "marketDefinition" = Ok d
              /\ market_record mid t d = Ok r
              /\ market_records e = [r]
              /\ ((py_contains "runners" d = Ok false
                   /\ runner_static_records e = [])
                  \/ (exists rs it,
                        py_getitem d "runners" = Ok rs
                        /\ py_iter rs = Ok it
                        /\ Forall2
                             (fun x r => runner_static_record mid t x = Ok r)
                             it (runner_static_records e)))))
    /\ ((py_contains "rc" market = Ok false /\ runner_change_records e = [])
        \/ (exists c it,
              py_getitem market "rc" = Ok c
              /\ py_iter c = Ok it
              /\ Forall2 (fun x r => runner_change_record mid t x = Ok r)
                         it (runner_change_records e))).
Proof.
  unfold parse_market. intros H.
  apply bind_Ok_inv in H as (mid & Hid & H).
  apply bind_Ok_inv in H as (s1 & H1 & H2).
  exists mid. split; [assumption|].
  apply parse_definition_rows in H1 as (D0 & D).
  apply parse_changes_rows in H2 as (C1 & C2 & C).
  split.
  - rewrite C1, C2.
    destruct D as [[Hc ->]|(d & r & Hc & Hd & Hr & Hm & Hrs)].
    + left. repeat split; assumption || reflexivity.
    + right. exists d, r. repeat (split; [assumption|]).
      destruct Hrs as [[Hn Hrows]|(rs & it & rows & Hg & Hit & HF & Hrows)].
      * left; split; assumption.
      * right. exists rs, it. rewrite Hrows. repeat split; assumption.
  - rewrite D0 in C.
    destruct C as [[Hc Hrows]|(c & it & rows & Hg & Hit & HF & Hrows)].
    + left; split; assumption.
    + right. exists c, it. rewrite Hrows. repeat split; assumption.
Qed.

(** ** Well-typed input never raises *)

Lemma for_each_ok {S A} (body : S -> A -> result S) xs :
  (forall s x, In x xs -> exists s', body s x = Ok s') ->
  forall s, exists s', for_each body xs s = Ok s'.
Proof.
  induction xs as [|x xs IH]; intros Hb s; simpl; [eauto|].
  destruct (Hb s x (or_introl eq_refl)) as (s1 & ->). simpl.
  apply IH. intros s0 y Hy. apply Hb. right; assumption.
Qed.

Lemma datetime_if_truthy_converts f k :
  converts (field (JObj f) k) = true ->
  exists o, datetime_if_truthy (JObj f) k = Ok o.
Proof.
  intros H. unfold datetime_if_truthy. unfold converts in H.
  rewrite py_get_dict. cbn [bind].
  destruct (py_truthy (field (JObj f) k)); cbn [negb orb] in H; [|eauto].
  cbn [bind].
  destruct (to_datetime (field (JObj f) k)); [cbn [bind]; eauto | discriminate H].
Qed.

Lemma market_record_dict mid t g : exists r, market_record mid t (JObj g) = Ok r.
Proof. unfold market_record. rewrite !py_get_dict. simpl. eauto. Qed.

Lemma runner_change_record_dict mid t g :
  exists r, runner_change_record mid t (JObj g) = Ok r.
Proof. unfold runner_change_record. rewrite !py_get_dict. simpl. eauto. Qed.

Lemma runner_static_record_dict mid t g :
  converts (field (JObj g) "removalDate") = true ->
  exists r, runner_static_record mid t (JObj g) = Ok r.
Proof.
  intros H. unfold runner_static_record. rewrite !py_get_dict. cbn [bind].
  destruct (datetime_if_truthy_converts g "removalDate" H) as (o & ->).
  simpl. eauto.
Qed.

Lemma runner_metadata_record_dict mid g :
  exists r, runner_metadata_record mid (JObj g) = Ok r.
Proof. unfold runner_metadata_record. rewrite !py_get_dict. simpl. eauto. Qed.

Lemma market_metadata_record_dict mid g :
  converts (field (JObj g) "marketTime") = true ->
  exists r, market_metadata_record mid (JObj g) = Ok r.
Proof.
  intros H. unfold market_metadata_record. rewrite !py_get_dict. cbn [bind].
  destruct (datetime_if_truthy_converts g "marketTime" H) as (o & ->).
  simpl. eauto.
Qed.

Lemma parse_definition_well_formed mid t s market :
  parse_ready_block market = true ->
  exists s', parse_definition mid t s market = Ok s'.
Proof.
  destruct market as [| | | | |f]; try discriminate. simpl.
  intros H. apply andb_true_iff in H as [Hd _].
  unfold parse_definition. simpl.
  destruct (lookup "marketDefinition" f) as [d|]; simpl; [|eauto].
  destruct d as [| | | | |g]; try discriminate.
  simpl in Hd.
  destruct (market_record_dict mid t g) as (r & ->). simpl.
  destruct (lookup "runners" g) as [rs|]; simpl; [|eauto].
  destruct rs as [| | | |l|]; try discriminate. simpl.
  apply for_each_ok. intros s0 x Hx.
  rewrite forallb_forall in Hd. specialize (Hd x Hx).
  apply andb_true_iff in Hd as [Hx1 Hx2].
  destruct x as [| | | | |gx]; try discriminate.
  destruct (runner_static_record_dict mid t gx Hx2) as (r0 & ->). simpl. eauto.
Qed.

Lemma parse_changes_well_formed mid t s market :
  parse_ready_block market = true ->
  exists s', parse_changes mid t s market = Ok s'.
Proof.
  destruct market as [| | | | |f]; try discriminate. simpl.
  intros H. apply andb_true_iff in H as [_ Hc].
  unfold parse_changes. simpl.
  destruct (lookup "rc" f) as [c|]; simpl; [|eauto].
  destruct c as [| | | |l|]; try discriminate. simpl.
  apply for_each_ok. intros s0 x Hx.
  simpl in Hc. rewrite forallb_forall in Hc. specialize (Hc x Hx).
  destruct x as [| | | | |gx]; try discriminate.
  destruct (runner_change_record_dict mid t gx) as (r0 & ->). simpl. eauto.
Qed.

Lemma parse_market_well_formed t s market :
  parse_ready_block market = true ->
  exists s', parse_market t s market = Ok s'.
Proof.
  intros H. unfold parse_market.
  destruct market as [| | | | |f]; try discriminate.
  rewrite py_get_dict. cbn [bind].
  destruct (parse_definition_well_formed (field (JObj f) "id") t s (JObj f) H)
    as (s1 & ->). cbn [bind].
  apply parse_changes_well_formed; assumption.
Qed.

Lemma blocks_of_total df row : exists o, blocks_of df row = Ok o.
Proof.
  unfold blocks_of. destruct (has_column "mc" df); simpl; [|eauto].
  destruct (skip_if_na_total (mc row)) as (b & ->); simpl.
  destruct b; [eauto|]. destruct (mc_data_of (mc row)); eauto.
Qed.

(** On a frame whose blocks are objects, with definitions that are
    objects, [runners] and [rc] that are lists of objects and removal
    dates that convert, and whose [pt] cells convert,
    [parse_betfair_stream] returns the three tables. *)
Theorem parse_betfair_stream_well_formed (df : DataFrame) :
  parse_ready_frame df = true -> timed_frame df = true ->
  exists s, parse_betfair_stream df = Ok s.
Proof.
  intros Hwf Ht. unfold parse_betfair_stream.
  destruct (empty df) eqn:He; [eauto|].
  apply for_each_ok. intros s row Hrow.
  unfold parse_row.
  destruct (blocks_of_total df row) as ([mc_data|] & Hb); rewrite Hb; simpl;
    [|eauto].
  assert (Hrb : row_blocks df row = mc_data) by (unfold row_blocks; rewrite Hb; reflexivity).
  assert (Hpt : exists t, publish_time_of df row = Ok t).
  { unfold publish_time_of. unfold timed_frame in Ht.
    destruct (has_column "pt" df); simpl in *; [|eauto].
    rewrite forallb_forall in Ht. specialize (Ht row Hrow). rewrite Hrb in Ht.
    destruct mc_data as [|b bs].
    - unfold blocks_of in Hb. destruct (has_column "mc" df); [|discriminate].
      simpl in Hb. destruct (skip_if_na (mc row)) as [[|]|]; try discriminate.
      simpl in Hb. destruct (mc_data_of (mc row)); discriminate.
    - destruct (to_datetime_ms (pt row)); [simpl; eauto | discriminate]. }
  destruct Hpt as (t & ->). simpl.
  apply for_each_ok. intros s0 market Hm.
  apply parse_market_well_formed.
  unfold parse_ready_frame in Hwf. rewrite forallb_forall in Hwf.
  apply Hwf. apply (row_blocks_in_frame df row); [assumption | assumption|].
  rewrite Hrb; assumption.
Qed.

(** *** The reference builder on well-typed blocks *)

Lemma reference_market_ready md market :
  reference_ready_block market = true ->
  exists md', reference_market md market = Ok md'.
Proof.
  destruct market as [| | | | |f]; try discriminate. simpl.
  intros H. unfold reference_market. simpl.
  destruct (lookup "marketDefinition" f) as [d|]; simpl; [|eauto].
  apply andb_true_iff in H as [_ Hd].
  destruct d as [| | | | |g]; try discriminate.
  simpl in Hd. apply andb_true_iff in Hd as [Ht Hr].
  assert (Hid : exists mid,
             match lookup "id" f with
             | Some v => Ok v
             | None => Ok JNull
             end = Ok mid) by (destruct (lookup "id" f); eauto).
  destruct Hid as (mid & ->). cbn [bind].
  destruct (market_metadata_record_dict mid g Ht) as (r & ->).
  simpl.
  destruct (lookup "runners" g) as [rs|]; simpl; [|eauto].
  destruct rs as [| | | |l|]; try discriminate. simpl.
  apply for_each_ok. intros s0 x Hx.
  rewrite forallb_forall in Hr. specialize (Hr x Hx).
  apply andb_true_iff in Hr as [Hx1 _].
  destruct x as [| | | | |gx]; try discriminate.
  destruct (runner_metadata_record_dict mid gx) as (r0 & ->).
  simpl. eauto.
Qed.

Lemma reference_frame_ready md df :
  reference_ready_frame df = true ->
  exists md', reference_frame md df = Ok md'.
Proof.
  intros Hwf. unfold reference_frame.
  destruct (empty df) eqn:He; [eauto|].
  apply for_each_ok. intros s row Hrow.
  unfold reference_row.
  destruct (blocks_of_total df row) as ([mc_data|] & Hb); rewrite Hb; simpl;
    [|eauto].
  apply for_each_ok. intros s0 market Hm.
  apply reference_market_ready.
  unfold reference_ready_frame in Hwf. rewrite forallb_forall in Hwf.
  apply Hwf. apply (row_blocks_in_frame df row); [assumption | assumption|].
  unfold row_blocks; rewrite Hb; assumption.
Qed.

Lemma collect_metadata_ready df_list :
  Forall (fun df => reference_ready_frame df = true) df_list ->
  exists md, collect_metadata df_list = Ok md.
Proof.
  intros HF. unfold collect_metadata. apply for_each_ok.
  intros s df Hdf. apply reference_frame_ready.
  rewrite Forall_forall in HF. apply HF; assumption.
Qed.

(** The key cells of the collected rows of ready frames can be hashed. *)
Lemma collected_keys_hashable df_list md :
  Forall (fun df => reference_ready_frame df = true) df_list ->
  collect_metadata df_list = Ok md ->
  forallb (fun r => forallb hashable (market_ref_key r)) (market_metadata md)
  = true
  /\ forallb (fun r => forallb hashable (runner_ref_key r))
             (runner_metadata md) = true.
Proof.
  intros HF Hmd.
  destruct (collect_metadata_blocks df_list Hmd) as (ems & -> & HF2).
  rewrite market_metadata_fold, runner_metadata_fold.
  assert (Hblock : forall market em,
             In market (traversal_blocks df_list) ->
             extracted_from market em ->
             reference_ready_block market = true).
  { intros market em Hin _. apply in_flat_map in Hin as (df & Hdf & Hin).
    rewrite Forall_forall in HF. specialize (HF df Hdf).
    unfold reference_ready_frame in HF. rewrite forallb_forall in HF.
    apply HF; assumption. }
  assert (Hid : forall market em,
             In market (traversal_blocks df_list) ->
             extracted_from market em ->
             (forall r, In r (market_metadata em) ->
                        hashable (MarketMeta.market_id r) = true)
             /\ (forall r, In r (runner_metadata em) ->
                           hashable (RunnerMeta.market_id r) = true
                           /\ hashable (RunnerMeta.runner_id r) = true)).
  { intros market em Hin Hex.
    pose proof (Hblock market em Hin Hex) as Hready.
    pose proof Hex as Hex'.
    apply extracted_from_block in Hex'
      as [[_ ->]|(d & mid & r & Hc & Hd & Hmid & Hrec & Hrows & _)];
      [split; intros r []|].
    destruct market as [| | | | |f]; try discriminate.
    simpl in Hd, Hready.
    destruct (lookup "marketDefinition" f) as [d'|] eqn:Hdef; [|discriminate].
    injection Hd as ->.
    apply andb_true_iff in Hready as [Hh Hdr].
    rewrite py_get_dict in Hmid. injection Hmid as <-.
    destruct d as [| | | | |g]; try discriminate.
    simpl in Hdr. apply andb_true_iff in Hdr as [_ Hrun].
    split.
    - intros r0 Hr0. rewrite Hrows in Hr0. destruct Hr0 as [<-|[]].
      rewrite (@market_metadata_record_id _ _ _ Hrec). exact Hh.
    - intros r0 Hr0.
      destruct (lookup "runners" g) as [rs|] eqn:Hrs.
      + destruct rs as [| | | |l|]; try discriminate.
        destruct (@extracted_from_runners (JObj f) em (JObj g) (JList l) l
                    Hex Hc) as (mid' & Hmid' & HF3);
          [simpl; rewrite Hdef; reflexivity
          | simpl; rewrite Hrs; reflexivity | reflexivity
          | simpl; rewrite Hrs; reflexivity |].
        rewrite py_get_dict in Hmid'. injection Hmid' as <-.
        destruct (@Forall2_In_r _ _ _ _ _ _ HF3 Hr0) as (x & Hx & Hrx).
        rewrite forallb_forall in Hrun. specialize (Hrun x Hx).
        apply andb_true_iff in Hrun as [Hx1 Hx2].
        rewrite (@runner_metadata_record_id _ _ _ Hrx).
        split; [exact Hh|].
        apply runner_metadata_record_runner_id in Hrx.
        destruct x as [| | | | |gx]; try discriminate.
        rewrite py_get_dict in Hrx. injection Hrx as <-. exact Hx2.
      + unfold extracted_from, reference_market in Hex.
        simpl in Hex. rewrite Hdef in Hex. simpl in Hex.
        apply bind_Ok_inv in Hex as (mid0 & _ & Hex).
        apply bind_Ok_inv in Hex as (r1 & _ & Hex).
        rewrite Hrs in Hex. simpl in Hex. injection Hex as <-.
        destruct Hr0. }
  split; apply forallb_forall; intros r Hr;
    apply in_flat_map in Hr as (em & Hem & Hr);
    destruct (@Forall2_In_r _ _ _ _ _ _ HF2 Hem) as (market & Hm & Hex);
    destruct (Hid market em Hm Hex) as [H1 H2].
  - unfold market_ref_key. simpl. rewrite (H1 r Hr). reflexivity.
  - unfold runner_ref_key. simpl. destruct (H2 r Hr) as [-> ->]. reflexivity.
Qed.

Lemma create_reference_tables_ready df_list :
  Forall (fun df => reference_ready_frame df = true) df_list ->
  exists refs, create_reference_tables df_list = Ok refs.
Proof.
  intros HF. unfold create_reference_tables.
  destruct (collect_metadata_ready HF) as (md & Hmd). rewrite Hmd. cbn [bind].
  destruct (collected_keys_hashable HF Hmd) as [H1 H2].
  rewrite (drop_duplicates_hashable _ _ H1). cbn [bind].
  rewrite (drop_duplicates_hashable _ _ H2). cbn [bind]. eauto.
Qed.

(** On frames in which every block is an object and every block with a
    definition has an id that can be hashed, an object as definition with
    a market time that converts, and for [runners], when it has some, a
    list of objects with ids that can be hashed,
    [create_reference_tables] returns the two tables. *)
Theorem create_reference_tables_well_formed (df_list : list DataFrame) :
  Forall (fun df => reference_ready_frame df = true) df_list ->
  exists market_ref runner_ref,
    create_reference_tables df_list = Ok (market_ref, runner_ref).
Proof.
  intros HF. destruct (create_reference_tables_ready HF) as ([mref rref] & H).
  eauto.
Qed.

(** ** Further properties of process_month *)

(** *** The batches *)

(** The batches of a day cut its list of files into consecutive pieces of
    one to a hundred files: no file is lost, repeated or moved, and the
    files are processed as by a single loop over the list. *)
Theorem batches_partition (files : list File) (b : Buffers) :
  List.concat (batches files) = files
  /\ Forall (fun batch => 1 <= List.length batch <= batch_size) (batches files)
  /\ process_files b files = fold_left process_file files b.
Proof.
  split; [apply concat_batches|]. split; [|apply process_files_spec].
  apply Forall_forall. intros batch Hin.
  unfold batches, range_step in Hin.
  apply in_map_iff in Hin as (i & <- & Hi).
  apply in_map_iff in Hi as (k & <- & Hk).
  apply in_seq in Hk. unfold slice, batch_size in *.
  rewrite length_firstn, length_skipn.
  pose proof (Nat.div_mod_eq (List.length files + 100 - 1) 100) as E.
  pose proof (Nat.mod_upper_bound (List.length files + 100 - 1) 100) as U.
  lia.
Qed.

(** *** The order of the days *)

Lemma sorted_days_ok dirs :
  Forall (fun d => exists k, py_int (name d) = Ok k) dirs ->
  exists days, sorted_days dirs = Ok days.
Proof.
  intros HF. unfold sorted_days.
  destruct (@keyed_days_accepted dirs [] HF) as (keyed & ->). simpl. eauto.
Qed.

(** When [int] accepts the name of every sub-directory of the month, the
    days are visited once each, in the order of their numbers.  When it
    rejects one, [sorted] raises what [int] raised on the first such
    name, and so does [process_month], whatever the files hold. *)
Theorem days_in_numeric_order_or_int_raises (fs : Tree) (year : Z)
    (month : string) (dirs : list DayDir) :
  (Forall (fun d => exists k, py_int (name d) = Ok k) dirs ->
   exists days,
     sorted_days dirs = Ok days
     /\ Permutation days dirs
     /\ StronglySorted day_before days)
  /\ (forall l1 d l2 e,
        dirs = l1 ++ d :: l2 ->
        Forall (fun x => exists k, py_int (name x) = Ok k) l1 ->
        py_int (name d) = Raise e ->
        sorted_days dirs = Raise e
        /\ (month_path fs = Some dirs ->
            process_month fs year month = Raise e)).
Proof.
  split.
  - intros HF. destruct (sorted_days_ok HF) as (days & Hd).
    exists days. split; [assumption|].
    split; [eapply sorted_days_perm | eapply sorted_days_sorted]; eassumption.
  - intros l1 d l2 e -> HF He.
    pose proof (@sorted_days_raise l1 d l2 e HF He) as Hs.
    split; [assumption|].
    intros Hp. unfold process_month, process_month_output, run_month.
    rewrite Hp, Hs. reflexivity.
Qed.

(** *** The daily files *)

Lemma string_append_inj_l (p a b : string) :
  (p ++ a)%string = (p ++ b)%string -> a = b.
Proof.
  induction p as [|c p IH]; simpl; intros H; [assumption|].
  injection H as H. auto.
Qed.

Lemma string_length_append (a b : string) :
  String.length (a ++ b)%string = String.length a + String.length b.
Proof. induction a as [|c a IH]; simpl; [reflexivity | rewrite IH; reflexivity]. Qed.

Lemma string_append_inj_r (s : string) : forall a b : string,
  (a ++ s)%string = (b ++ s)%string -> a = b.
Proof.
  induction a as [|c a IH]; intros [|c' b] H; simpl in H.
  - reflexivity.
  - apply (f_equal String.length) in H. simpl in H.
    rewrite string_length_append in H. lia.
  - apply (f_equal String.length) in H. simpl in H.
    rewrite string_length_append in H. lia.
  - injection H as -> H. f_equal. apply IH; assumption.
Qed.

(** Two days of a month never share a daily file. *)
Lemma daily_file_name_inj year month d1 d2 :
  daily_file_name year month d1 = daily_file_name year month d2 -> d1 = d2.
Proof.
  unfold daily_file_name. intros H.
  repeat apply string_append_inj_l in H.
  apply string_append_inj_r in H. assumption.
Qed.

Lemma day_written_length year month day :
  List.length (day_written year month day) = if has_prices day then 1 else 0.
Proof. unfold day_written, has_prices. destruct (day_rows day); reflexivity. Qed.

Lemma written_length year month days :
  List.length (flat_map (day_written year month) days)
  = List.length (filter has_prices days).
Proof.
  induction days as [|d days IH]; [reflexivity|].
  cbn [flat_map filter]. rewrite length_app, day_written_length, IH.
  destruct (has_prices d); reflexivity.
Qed.

Lemma written_names_NoDup year month days :
  NoDup (map name days) ->
  NoDup (map fst (flat_map (day_written year month) days)).
Proof.
  induction days as [|d days IH]; intros ND; [constructor|].
  simpl in ND. apply NoDup_cons_iff in ND as [Hd ND].
  cbn [flat_map]. rewrite map_app. unfold day_written at 1.
  destruct (day_rows d) as [|x l]; [apply IH; assumption|].
  simpl. constructor; [|apply IH; assumption].
  intros Hin. apply in_map_iff in Hin as ([fname table] & Hf & Hin).
  simpl in Hf. subst fname.
  apply in_flat_map in Hin as (d' & Hd' & Hin).
  apply day_written_In in Hin as (_ & Hname & _).
  apply daily_file_name_inj in Hname.
  apply Hd. rewrite Hname. apply in_map; assumption.
Qed.

(** In a loop over the days that does not raise, a daily file is written
    for exactly the days that have price rows, and none of them is empty;
    days with different names write different files. *)
Theorem daily_files_one_per_day_with_prices (year : Z) (month : string)
    (days : list DayDir) (b : Buffers)
    (written : list (string * list RunnerChange.t)) :
  process_days year month days = Ok (b, written) ->
  (forall fname table, In (fname, table) written -> table <> [])
  /\ List.length written = List.length (filter has_prices days)
  /\ (NoDup (map name days) -> NoDup (map fst written)).
Proof.
  intros H. apply process_days_spec in H as (_ & _ & _ & -> & _).
  split.
  - intros fname table Hin.
    apply in_flat_map in Hin as (day & _ & Hin).
    apply day_written_In in Hin as (Hne & _ & ->).
    intros E. apply Hne.
    pose proof (lexsort_perm runner_change_sort_key (day_rows day)) as P.
    rewrite E in P. apply Permutation_nil in P. assumption.
  - split; [apply written_length | apply written_names_NoDup].
Qed.

(** [num_daily_files] counts the parquet files found under the output
    directory after the run: those of earlier runs are counted too.  With
    an output directory that starts empty and days with different names,
    it is the number of days that have price rows. *)
Theorem num_daily_files_counts_the_directory (fs : Tree) (year : Z)
    (month : string) (out : MonthOutput) :
  process_month_output fs year month = Ok (Some out) ->
  List.length (nodup string_dec (daily_prices_dir fs))
  <= num_daily_files (summary out)
  /\ List.length (nodup string_dec (map fst (daily_prices out)))
     <= num_daily_files (summary out)
  /\ (forall dirs,
        month_path fs = Some dirs ->
        daily_prices_dir fs = [] -> NoDup (map name dirs) ->
        exists days,
          sorted_days dirs = Ok days
          /\ num_daily_files (summary out)
             = List.length (filter has_prices days)).
Proof.
  intros H. apply process_month_output_spec in H as (dirs & Hp & H).
  apply run_month_spec in H
    as (days & b & written & Hd & Hdays & _ & _ & _ & Hw & Hs).
  apply process_days_spec in Hdays as (_ & _ & _ & Hwr & _).
  rewrite Hs, Hw. cbn [num_daily_files].
  split; [|split].
  - apply NoDup_incl_length; [apply NoDup_nodup|].
    intros x Hx. apply nodup_In in Hx. apply nodup_In.
    apply in_or_app; left; assumption.
  - apply NoDup_incl_length; [apply NoDup_nodup|].
    intros x Hx. apply nodup_In in Hx. apply nodup_In.
    apply in_or_app; right; assumption.
  - intros dirs' Hp' He ND. rewrite Hp in Hp'. injection Hp' as <-.
    exists days. split; [assumption|].
    rewrite He. cbn [app]. rewrite Hwr.
    rewrite nodup_fixed_point.
    + rewrite length_map. apply written_length.
    + apply written_names_NoDup.
      eapply Permutation_NoDup; [|exact ND].
      apply Permutation_map, Permutation_sym, sorted_days_perm. assumption.
Qed.

(** *** The timeline and the reference tables *)

(** A file adds event rows only when its frame is retained and parsed. *)
Lemma file_streams_cases f :
  file_streams f = no_streams
  \/ (exists df,
        retained f = [df] /\ empty df = false
        /\ parse_betfair_stream df = Ok (file_streams f)).
Proof.
  unfold file_streams, retained, file_frame.
  destruct (read_betfair_bz2 f) as [df|]; [|left; reflexivity].
  destruct (empty df) eqn:E; [left; reflexivity|].
  destruct (parse_betfair_stream df) as [s|] eqn:P; [|left; reflexivity].
  right. exists df. repeat split; assumption.
Qed.

Lemma emitted_by_in_frame df row market t e :
  empty df = false -> emitted_by df row market t e ->
  In market (frame_blocks df).
Proof.
  intros He (Hrow & (mc_data & Hb & Hm) & _ & _).
  apply (row_blocks_in_frame df row); [assumption | assumption|].
  unfold row_blocks. rewrite Hb. assumption.
Qed.

Lemma market_row_block t market e r :
  parse_market t no_streams market = Ok e -> In r (market_records e) ->
  py_contains "marketDefinition" market = Ok true
  /\ py_get market "id" = Ok (Market.market_id r).
Proof.
  intros H Hr. pose proof (@parse_market_stamped _ _ _ H) as (mid & Hid & (S1 & _)).
  rewrite Forall_forall in S1. destruct (S1 r Hr) as [<- _].
  split; [|assumption].
  unfold parse_market in H. rewrite Hid in H. cbn [bind] in H.
  apply bind_Ok_inv in H as (s1 & H1 & H2).
  apply parse_definition_rows in H1 as (_ & D).
  apply parse_changes_rows in H2 as (C1 & _).
  destruct D as [[_ ->]|(d & r0 & Hc & _)]; [|assumption].
  rewrite C1 in Hr. destruct Hr.
Qed.

Lemma runner_row_block t market e r :
  parse_market t no_streams market = Ok e ->
  In r (runner_static_records e) ->
  exists d rs it x,
    py_contains "marketDefinition" market = Ok true
    /\ py_getitem market "marketDefinition" = Ok d
    /\ py_contains "runners" d = Ok true
    /\ py_getitem d "runners" = Ok rs /\ py_iter rs = Ok it
    /\ In x it
    /\ py_get market "id" = Ok (RunnerStatic.market_id r)
    /\ py_get x "id" = Ok (RunnerStatic.runner_id r).
Proof.
  intros H Hr. pose proof (@parse_market_stamped _ _ _ H) as (mid & Hid & (_ & S2 & _)).
  rewrite Forall_forall in S2. destruct (S2 r Hr) as [<- _].
  unfold parse_market in H. rewrite Hid in H. cbn [bind] in H.
  apply bind_Ok_inv in H as (s1 & H1 & H2).
  pose proof H1 as H1'.
  apply parse_definition_rows in H1 as (_ & D).
  apply parse_changes_rows in H2 as (_ & C2 & _).
  rewrite C2 in Hr.
  destruct D as [[_ ->]|(d & r0 & Hc & Hd & _ & _ & Hrs)]; [destruct Hr|].
  destruct Hrs as [[_ Hrows]|(rs & it & rows & Hg & Hit & HF & Hrows)];
    rewrite Hrows in Hr; [destruct Hr|].
  simpl in Hr.
  destruct (@Forall2_In_r _ _ _ _ _ _ HF Hr) as (x & Hx & Hrec).
  exists d, rs, it, x. repeat (split; [assumption|]).
  assert (Hrun : py_contains "runners" d = Ok true).
  { unfold parse_definition in H1'. rewrite Hc, Hd in H1'. cbn [bind] in H1'.
    apply bind_Ok_inv in H1' as (r1 & _ & H1').
    apply bind_Ok_inv in H1' as ([|] & Hrun & H1'); [assumption|].
    injection H1' as <-. simpl in Hrows.
    destruct rows; [destruct Hr | discriminate]. }
  split; [|split; [assumption | split; [assumption|]]].
  - assumption.
  - split; [assumption|]. split; [assumption|].
    apply (@runner_static_record_id _ _ _ _ Hrec).
Qed.

Lemma pandas_key_string v s : pandas_key v = JStr s -> v = JStr s.
Proof. destruct v; simpl; congruence. Qed.

(** In a month that completes and whose integers are stored exactly,
    every market of the timeline has a row under its id in the market
    reference, and every runner of the runner status table has a row
    under its two ids in the runner reference, ids being compared as
    pandas compares cells: the event tables never mention a key the
    reference tables lack.  A market id that is a string is found as it
    is. *)
Theorem event_keys_have_reference_rows (fs : Tree) (year : Z)
    (month : string) (out : MonthOutput) (dirs : list DayDir) :
  month_path fs = Some dirs -> exact_month dirs = true ->
  process_month_output fs year month = Ok (Some out) ->
  (forall r, In r (combined_markets out) ->
     exists r', In r' (market_ref out)
                /\ pandas_key (MarketMeta.market_id r')
                   = pandas_key (Market.market_id r)
                /\ (forall s, Market.market_id r = JStr s ->
                               MarketMeta.market_id r' = JStr s))
  /\ (forall r, In r (combined_runner_static out) ->
        exists r', In r' (runner_ref out)
                   /\ pandas_key (RunnerMeta.market_id r')
                      = pandas_key (RunnerStatic.market_id r)
                   /\ pandas_key (RunnerMeta.runner_id r')
                      = pandas_key (RunnerStatic.runner_id r)
                   /\ (forall s, RunnerStatic.market_id r = JStr s ->
                                  RunnerMeta.market_id r' = JStr s)).
Proof.
  intros _ _ H. apply process_month_output_spec in H as (dirs' & Hp & H).
  apply run_month_spec in H
    as (days & b & written & Hd & Hdays & Hrefs & Hm & Hr & _).
  apply process_days_spec in Hdays as (E1 & E2 & E3 & _).
  rewrite E1 in Hm. rewrite E2 in Hr. rewrite E3 in Hrefs.
  split.
  - intros r Hin.
    destruct (dedup_markets_spec _ Hm) as (_ & Hfirst & _).
    apply Hfirst, find_some in Hin as [Hin _].
    apply in_flat_map in Hin as (f & Hf & Hin).
    destruct (file_streams_cases f) as [E|(df & Hret & Hne & Hparse)];
      [rewrite E in Hin; destruct Hin|].
    destruct (parse_betfair_stream_blocks df Hparse) as (ems & Hs & HF).
    rewrite Hs, market_records_fold in Hin.
    apply in_flat_map in Hin as (e & He & Hin).
    rewrite Forall_forall in HF.
    destruct (HF e He) as (row & market & t & Hem).
    assert (Hblock : In market (frame_blocks df))
      by (eapply emitted_by_in_frame; eassumption).
    destruct Hem as (_ & _ & _ & Hpm).
    destruct (@market_row_block t market e r Hpm Hin) as (Hc & Hid).
    assert (Hdf : In df (flat_map retained (month_files days))).
    { apply in_flat_map. exists f. split; [assumption|].
      rewrite Hret; left; reflexivity. }
    destruct (@reference_tables_cover _ _ _ df market Hrefs Hdf Hblock)
      as (em & Hex & Hcover & _).
    apply extracted_from_block in Hex
      as [[Hc' _]|(d & mid & r0 & _ & _ & Hid' & Hrec & Hrows & _)];
      [congruence|].
    destruct (Hcover r0) as (r' & Hr' & Hk); [rewrite Hrows; left; reflexivity|].
    assert (Hk' : pandas_key (MarketMeta.market_id r')
                  = pandas_key (Market.market_id r)).
    { rewrite Hk, (@market_metadata_record_id _ _ _ Hrec). congruence. }
    exists r'. split; [assumption|]. split; [exact Hk'|].
    intros s Hs'. rewrite Hs' in Hk'. apply pandas_key_string. exact Hk'.
  - intros r Hin.
    destruct (dedup_runner_static_spec _ Hr) as (_ & Hfirst & _).
    apply Hfirst, find_some in Hin as [Hin _].
    apply in_flat_map in Hin as (f & Hf & Hin).
    destruct (file_streams_cases f) as [E|(df & Hret & Hne & Hparse)];
      [rewrite E in Hin; destruct Hin|].
    destruct (parse_betfair_stream_blocks df Hparse) as (ems & Hs & HF).
    rewrite Hs, runner_static_records_fold in Hin.
    apply in_flat_map in Hin as (e & He & Hin).
    rewrite Forall_forall in HF.
    destruct (HF e He) as (row & market & t & Hem).
    assert (Hblock : In market (frame_blocks df))
      by (eapply emitted_by_in_frame; eassumption).
    destruct Hem as (_ & _ & _ & Hpm).
    destruct (@runner_row_block t market e r Hpm Hin)
      as (d & rs & it & x & Hc & Hgd & Hrun & Hgr & Hit & Hx & Hid & Hxid).
    assert (Hdf : In df (flat_map retained (month_files days))).
    { apply in_flat_map. exists f. split; [assumption|].
      rewrite Hret; left; reflexivity. }
    destruct (@reference_tables_cover _ _ _ df market Hrefs Hdf Hblock)
      as (em & Hex & _ & Hcover).
    destruct (@extracted_from_runners market em d rs it Hex Hc Hgd Hgr Hit Hrun)
      as (mid & Hid' & HF2).
    destruct (@Forall2_In_l _ _ _ _ _ _ HF2 Hx) as (r0 & Hr0 & Hrec).
    destruct (Hcover r0 Hr0) as (r' & Hr' & Hk1 & Hk2).
    assert (Hk1' : pandas_key (RunnerMeta.market_id r')
                   = pandas_key (RunnerStatic.market_id r)).
    { rewrite Hk1, (@runner_metadata_record_id _ _ _ Hrec). congruence. }
    exists r'. split; [assumption|]. split; [exact Hk1'|]. split.
    + rewrite Hk2. apply runner_metadata_record_runner_id in Hrec. congruence.
    + intros s Hs'. rewrite Hs' in Hk1'. apply pandas_key_string. exact Hk1'.
Qed.

(** *** Months without data *)

Lemma flat_map_nil {A B} (g : A -> list B) l :
  (forall x, In x l -> g x = []) -> flat_map g l = [].
Proof.
  induction l as [|x l IH]; intros H; [reflexivity|].
  cbn [flat_map]. rewrite (H x (or_introl eq_refl)), IH; [reflexivity|].
  intros y Hy; apply H; right; assumption.
Qed.

Lemma not_retained f :
  (exists e, read_json f = Raise e)
  \/ (exists df, read_json f = Ok df /\ empty df = true) ->
  retained f = [] /\ file_streams f = no_streams.
Proof.
  unfold retained, file_streams, file_frame, read_betfair_bz2, try_except.
  intros [(e & ->)|(df & -> & E)]; simpl; [|rewrite E]; split; reflexivity.
Qed.

(** A month whose sub-directories [int] accepts and in which every file
    fails to decode or decodes to an empty frame (in particular such a
    month without files or without days) completes with empty tables, no
    daily file and zero counts: nothing is sorted, deduplicated or
    written. *)
Theorem month_without_frames (fs : Tree) (year : Z) (month : string)
    (dirs days : list DayDir) :
  month_path fs = Some dirs -> sorted_days dirs = Ok days ->
  (forall f, In f (month_files days) ->
             (exists e, read_json f = Raise e)
             \/ (exists df, read_json f = Ok df /\ empty df = true)) ->
  process_month_output fs year month
  = Ok (Some
          (mkMonthOutput [] [] [] [] []
             (mkSummary year month 0 0
                (List.length (nodup string_dec (daily_prices_dir fs)))))).
Proof.
  intros Hp Hd Hfiles.
  assert (Hrows : forall d, In d days -> day_rows d = []).
  { intros d Hd'. apply flat_map_nil. intros f Hf.
    destruct (@not_retained f) as [_ ->]; [|reflexivity].
    apply Hfiles. apply in_flat_map. exists d. split; assumption. }
  assert (Hflush : Forall (fun d => day_flush year month d = Ok tt) days).
  { apply Forall_forall. intros d Hd'. unfold day_flush.
    rewrite (Hrows d Hd'). reflexivity. }
  pose proof (@process_days_flushed year month days Hflush) as Hdays.
  destruct (@process_days_spec year month days _ _ Hdays)
    as (H1 & H2 & H3 & _).
  assert (E3 : flat_map retained (month_files days) = []).
  { apply flat_map_nil. intros f Hf.
    exact (proj1 (@not_retained f (Hfiles f Hf))). }
  assert (E1 : month_market_rows days = []).
  { apply flat_map_nil. intros f Hf.
    destruct (@not_retained f (Hfiles f Hf)) as [_ ->]. reflexivity. }
  assert (E2 : month_runner_static_rows days = []).
  { apply flat_map_nil. intros f Hf.
    destruct (@not_retained f (Hfiles f Hf)) as [_ ->]. reflexivity. }
  assert (E4 : flat_map (day_written year month) days = []).
  { apply flat_map_nil. intros d Hd'. unfold day_written.
    rewrite (Hrows d Hd'). reflexivity. }
  unfold process_month_output, run_month. rewrite Hp, Hd. cbn [bind].
  rewrite Hdays. cbn [bind]. rewrite H1, H2, H3, E1, E2, E3, E4.
  simpl. rewrite app_nil_r. reflexivity.
Qed.

Lemma retained_In f df : In df (retained f) -> read_json f = Ok df.
Proof.
  unfold retained, file_frame, read_betfair_bz2, try_except.
  destruct (read_json f) as [d|]; simpl; [|intros []].
  destruct (empty d); [intros [] | intros [<-|[]]; reflexivity].
Qed.

(** *** Months of well-typed data *)

Lemma month_ready_reference market :
  month_ready_block market = true -> reference_ready_block market = true.
Proof.
  destruct market as [| | | | |f]; try discriminate. simpl.
  intros H. apply andb_true_iff in H as [Hid Hd].
  destruct (lookup "marketDefinition" f) as [d|]; [|reflexivity].
  rewrite Hid. simpl.
  destruct d as [| | | | |g]; try discriminate. simpl in *.
  apply andb_true_iff in Hd as [Hd Hr].
  apply andb_true_iff in Hd as [Hd _].
  apply andb_true_iff in Hd as [Hd _].
  apply andb_true_iff in Hd as [Ht _].
  rewrite Ht. simpl.
  destruct (lookup "runners" g) as [rs|]; [|reflexivity].
  destruct rs as [| | | |l|]; try discriminate.
  rewrite forallb_forall in *. intros x Hx. specialize (Hr x Hx).
  apply andb_true_iff in Hr as [Hr _]. exact Hr.
Qed.

Lemma month_ready_reference_frame df :
  month_ready_frame df = true -> reference_ready_frame df = true.
Proof.
  unfold month_ready_frame, reference_ready_frame.
  rewrite !forallb_forall. intros H x Hx.
  apply month_ready_reference, H, Hx.
Qed.

(** The rows a ready frame emits, block by block. *)
Lemma ready_frame_emissions f r (rows_of : Streams -> list r) :
  (forall a b, rows_of (app_streams a b) = rows_of a ++ rows_of b) ->
  rows_of no_streams = [] ->
  (forall df, read_json f = Ok df -> month_ready_frame df = true) ->
  forall x, In x (rows_of (file_streams f)) ->
  exists t fields e,
    month_ready_block (JObj fields) = true
    /\ parse_market t no_streams (JObj fields) = Ok e
    /\ In x (rows_of e).
Proof.
  intros Happ Hnil Hready x Hx.
  destruct (file_streams_cases f) as [E|(df & Hret & Hne & Hparse)];
    [rewrite E, Hnil in Hx; destruct Hx|].
  assert (Hread : read_json f = Ok df)
    by (apply retained_In; rewrite Hret; left; reflexivity).
  specialize (Hready df Hread).
  destruct (parse_betfair_stream_blocks df Hparse) as (ems & Hs & HF).
  rewrite Hs in Hx.
  assert (Hfold : forall l, rows_of (fold_right app_streams no_streams l)
                            = flat_map rows_of l).
  { induction l as [|a l IH]; simpl; [exact Hnil|]. rewrite Happ, IH. reflexivity. }
  rewrite Hfold in Hx. apply in_flat_map in Hx as (e & He & Hx).
  rewrite Forall_forall in HF. destruct (HF e He) as (row & market & t & Hem).
  assert (Hblock : In market (frame_blocks df))
    by (eapply emitted_by_in_frame; eassumption).
  unfold month_ready_frame in Hready. rewrite forallb_forall in Hready.
  specialize (Hready market Hblock).
  destruct Hem as (_ & _ & _ & Hpm).
  destruct market as [| | | | |fields]; try discriminate.
  exists t, fields, e. repeat split; assumption.
Qed.

Lemma ready_change_rows f :
  (forall df, read_json f = Ok df -> month_ready_frame df = true) ->
  forall r, In r (runner_change_records (file_streams f)) ->
  hashable (RunnerChange.market_id r) = true.
Proof.
  intros Hready r Hr.
  destruct (@ready_frame_emissions f _ runner_change_records) with (x := r)
    as (t & fields & e & Hb & Hpm & Hin);
    [intros; reflexivity | reflexivity | assumption | assumption |].
  destruct (@parse_market_stamped _ _ _ Hpm) as (mid & Hid & (_ & _ & S3)).
  rewrite py_get_dict in Hid. injection Hid as <-.
  rewrite Forall_forall in S3. destruct (S3 r Hin) as [-> _].
  simpl in Hb. apply andb_true_iff in Hb as [Hb _]. exact Hb.
Qed.

Lemma ready_market_rows f :
  (forall df, read_json f = Ok df -> month_ready_frame df = true) ->
  forall r, In r (market_records (file_streams f)) ->
  forallb hashable (market_dedup_key r) = true.
Proof.
  intros Hready r Hr.
  destruct (@ready_frame_emissions f _ market_records) with (x := r)
    as (t & fields & e & Hb & Hpm & Hin);
    [intros; reflexivity | reflexivity | assumption | assumption |].
  unfold parse_market in Hpm. rewrite py_get_dict in Hpm. cbn [bind] in Hpm.
  apply bind_Ok_inv in Hpm as (s1 & H1 & H2).
  apply parse_changes_rows in H2 as (C1 & _). rewrite C1 in Hin.
  apply parse_definition_rows in H1
    as (_ & [[_ ->]|(d & r0 & _ & Hd & Hrec & Hrows & _)]); [destruct Hin|].
  rewrite Hrows in Hin. destruct Hin as [<-|[]].
  simpl in Hb, Hd. apply andb_true_iff in Hb as [Hid Hdef].
  destruct (lookup "marketDefinition" fields) as [d'|]; [|discriminate].
  injection Hd as ->.
  destruct d as [| | | | |g]; try discriminate.
  cbn [month_ready_definition] in Hdef.
  apply andb_true_iff in Hdef as [Hdef _].
  apply andb_true_iff in Hdef as [Hdef Hv].
  apply andb_true_iff in Hdef as [Hdef Hp].
  apply andb_true_iff in Hdef as [_ Hs].
  unfold market_record in Hrec. rewrite !py_get_dict in Hrec.
  cbn [bind] in Hrec. injection Hrec as <-.
  unfold market_dedup_key, field in *. simpl in *.
  rewrite Hid, Hs, Hp, Hv. reflexivity.
Qed.

Lemma ready_runner_rows f :
  (forall df, read_json f = Ok df -> month_ready_frame df = true) ->
  forall r, In r (runner_static_records (file_streams f)) ->
  forallb hashable (runner_static_dedup_key r) = true.
Proof.
  intros Hready r Hr.
  destruct (@ready_frame_emissions f _ runner_static_records) with (x := r)
    as (t & fields & e & Hb & Hpm & Hin);
    [intros; reflexivity | reflexivity | assumption | assumption |].
  unfold parse_market in Hpm. rewrite py_get_dict in Hpm. cbn [bind] in Hpm.
  apply bind_Ok_inv in Hpm as (s1 & H1 & H2).
  apply parse_changes_rows in H2 as (_ & C2 & _). rewrite C2 in Hin.
  apply parse_definition_rows in H1
    as (_ & [[_ ->]|(d & r0 & _ & Hd & _ & _ & Hrs)]); [destruct Hin|].
  destruct Hrs as [[_ Hrows]|(rs & it & rows & Hg & Hit & HF & Hrows)];
    rewrite Hrows in Hin; [destruct Hin|].
  simpl in Hin.
  destruct (@Forall2_In_r _ _ _ _ _ _ HF Hin) as (x & Hx & Hrec).
  simpl in Hb, Hd. apply andb_true_iff in Hb as [Hid Hdef].
  destruct (lookup "marketDefinition" fields) as [d'|]; [|discriminate].
  injection Hd as ->.
  destruct d as [| | | | |g]; try discriminate.
  cbn [month_ready_definition] in Hdef.
  apply andb_true_iff in Hdef as [_ Hrun].
  simpl in Hg. destruct (lookup "runners" g) as [rs'|]; [|discriminate].
  injection Hg as ->.
  destruct rs as [| | | |l|]; try discriminate.
  simpl in Hit. injection Hit as <-.
  rewrite forallb_forall in Hrun. specialize (Hrun x Hx).
  apply andb_true_iff in Hrun as [Hrun Hxs].
  apply andb_true_iff in Hrun as [Hxd Hxi].
  destruct x as [| | | | |gx]; try discriminate.
  unfold runner_static_record in Hrec. rewrite !py_get_dict in Hrec.
  cbn [bind] in Hrec.
  apply bind_Ok_inv in Hrec as (rd & _ & Hrec). injection Hrec as <-.
  unfold runner_static_dedup_key, field in *. simpl in *.
  rewrite Hid, Hxi, Hxs. reflexivity.
Qed.

Lemma dedup_hashable {R} (cols : R -> list json)
    (sort_key : R -> json * option timestamp) (t : list R) :
  forallb (fun r => forallb hashable (cols r)) t = true ->
  (forall r, In r t -> hashable (fst (sort_key r)) = true) ->
  exists t', (kept <- drop_duplicates cols t ;; sort_values sort_key kept)
             = Ok t'.
Proof.
  intros H1 H2. rewrite (drop_duplicates_hashable _ _ H1). cbn [bind].
  rewrite sort_values_hashable; [eauto|].
  apply forallb_forall. intros r Hr. apply H2.
  eapply keep_first_incl; exact Hr.
Qed.

(** When [int] accepts the names of the sub-directories of the month,
    every block of every file that decodes is an object with an id that
    can be hashed, a definition, if any, that is an object with a market
    time that converts, a status, an [inPlay] and a version that can be
    hashed and a [runners], if any, that is a list of objects with ids
    and statuses that can be hashed, and the parquet writer accepts every
    table, [process_month] returns a summary for that year and month:
    files that fail to decode, and files on which the parse raises, do
    not prevent it. *)
Theorem process_month_returns_on_well_formed_input (fs : Tree) (y : Z)
    (m : string) (dirs : list DayDir) :
  month_path fs = Some dirs ->
  Forall (fun d => exists k, py_int (name d) = Ok k) dirs ->
  (forall d f df, In d dirs -> In f (bz2_files d) -> read_json f = Ok df ->
                  month_ready_frame df = true) ->
  (forall table path, to_parquet table path = Ok tt) ->
  exists s,
    process_month fs y m = Ok (Some s) /\ year s = y /\ month s = m.
Proof.
  intros Hp Hnames Hwf Hw.
  destruct (@keyed_days_accepted dirs [] Hnames) as (keyed & Hkeyed).
  assert (Hd : exists days, sorted_days dirs = Ok days)
    by (unfold sorted_days; rewrite Hkeyed; simpl; eauto).
  destruct Hd as (days & Hd).
  assert (Hready : forall f, In f (month_files days) ->
                     forall df, read_json f = Ok df ->
                                month_ready_frame df = true).
  { intros f Hf df Hread. apply in_flat_map in Hf as (d & Hd' & Hf).
    apply (Hwf d f df); [|assumption | assumption].
    eapply Permutation_in; [eapply sorted_days_perm; eassumption | assumption]. }
  assert (Hflush : Forall (fun d => day_flush y m d = Ok tt) days).
  { apply Forall_forall. intros d Hd'. unfold day_flush.
    destruct (day_rows d) as [|x l] eqn:E; [reflexivity|].
    rewrite sort_values_hashable.
    - cbn [bind]. apply Hw.
    - apply forallb_forall. intros r Hr. rewrite <- E in Hr.
      apply in_flat_map in Hr as (f & Hf & Hr).
      apply (@ready_change_rows f); [|exact Hr].
      apply Hready. apply in_flat_map. exists d. split; assumption. }
  pose proof (@process_days_flushed y m days Hflush) as Hdays.
  destruct (@process_days_spec y m days _ _ Hdays) as (E1 & E2 & E3 & _).
  assert (HF : Forall (fun df => reference_ready_frame df = true)
                      (flat_map retained (month_files days))).
  { apply Forall_forall. intros df Hdf.
    apply in_flat_map in Hdf as (f & Hf & Hdf).
    apply month_ready_reference_frame.
    apply (Hready f Hf). apply retained_In. exact Hdf. }
  destruct (create_reference_tables_ready HF) as ([mref rref] & Hrefs).
  assert (Hm : exists cm, dedup_markets (month_market_rows days) = Ok cm).
  { unfold dedup_markets.
    destruct (month_market_rows days) as [|x l] eqn:E; [eauto|].
    rewrite <- E. apply dedup_hashable.
    - apply forallb_forall. intros r Hr.
      apply in_flat_map in Hr as (f & Hf & Hr).
      apply (@ready_market_rows f (Hready f Hf) r Hr).
    - intros r Hr. apply in_flat_map in Hr as (f & Hf & Hr).
      pose proof (@ready_market_rows f (Hready f Hf) r Hr) as H.
      unfold market_dedup_key in H. simpl in H.
      apply andb_true_iff in H as [H _]. exact H. }
  assert (Hr : exists cr,
             dedup_runner_static (month_runner_static_rows days) = Ok cr).
  { unfold dedup_runner_static.
    destruct (month_runner_static_rows days) as [|x l] eqn:E; [eauto|].
    rewrite <- E. apply dedup_hashable.
    - apply forallb_forall. intros r Hr.
      apply in_flat_map in Hr as (f & Hf & Hr).
      apply (@ready_runner_rows f (Hready f Hf) r Hr).
    - intros r Hr. apply in_flat_map in Hr as (f & Hf & Hr).
      pose proof (@ready_runner_rows f (Hready f Hf) r Hr) as H.
      unfold runner_static_dedup_key in H. simpl in H.
      apply andb_true_iff in H as [H _]. exact H. }
  destruct Hm as (cm & Hm). destruct Hr as (cr & Hr).
  unfold process_month, process_month_output, run_month.
  rewrite Hp, Hd. cbn [bind]. rewrite Hdays. cbn [bind].
  rewrite E1, E2, E3, Hrefs. cbn [bind]. rewrite Hm. cbn [bind].
  rewrite Hr. cbn [bind].
  assert (Hwn : forall R (table : list R -> Table) t path,
             write_nonempty table t path = Ok tt).
  { intros R table t path. unfold write_nonempty.
    destruct t; [reflexivity | apply Hw]. }
  rewrite !Hwn. cbn [bind option_map summary].
  eexists. repeat split.
Qed.

(** *** The monthly deduplication, run twice *)

Lemma drop_duplicates_from_fixed {R} (key : R -> list json) l : forall seen,
  NoDup (map key l) -> (forall x, In x l -> ~ In (key x) seen) ->
  drop_duplicates_from key seen l = l.
Proof.
  induction l as [|x l IH]; intros seen ND Hs; [reflexivity|].
  simpl in ND. apply NoDup_cons_iff in ND as [Hx ND]. simpl.
  destruct (existsb (key_eqb (key x)) seen) eqn:E.
  - apply existsb_key_eqb in E. exfalso. apply (Hs x); [left; reflexivity | assumption].
  - f_equal. apply IH; [assumption|].
    intros y Hy [H|H].
    + apply Hx. rewrite H. apply in_map; assumption.
    + apply (Hs y); [right; assumption | assumption].
Qed.

Lemma stable_sort_fixed {R} (leb : R -> R -> bool) l :
  StronglySorted (fun a b => leb a b = true) l -> stable_sort leb l = l.
Proof.
  induction 1 as [|x l HS IH HF]; [reflexivity|].
  simpl. rewrite IH. destruct l as [|y l]; [reflexivity|].
  simpl. inversion HF as [|? ? Hxy _]; subst. rewrite Hxy. reflexivity.
Qed.

Lemma forallb_incl {A} (P : A -> bool) l l' :
  (forall x, In x l' -> In x l) -> forallb P l = true -> forallb P l' = true.
Proof.
  intros Hi H. rewrite forallb_forall in *. intros x Hx. apply H, Hi, Hx.
Qed.

Lemma sort_dedup_fixed {R} (cols : R -> list json)
    (sort_key : R -> json * option timestamp) (t t' : list R) :
  (kept <- drop_duplicates cols t ;; sort_values sort_key kept) = Ok t' ->
  (kept <- drop_duplicates cols t' ;; sort_values sort_key kept) = Ok t'.
Proof.
  intros H.
  destruct (sort_dedup_spec cols sort_key t H) as (ND & _ & _ & HS & P).
  apply bind_Ok_inv in H as (kept & Hk & H).
  apply drop_duplicates_Ok in Hk as [Hh ->].
  apply sort_values_Ok in H as [Hh' _].
  assert (Hin : forall x, In x t' -> In x (keep_first (pandas_keys cols) t)).
  { intros x Hx. eapply Permutation_in; [exact P | exact Hx]. }
  rewrite drop_duplicates_hashable.
  - cbn [bind]. unfold keep_first.
    rewrite drop_duplicates_from_fixed; [|assumption | intros x _ []].
    rewrite sort_values_hashable by (eapply forallb_incl; [exact Hin | exact Hh']).
    f_equal. apply stable_sort_fixed. exact HS.
  - eapply forallb_incl; [|exact Hh].
    intros x Hx. eapply keep_first_incl. apply Hin. exact Hx.
Qed.

Lemma dedup_markets_fixed markets t :
  dedup_markets markets = Ok t -> dedup_markets t = Ok t.
Proof.
  intros H. destruct markets as [|x l].
  - simpl in H. injection H as <-. reflexivity.
  - unfold dedup_markets in H. apply sort_dedup_fixed in H.
    destruct t as [|y t']; [reflexivity | exact H].
Qed.

Lemma dedup_runner_static_fixed runners t :
  dedup_runner_static runners = Ok t -> dedup_runner_static t = Ok t.
Proof.
  intros H. destruct runners as [|x l].
  - simpl in H. injection H as <-. reflexivity.
  - unfold dedup_runner_static in H. apply sort_dedup_fixed in H.
    destruct t as [|y t']; [reflexivity | exact H].
Qed.

(** Running the monthly deduplication on its own result changes nothing:
    the tables it leaves are already free of duplicates and in order, and
    a deduplication that raises raises the same way. *)
Theorem monthly_dedup_idempotent (markets : list Market.t)
    (runners : list RunnerStatic.t) :
  (t <- dedup_markets markets ;; dedup_markets t) = dedup_markets markets
  /\ (t <- dedup_runner_static runners ;; dedup_runner_static t)
     = dedup_runner_static runners.
Proof.
  split.
  - destruct (dedup_markets markets) as [t|e] eqn:E; [|reflexivity].
    exact (dedup_markets_fixed _ E).
  - destruct (dedup_runner_static runners) as [t|e] eqn:E; [|reflexivity].
    exact (dedup_runner_static_fixed _ E).
Qed.

(** *** Blocks that are not objects *)

(** A block that is not an object always makes the parse raise
    [AttributeError].  The reference builder treats it otherwise: a list
    or a string in which ["marketDefinition"] does not occur is passed
    over in silence, and any other value raises [TypeError]. *)
Theorem non_object_block (t : option timestamp) (st : Streams)
    (md : Metadata) (market : json) :
  is_dict market = false ->
  parse_market t st market = Raise AttributeError
  /\ reference_market md market
     = match market with
       | JList l =>
           if existsb (json_eqb (JStr "marketDefinition")) l
           then Raise TypeError else Ok md
       | JStr s =>
           if is_infix "marketDefinition" s then Raise TypeError else Ok md
       | _ => Raise TypeError
       end.
Proof.
  intros H. destruct market as [| | | s | l |f]; try discriminate;
    (split; [reflexivity|]); unfold reference_market; simpl; try reflexivity.
  - destruct (is_infix "marketDefinition" s); reflexivity.
  - destruct (existsb (json_eqb (JStr "marketDefinition")) l); reflexivity.
Qed.

(** ** main *)

Lemma for_each_ext {S A} (f g : S -> A -> result S) xs :
  (forall s x, f s x = g s x) ->
  forall s, for_each f xs s = for_each g xs s.
Proof.
  intros H. induction xs as [|x xs IH]; intros s; simpl; [reflexivity|].
  rewrite H. destruct (g s x); simpl; [apply IH | reflexivity].
Qed.

Lemma process_month_result fs y m o :
  process_month fs y m = Ok o ->
  match o with
  | None => month_path fs = None
  | Some s => month_path fs <> None /\ summary_month s = (y, m)
  end.
Proof.
  unfold process_month, process_month_output.
  destruct (month_path fs) as [dirs|]; simpl.
  - destruct (run_month dirs (daily_prices_dir fs) y m) as [out|] eqn:E;
      simpl; [|discriminate].
    intros H; injection H as <-. simpl.
    apply run_month_spec in E
      as (days & b & written & _ & _ & _ & _ & _ & _ & ->).
    split; [discriminate | reflexivity].
  - intros H; injection H as <-. reflexivity.
Qed.

Lemma main_months_spec fs y ms : forall printed,
  match main_months fs y ms printed with
  | (p, Ok _) =>
      map summary_month p
      = map summary_month printed
          ++ filter (present fs) (map (fun m => (y, m)) ms)
  | (p, Raise e) =>
      exists l1 m l2,
        ms = l1 ++ m :: l2
        /\ process_month (fs y m) y m = Raise e
        /\ map summary_month p
           = map summary_month printed
               ++ filter (present fs) (map (fun m => (y, m)) l1)
  end.
Proof.
  induction ms as [|m ms IH]; intros printed; simpl.
  - rewrite app_nil_r; reflexivity.
  - destruct (process_month (fs y m) y m) as [[res|]|e] eqn:E.
    + apply process_month_result in E as [Hp Hs].
      assert (Hpres : present fs (y, m) = true).
      { unfold present; simpl. destruct (month_path (fs y m)); congruence. }
      rewrite Hpres. specialize (IH (printed ++ [res])).
      destruct (main_months fs y ms (printed ++ [res])) as [p [u|e]].
      * rewrite IH, map_app. simpl. rewrite Hs, <- app_assoc. reflexivity.
      * destruct IH as (l1 & m' & l2 & -> & Hr & Hmap).
        exists (m :: l1), m', l2. split; [reflexivity|]. split; [assumption|].
        rewrite Hmap, map_app. simpl. rewrite Hpres, Hs, <- app_assoc. reflexivity.
    + apply process_month_result in E.
      assert (Hpres : present fs (y, m) = false).
      { unfold present; simpl. rewrite E; reflexivity. }
      rewrite Hpres. specialize (IH printed).
      destruct (main_months fs y ms printed) as [p [u|e]].
      * assumption.
      * destruct IH as (l1 & m' & l2 & -> & Hr & Hmap).
        exists (m :: l1), m', l2. split; [reflexivity|]. split; [assumption|].
        simpl. rewrite Hpres. assumption.
    + exists [], m, ms. split; [reflexivity|]. split; [assumption|].
      simpl. rewrite app_nil_r; reflexivity.
Qed.

Lemma main_years_spec fs ys : forall printed,
  match main_years fs ys printed with
  | (p, Ok _) =>
      map summary_month p
      = map summary_month printed
          ++ filter (present fs)
               (flat_map (fun y => map (fun m => (y, m)) months) ys)
  | (p, Raise e) =>
      exists before y m after,
        flat_map (fun y => map (fun m => (y, m)) months) ys
        = before ++ (y, m) :: after
        /\ process_month (fs y m) y m = Raise e
        /\ map summary_month p
           = map summary_month printed ++ filter (present fs) before
  end.
Proof.
  induction ys as [|y ys IH]; intros printed.
  - cbn [main_years flat_map filter]. rewrite app_nil_r; reflexivity.
  - cbn [main_years flat_map].
    pose proof (main_months_spec fs y months printed) as Hm.
    destruct (main_months fs y months printed) as [p1 [u|e]].
    + specialize (IH p1).
      destruct (main_years fs ys p1) as [p [u'|e]].
      * rewrite IH, Hm, filter_app, <- app_assoc. reflexivity.
      * destruct IH as (before & y' & m' & after & Hs & Hr & Hmap).
        exists (map (fun m => (y, m)) months ++ before), y', m', after.
        split; [rewrite Hs, <- app_assoc; reflexivity|].
        split; [assumption|].
        rewrite Hmap, Hm, filter_app, <- app_assoc. reflexivity.
    + destruct Hm as (l1 & m' & l2 & Hs & Hr & Hmap).
      exists (map (fun m => (y, m)) l1), y, m',
             (map (fun m => (y, m)) l2
                ++ flat_map (fun y => map (fun m => (y, m)) months) ys).
      split; [|split; assumption].
      rewrite Hs, map_app, <- app_assoc. reflexivity.
Qed.

(** [main] goes through the twelve months of 2024 and then of 2025.  When
    no month raises, it prints one summary for each month whose input
    directory exists, in that order, and nothing for the others.  When a
    month raises, [main] stops there with that exception: the summaries
    of the earlier months have been printed and the later months are not
    processed. *)
Theorem main_prints_existing_months_until_one_raises
    (fs : Z -> string -> Tree) (printed : list Summary) :
  (forall u, main fs = (printed, Ok u) ->
     map summary_month printed = filter (present fs) schedule)
  /\ (forall e, main fs = (printed, Raise e) ->
        exists before y m after,
          schedule = before ++ (y, m) :: after
          /\ process_month (fs y m) y m = Raise e
          /\ map summary_month printed = filter (present fs) before).
Proof.
  unfold main, schedule.
  pose proof (main_years_spec fs years []) as H.
  split.
  - intros u E. rewrite E in H. exact H.
  - intros e E. rewrite E in H. exact H.
Qed.
End Cleaner.

(** ** Frames without a [pt] column *)

(** Without a [pt] column the conversion of publish times is never
    called: the parse is the same whatever [pd.to_datetime(_, unit="ms")]
    does, and every row it emits has no publish time. *)
Theorem parse_without_pt_column
    (to_datetime : json -> result timestamp)
    (ms1 ms2 : option Z -> result timestamp) (df : DataFrame) :
  has_column "pt" df = false ->
  parse_betfair_stream to_datetime ms1 df
  = parse_betfair_stream to_datetime ms2 df
  /\ (forall s,
        parse_betfair_stream to_datetime ms1 df = Ok s ->
        Forall (fun r => Market.publish_time r = None) (market_records s)
        /\ Forall (fun r => RunnerStatic.publish_time r = None)
                  (runner_static_records s)
        /\ Forall (fun r => RunnerChange.publish_time r = None)
                  (runner_change_records s)).
Proof.
  intros Hpt. split.
  - unfold parse_betfair_stream. destruct (empty df); [reflexivity|].
    apply for_each_ext. intros s row.
    unfold parse_row, publish_time_of. rewrite Hpt. reflexivity.
  - intros s H.
    destruct (parse_betfair_stream_blocks to_datetime ms1 df H)
      as (ems & -> & HF).
    rewrite Forall_forall in HF.
    assert (Hst : forall e, In e ems -> exists mid, stamped mid None e).
    { intros e He. destruct (HF e He) as (row & market & t & _ & _ & Ht & Hp).
      unfold publish_time_of in Ht. rewrite Hpt in Ht. injection Ht as <-.
      apply parse_market_stamped in Hp as (mid & _ & Hs).
      exists mid; assumption. }
    rewrite market_records_fold, runner_static_records_fold,
      runner_change_records_fold.
    repeat split; apply Forall_forall; intros r Hr;
      apply in_flat_map in Hr as (e & He & Hr);
      destruct (Hst e He) as (mid & (S1 & S2 & S3));
      rewrite Forall_forall in S1, S2, S3.
    + apply (S1 r Hr).
    + apply (S2 r Hr).
    + apply (S3 r Hr).
Qed.

(** ** The properties on the sample inputs *)

(** The example scenario: the two lines give one market row, one runner
    row and one price row. *)
Lemma example_scenario :
  parse_betfair_stream Sample.to_datetime Sample.to_datetime_ms Sample.frame
  = Ok Sample.streams.
Proof. reflexivity. Qed.

Lemma C1_witness :
  Forall (fun df => exact_frame df = true) [Sample.frame; Sample.later_frame]
  /\ create_reference_tables Sample.to_datetime
       [Sample.frame; Sample.later_frame]
     = Ok ([Sample.market_meta_row],
           [RunnerMeta.mk (JStr "1.23") (JStr "10") (JStr "A");
            RunnerMeta.mk (JStr "1.23") (JStr "11") (JStr "B")])
  /\ field Sample.later_definition "venue" = JStr "Ascot"
  /\ (exists before market after d,
        traversal_blocks [Sample.frame; Sample.later_frame]
        = (before ++ market :: after)%list
        /\ block_definition market = Some d
        /\ (forall m' d',
              In m' before -> block_definition m' = Some d' ->
              pandas_key (field m' "id") <> pandas_key (JStr "1.23"))
        /\ JStr "1.23" = field market "id"
        /\ JNull = field d "venue")
  /\ (exists r,
        In r [RunnerMeta.mk (JStr "1.23") (JStr "10") (JStr "A");
              RunnerMeta.mk (JStr "1.23") (JStr "11") (JStr "B")]
        /\ pandas_key (RunnerMeta.market_id r) = pandas_key (JStr "1.23")
        /\ pandas_key (RunnerMeta.runner_id r) = pandas_key (JStr "11"))
  /\ Forall (fun df => exact_frame df = true) [Sample.listed_id_frame]
  /\ create_reference_tables Sample.to_datetime [Sample.listed_id_frame]
     = Raise TypeError.
Proof.
  assert (E : Forall (fun df => exact_frame df = true)
                     [Sample.frame; Sample.later_frame])
    by (repeat constructor).
  assert (E' : Forall (fun df => exact_frame df = true)
                      [Sample.listed_id_frame])
    by (repeat constructor).
  split; [exact E|]. split; [reflexivity|]. split; [reflexivity|].
  destruct (proj1 (@C1_reference_tables_keep_first Sample.to_datetime
                     [Sample.frame; Sample.later_frame] E)
              [Sample.market_meta_row]
              [RunnerMeta.mk (JStr "1.23") (JStr "10") (JStr "A");
               RunnerMeta.mk (JStr "1.23") (JStr "11") (JStr "B")]
              eq_refl)
    as (_ & _ & Hfirst & _ & Hcover & _).
  split.
  - destruct (Hfirst Sample.market_meta_row (or_introl eq_refl))
      as (before & market & after & d & H1 & H2 & H3 & H4 & _ & _ & _ & _
          & _ & _ & H5 & _).
    exists before, market, after, d. repeat split; assumption.
  - split.
    + exact (Hcover (JObj [("id", JStr "1.23");
                           ("marketDefinition", Sample.later_definition)])
               Sample.later_definition
               (JObj [("id", JStr "11"); ("name", JStr "B");
                      ("status", JStr "ACTIVE")])
               (or_intror (or_intror (or_introl eq_refl))) eq_refl
               (or_intror (or_introl eq_refl))).
    + split; [exact E'|].
      exact (proj2 (@C1_reference_tables_keep_first Sample.to_datetime
                      [Sample.listed_id_frame] E')
               _ Sample.listed_id_block (JObj []) eq_refl
               (or_introl eq_refl) eq_refl eq_refl).
Defined.

Lemma C2_witness :
  exists out,
    process_month_output Sample.to_datetime Sample.to_datetime_ms
      Sample.py_int Sample.to_parquet Sample.shuffled_tree 2024 "Dec"
    = Ok (Some out)
    /\ flat_map (fun f => market_records
                            (file_streams Sample.to_datetime
                               Sample.to_datetime_ms f))
                [mkFile "s.bz2" (Ok Sample.shuffled_frame)]
       = [Sample.status_row "1.30" 9 "OPEN"; Sample.status_row "1.23" 8 "OPEN";
          Sample.status_row "1.30" 7 "OPEN";
          Sample.status_row "1.23" 6 "CLOSED"]
    /\ combined_markets out
       = [Sample.status_row "1.23" 6 "CLOSED";
          Sample.status_row "1.23" 8 "OPEN"; Sample.status_row "1.30" 9 "OPEN"]
    /\ NoDup (map (pandas_keys
                     (fun r => [Market.market_id r; Market.status r;
                                Market.in_play r; Market.version r]))
                  (combined_markets out))
    /\ StronglySorted
         (sorted_by (fun r => (Market.market_id r, Market.publish_time r)))
         (combined_markets out)
    /\ (forall r,
          In r (combined_markets out) ->
          find (same_cells
                  (fun x => [Market.market_id x; Market.status x;
                             Market.in_play x; Market.version x]) r)
               [Sample.status_row "1.30" 9 "OPEN";
                Sample.status_row "1.23" 8 "OPEN";
                Sample.status_row "1.30" 7 "OPEN";
                Sample.status_row "1.23" 6 "CLOSED"]
          = Some r)
    /\ (forall r,
          In r [Sample.status_row "1.30" 9 "OPEN";
                Sample.status_row "1.23" 8 "OPEN";
                Sample.status_row "1.30" 7 "OPEN";
                Sample.status_row "1.23" 6 "CLOSED"] ->
          exists r',
            In r' (combined_markets out)
            /\ map pandas_key
                 [Market.market_id r'; Market.status r'; Market.in_play r';
                  Market.version r']
               = map pandas_key
                   [Market.market_id r; Market.status r; Market.in_play r;
                    Market.version r]).
Proof.
  eexists. split; [vm_compute; reflexivity|].
  split; [reflexivity|]. split; [reflexivity|].
  match goal with
  | |- NoDup (map _ (combined_markets ?o)) /\ _ =>
      destruct (@C2_monthly_tables_deduplicated_and_sorted
                  Sample.to_datetime Sample.to_datetime_ms Sample.py_int
                  Sample.to_parquet Sample.shuffled_tree 2024%Z "Dec" o
                  eq_refl)
        as (dirs & days & b & written & Hdirs & Hdays & _ & Hb & _
            & (H1 & H2 & H3 & H4) & _)
  end.
  injection Hdirs as <-.
  injection Hdays as <-.
  change (List.concat (all_markets b)
          = [Sample.status_row "1.30" 9 "OPEN";
             Sample.status_row "1.23" 8 "OPEN";
             Sample.status_row "1.30" 7 "OPEN";
             Sample.status_row "1.23" 6 "CLOSED"]) in Hb.
  rewrite Hb in H2, H4.
  split; [exact H1|]. split; [exact (H3 eq_refl)|]. split; [exact H2|].
  exact (H4 eq_refl).
Defined.

Lemma C3_witness :
  day_rows Sample.to_datetime Sample.to_datetime_ms Sample.busy_day
  = [Sample.price_row "1.30" 5 10; Sample.price_row "1.23" 5 11;
     Sample.price_row "1.23" 5 12; Sample.price_row "1.23" 3 13;
     Sample.price_row "1.23" 5 14]
  /\ exists b table,
       process_days Sample.to_datetime Sample.to_datetime_ms
         Sample.to_parquet 2024 "Dec" [Sample.busy_day]
       = Ok (b, [(daily_file_name 2024 "Dec" "7", table)])
       /\ table
          = [Sample.price_row "1.23" 3 13; Sample.price_row "1.23" 5 11;
             Sample.price_row "1.23" 5 12; Sample.price_row "1.23" 5 14;
             Sample.price_row "1.30" 5 10]
       /\ exists day,
            In day [Sample.busy_day]
            /\ daily_file_name 2024 "Dec" "7"
               = daily_file_name 2024 "Dec" (name day)
            /\ Permutation table
                 (day_rows Sample.to_datetime Sample.to_datetime_ms day)
            /\ StronglySorted
                 (sorted_by (fun r => (RunnerChange.market_id r,
                                       RunnerChange.publish_time r)))
                 table
            /\ (forall k,
                  filter (tied_with
                            (fun r => (RunnerChange.market_id r,
                                       RunnerChange.publish_time r)) k)
                         table
                  = filter (tied_with
                              (fun r => (RunnerChange.market_id r,
                                         RunnerChange.publish_time r)) k)
                           (day_rows Sample.to_datetime Sample.to_datetime_ms
                                     day))
            /\ Sample.to_parquet (RunnerPrices table)
                 (daily_file_name 2024 "Dec" "7") = Ok tt.
Proof.
  split; [reflexivity|].
  eexists. eexists. split; [vm_compute; reflexivity|].
  split; [reflexivity|].
  match goal with
  | |- exists day, _ /\ _ /\ Permutation ?t _ /\ _ =>
      destruct (proj1 (proj2 (@C3_daily_table_sorted_and_stable
                                Sample.to_datetime Sample.to_datetime_ms
                                Sample.to_parquet 2024%Z "Dec"
                                [Sample.busy_day] _ _ eq_refl))
                  (daily_file_name 2024 "Dec" "7") t (or_introl eq_refl))
        as (day & Hday & Hname & Hperm & Hsorted & Hstable & Hwritten)
  end.
  exists day. split; [exact Hday|]. split; [exact Hname|].
  split; [exact Hperm|]. split; [|split; [exact Hstable | exact Hwritten]].
  apply Hsorted. destruct Hday as [<-|[]]. reflexivity.
Defined.

Lemma C4_witness :
  parse_betfair_stream Sample.to_datetime Sample.to_datetime_ms Sample.frame
  = Ok Sample.streams
  /\ exists row market e,
       emitted_by Sample.to_datetime Sample.to_datetime_ms Sample.frame row
         market (Some (Timestamp 1700000001000)) e
       /\ In Sample.change_row (runner_change_records e)
       /\ py_get market "id" = Ok (JStr "1.23").
Proof.
  split; [reflexivity|].
  destruct (@C4_rows_carry_block_id_and_record_time Sample.to_datetime
              Sample.to_datetime_ms Sample.frame Sample.streams eq_refl)
    as (_ & _ & H).
  apply (H Sample.change_row). left; reflexivity.
Defined.



Lemma C7_witness :
  file_fails Sample.to_datetime Sample.to_datetime_ms Sample.broken_file
  /\ read_betfair_bz2 Sample.broken_file = Ok empty_frame
  /\ map_result event_tables
       (process_days Sample.to_datetime Sample.to_datetime_ms
          Sample.to_parquet 2024 "Dec"
          ([] ++ mkDayDir "1" ([Sample.good_file] ++ Sample.broken_file :: [])
              :: [Sample.day2]))
     = map_result event_tables
         (process_days Sample.to_datetime Sample.to_datetime_ms
            Sample.to_parquet 2024 "Dec"
            ([] ++ mkDayDir "1" ([Sample.good_file] ++ []) :: [Sample.day2]))
  /\ (forall b,
        all_raw_dfs (process_file Sample.to_datetime Sample.to_datetime_ms b
                       Sample.broken_file)
        = all_raw_dfs b)
  /\ (forall b,
        all_raw_dfs (process_file Sample.to_datetime Sample.to_datetime_ms b
                       Sample.odd_file)
        = (all_raw_dfs b ++ [Sample.odd_frame])%list)
  /\ exists out,
       run_month Sample.to_datetime Sample.to_datetime_ms Sample.py_int
         Sample.to_parquet [mkDayDir "1" [Sample.odd_file]] [] 2024 "Dec"
       = Ok out
       /\ exists days b written,
            sorted_days Sample.py_int [mkDayDir "1" [Sample.odd_file]]
            = Ok days
            /\ process_days Sample.to_datetime Sample.to_datetime_ms
                 Sample.to_parquet 2024 "Dec" days = Ok (b, written)
            /\ create_reference_tables Sample.to_datetime (all_raw_dfs b)
               = Ok (market_ref out, runner_ref out)
            /\ In Sample.odd_frame (all_raw_dfs b).
Proof.
  assert (Hf : file_fails Sample.to_datetime Sample.to_datetime_ms
                 Sample.broken_file)
    by (left; exists OtherException; reflexivity).
  split; [exact Hf|].
  destruct (@C7_failed_file_adds_no_event_rows Sample.to_datetime
              Sample.to_datetime_ms Sample.py_int Sample.to_parquet
              Sample.broken_file)
    as (Hread & Hskip & Hraw & _).
  destruct (@C7_failed_file_adds_no_event_rows Sample.to_datetime
              Sample.to_datetime_ms Sample.py_int Sample.to_parquet
              Sample.odd_file)
    as (_ & _ & _ & Hkept & Hrun).
  split.
  - destruct Hread as (df & Hdf & _ & He).
    rewrite Hdf. f_equal. apply (He OtherException). reflexivity.
  - split.
    + exact (proj2 (Hskip Hf) 2024%Z "Dec" [] "1" [Sample.good_file] []
                   [Sample.day2]).
    + split; [intros b; exact (Hraw OtherException b eq_refl)|].
      split; [intros b; exact (Hkept Sample.odd_frame TypeError b eq_refl
                                 eq_refl)|].
      eexists. split; [vm_compute; reflexivity|].
      match goal with
      | |- exists days b written,
             _ /\ _ /\ _ = Ok (market_ref ?o, _) /\ _ =>
          destruct (Hrun [mkDayDir "1" [Sample.odd_file]] [] 2024%Z "Dec" o
                         eq_refl)
            as (days & b & written & H1 & H2 & H3 & H4)
      end.
      exists days, b, written.
      split; [exact H1|]. split; [exact H2|]. split; [exact H3|].
      apply (H4 (mkDayDir "1" [Sample.odd_file]) Sample.odd_frame TypeError);
        [left; reflexivity | left; reflexivity | reflexivity | reflexivity].
Defined.

Lemma C8_witness :
  process_month Sample.to_datetime Sample.to_datetime_ms Sample.py_int
    Sample.to_parquet Sample.missing_tree 2024 "Dec" = Ok None
  /\ (exists out,
        process_month_output Sample.to_datetime Sample.to_datetime_ms
          Sample.py_int Sample.to_parquet Sample.tree 2024 "Dec"
        = Ok (Some out)
        /\ Some (mkSummary 2024 "Dec" 1 2 1) = Some (summary out)
        /\ year (summary out) = 2024%Z
        /\ month (summary out) = "Dec"
        /\ num_markets (summary out) = List.length (market_ref out)
        /\ num_runners (summary out) = List.length (runner_ref out)
        /\ num_daily_files (summary out)
           = List.length
               (nodup string_dec
                  (daily_prices_dir Sample.tree
                   ++ map fst (daily_prices out))%list))
  /\ process_month Sample.to_datetime Sample.to_datetime_ms Sample.py_int
       Sample.to_parquet Sample.named_tree 2024 "Dec" = Raise ValueError
  /\ process_month Sample.to_datetime Sample.to_datetime_ms Sample.py_int
       Sample.failing_writer Sample.tree 2024 "Dec" = Raise OtherException
  /\ process_month Sample.to_datetime Sample.to_datetime_ms Sample.py_int
       Sample.to_parquet Sample.listed_id_tree 2024 "Dec" = Raise TypeError
  /\ process_month Sample.to_datetime Sample.to_datetime_ms Sample.py_int
       Sample.to_parquet Sample.listed_status_tree 2024 "Dec"
     = Raise TypeError.
Proof.
  split.
  - apply (proj1 (@C8_summary_skipped_or_raised Sample.to_datetime
                    Sample.to_datetime_ms Sample.py_int Sample.to_parquet
                    Sample.missing_tree 2024%Z "Dec")).
    reflexivity.
  - split.
    + exact (proj1 (proj2 (@C8_summary_skipped_or_raised Sample.to_datetime
                             Sample.to_datetime_ms Sample.py_int
                             Sample.to_parquet Sample.tree 2024%Z "Dec")
                          [Sample.day2; Sample.day1] eq_refl)
               (Some (mkSummary 2024 "Dec" 1 2 1)) eq_refl).
    + split.
      * exact (proj1 (proj2 (proj2 (@C8_summary_skipped_or_raised
                                      Sample.to_datetime Sample.to_datetime_ms
                                      Sample.py_int Sample.to_parquet
                                      Sample.named_tree 2024%Z "Dec")
                                   [mkDayDir "logs" []] eq_refl))
                 [] (mkDayDir "logs" []) [] ValueError eq_refl
                 (Forall_nil _) eq_refl).
      * split.
        -- exact (proj1 (proj2 (proj2 (proj2 (@C8_summary_skipped_or_raised
                                      Sample.to_datetime Sample.to_datetime_ms
                                      Sample.py_int Sample.failing_writer
                                      Sample.tree 2024%Z "Dec")
                                   [Sample.day2; Sample.day1] eq_refl))
                           [Sample.day1; Sample.day2] eq_refl)
                    OtherException eq_refl).
        -- split.
           ++ refine (proj1 (proj2 (proj2 (proj2 (proj2
                        (@C8_summary_skipped_or_raised
                           Sample.to_datetime Sample.to_datetime_ms
                           Sample.py_int Sample.to_parquet
                           Sample.listed_id_tree 2024%Z "Dec")
                        [mkDayDir "1" [mkFile "l.bz2"
                                         (Ok Sample.listed_id_frame)]]
                        eq_refl))
                      [mkDayDir "1" [mkFile "l.bz2"
                                       (Ok Sample.listed_id_frame)]]
                      eq_refl)
                    _ [] _) TypeError _);
                vm_compute; reflexivity.
           ++ refine (proj2 (proj2 (proj2 (proj2 (proj2
                        (@C8_summary_skipped_or_raised
                           Sample.to_datetime Sample.to_datetime_ms
                           Sample.py_int Sample.to_parquet
                           Sample.listed_status_tree 2024%Z "Dec")
                        [mkDayDir "1" [mkFile "s.bz2"
                                         (Ok Sample.listed_status_frame)]]
                        eq_refl))
                      [mkDayDir "1" [mkFile "s.bz2"
                                       (Ok Sample.listed_status_frame)]]
                      eq_refl)
                    _ [] _) _ _ _ _ _);
                [vm_compute; reflexivity | vm_compute; reflexivity
                | left; reflexivity | reflexivity].
Defined.

Lemma C9_witness :
  py_truthy (Sample.num 0) = false
  /\ py_truthy (JStr "") = false
  /\ lookup "removalDate" Sample.removed_fields = Some (Sample.num 0)
  /\ lookup "marketTime" Sample.untimed_fields = Some (JStr "")
  /\ (exists r,
        runner_static_record Sample.to_datetime (JStr "1.23") None
          (JObj Sample.removed_fields) = Ok r
        /\ RunnerStatic.removal_date r = None
        /\ runner_static_record Sample.to_datetime (JStr "1.23") None
             (JObj (remove_key "removalDate" Sample.removed_fields)) = Ok r)
  /\ (exists r,
        market_metadata_record Sample.to_datetime (JStr "1.23")
          (JObj Sample.untimed_fields) = Ok r
        /\ MarketMeta.market_time r = None
        /\ market_metadata_record Sample.to_datetime (JStr "1.23")
             (JObj (remove_key "marketTime" Sample.untimed_fields)) = Ok r).
Proof.
  repeat (split; [reflexivity|]).
  split.
  - apply (proj1 (@C9_falsy_timestamp_fields_are_null Sample.to_datetime
                    Sample.removed_fields (Sample.num 0) eq_refl)).
    reflexivity.
  - apply (proj2 (@C9_falsy_timestamp_fields_are_null Sample.to_datetime
                    Sample.untimed_fields (JStr "") eq_refl)).
    reflexivity.
Defined.


(** ** Runs that go beyond the written contract *)

(** Two blocks with definitions under the ids [1] and [true] leave one
    row, under [1] and with the fields of the first block; and a block
    with a definition whose id is a list makes the builder raise. *)
Lemma C1_counterexample :
  In Sample.one_block (traversal_blocks [Sample.mixed_ids_frame])
  /\ In Sample.true_block (traversal_blocks [Sample.mixed_ids_frame])
  /\ field Sample.one_block "id" = Sample.num 1
  /\ field Sample.true_block "id" = JBool true
  /\ block_definition Sample.true_block
     = Some (JObj [("name", JStr "second")])
  /\ create_reference_tables Sample.to_datetime [Sample.mixed_ids_frame]
     = Ok ([MarketMeta.mk (Sample.num 1) JNull JNull JNull (JStr "first")
              JNull None JNull JNull JNull], [])
  /\ In Sample.listed_id_block (traversal_blocks [Sample.listed_id_frame])
  /\ block_definition Sample.listed_id_block = Some (JObj [])
  /\ create_reference_tables Sample.to_datetime [Sample.listed_id_frame]
     = Raise TypeError.
Proof. repeat split; try reflexivity; simpl; auto. Qed.

(** A file whose parse raises still puts a row in the market reference:
    the month with the file has a market the month without it lacks. *)
Lemma C7_counterexample :
  file_fails Sample.to_datetime Sample.to_datetime_ms Sample.odd_file
  /\ (exists out,
        process_month_output Sample.to_datetime Sample.to_datetime_ms
          Sample.py_int Sample.to_parquet Sample.odd_tree 2024 "Dec"
        = Ok (Some out)
        /\ map MarketMeta.market_id (market_ref out) = [JStr "1.77"]
        /\ List.length (runner_ref out) = 1)
  /\ (exists out,
        process_month_output Sample.to_datetime Sample.to_datetime_ms
          Sample.py_int Sample.to_parquet Sample.odd_tree_without 2024 "Dec"
        = Ok (Some out)
        /\ market_ref out = []
        /\ runner_ref out = []).
Proof.
  split.
  - right. exists Sample.odd_frame, TypeError. split; reflexivity.
  - split; eexists; (split; [vm_compute; reflexivity|]); split; reflexivity.
Qed.

(** The month directory exists and no summary is returned: a
    sub-directory that is not named by an integer, a writer that rejects
    the daily table, a retained frame whose block is a number or has a
    list for id, and a definition whose status is a list, each make the
    run raise. *)
Lemma C8_counterexample :
  month_path Sample.named_tree <> None
  /\ process_month Sample.to_datetime Sample.to_datetime_ms Sample.py_int
       Sample.to_parquet Sample.named_tree 2024 "Dec" = Raise ValueError
  /\ month_path Sample.tree <> None
  /\ process_month Sample.to_datetime Sample.to_datetime_ms Sample.py_int
       Sample.failing_writer Sample.tree 2024 "Dec" = Raise OtherException
  /\ month_path Sample.number_tree <> None
  /\ process_month Sample.to_datetime Sample.to_datetime_ms Sample.py_int
       Sample.to_parquet Sample.number_tree 2024 "Dec" = Raise TypeError
  /\ month_path Sample.listed_id_tree <> None
  /\ process_month Sample.to_datetime Sample.to_datetime_ms Sample.py_int
       Sample.to_parquet Sample.listed_id_tree 2024 "Dec" = Raise TypeError
  /\ month_path Sample.listed_status_tree <> None
  /\ process_month Sample.to_datetime Sample.to_datetime_ms Sample.py_int
       Sample.to_parquet Sample.listed_status_tree 2024 "Dec"
     = Raise TypeError.
Proof.
  repeat split; try discriminate; vm_compute; reflexivity.
Qed.

(** ** The further properties on the sample inputs *)

Lemma one_bad_line_loses_the_file_witness :
  parse_row Sample.to_datetime Sample.to_datetime_ms Sample.half_bad_frame
    no_streams Sample.line1
  = Ok (mkStreams [Sample.market_row] [Sample.runner_row] [])
  /\ (exists e',
        parse_betfair_stream Sample.to_datetime Sample.to_datetime_ms
          Sample.half_bad_frame = Raise e')
  /\ (forall b,
        process_file Sample.to_datetime Sample.to_datetime_ms b
          Sample.half_bad_file
        = mkBuffers (all_markets b) (all_runner_static b)
            (all_raw_dfs b ++ [Sample.half_bad_frame])%list
            (day_runner_changes b))
  /\ exists out,
       process_month_output Sample.to_datetime Sample.to_datetime_ms
         Sample.py_int Sample.to_parquet
         (mkTree (Some [mkDayDir "1" [Sample.half_bad_file]]) []) 2024 "Dec"
       = Ok (Some out)
       /\ combined_markets out = []
       /\ map MarketMeta.market_id (market_ref out) = [JStr "1.23"]
       /\ exists days b written,
            sorted_days Sample.py_int [mkDayDir "1" [Sample.half_bad_file]]
            = Ok days
            /\ process_days Sample.to_datetime Sample.to_datetime_ms
                 Sample.to_parquet 2024 "Dec" days = Ok (b, written)
            /\ In Sample.half_bad_frame (all_raw_dfs b)
            /\ create_reference_tables Sample.to_datetime (all_raw_dfs b)
               = Ok (market_ref out, runner_ref out).
Proof.
  split; [reflexivity|].
  destruct (@one_bad_line_loses_the_file Sample.to_datetime
              Sample.to_datetime_ms Sample.py_int Sample.to_parquet
              Sample.half_bad_file Sample.half_bad_frame
              (mkRawRow (JList [JObj [("id", JStr "1.77");
                                      ("rc", Sample.num 5)]])
                        (Some 1700000003000%Z))
              TypeError eq_refl eq_refl (or_intror (or_introl eq_refl))
              eq_refl) as (H1 & H2 & H3).
  split; [exact H1|]. split; [exact H2|].
  eexists. split; [vm_compute; reflexivity|].
  split; [reflexivity|]. split; [reflexivity|].
  match goal with
  | |- exists days b written,
         _ /\ _ /\ _ /\ _ = Ok (market_ref ?o, _) =>
      exact (H3 (mkTree (Some [mkDayDir "1" [Sample.half_bad_file]]) [])
                2024%Z "Dec" o [mkDayDir "1" [Sample.half_bad_file]]
                (mkDayDir "1" [Sample.half_bad_file]) eq_refl
                (or_introl eq_refl) (or_introl eq_refl) eq_refl)
  end.
Defined.

Lemma block_rows_follow_entries_witness :
  exists e,
    parse_market Sample.to_datetime (Some (Timestamp 5)) no_streams
      Sample.full_block = Ok e
    /\ exists r,
         runner_static_record Sample.to_datetime (JStr "1.23")
           (Some (Timestamp 5)) Sample.runner_entry = Ok r
         /\ runner_static_records e = [r].
Proof.
  eexists. split; [vm_compute; reflexivity|].
  match goal with
  | |- exists r, _ /\ runner_static_records ?e = _ =>
      destruct (@block_rows_follow_entries Sample.to_datetime
                  (Some (Timestamp 5)) Sample.full_block e eq_refl)
        as (mid & Hid & Hdef & _)
  end.
  eexists. split; reflexivity.
Defined.

Lemma parse_betfair_stream_well_formed_witness :
  parse_ready_frame Sample.to_datetime Sample.frame = true
  /\ timed_frame Sample.to_datetime_ms Sample.frame = true
  /\ exists s,
       parse_betfair_stream Sample.to_datetime Sample.to_datetime_ms
         Sample.frame = Ok s.
Proof.
  split; [reflexivity|]. split; [reflexivity|].
  apply (@parse_betfair_stream_well_formed Sample.to_datetime
           Sample.to_datetime_ms Sample.frame); reflexivity.
Defined.

Lemma create_reference_tables_well_formed_witness :
  Forall (fun df => reference_ready_frame Sample.to_datetime df = true)
         [Sample.frame; Sample.later_frame]
  /\ exists market_ref runner_ref,
       create_reference_tables Sample.to_datetime
         [Sample.frame; Sample.later_frame]
       = Ok (market_ref, runner_ref).
Proof.
  assert (H : Forall (fun df => reference_ready_frame Sample.to_datetime df
                                = true)
                     [Sample.frame; Sample.later_frame])
    by (repeat constructor).
  split; [exact H|].
  exact (@create_reference_tables_well_formed Sample.to_datetime
           [Sample.frame; Sample.later_frame] H).
Defined.

Lemma days_in_numeric_order_or_int_raises_witness :
  (exists days,
     sorted_days Sample.py_int [Sample.day2; Sample.day1] = Ok days
     /\ Permutation days [Sample.day2; Sample.day1]
     /\ StronglySorted (day_before Sample.py_int) days)
  /\ sorted_days Sample.py_int [Sample.day1; mkDayDir "logs" []; Sample.day2]
     = Raise ValueError
  /\ process_month Sample.to_datetime Sample.to_datetime_ms Sample.py_int
       Sample.to_parquet Sample.named_tree 2024 "Dec" = Raise ValueError.
Proof.
  split.
  - apply (proj1 (@days_in_numeric_order_or_int_raises Sample.to_datetime
                    Sample.to_datetime_ms Sample.py_int Sample.to_parquet
                    Sample.tree 2024%Z "Dec" [Sample.day2; Sample.day1])).
    repeat constructor; eexists; vm_compute; reflexivity.
  - split.
    + refine (proj1 (proj2 (@days_in_numeric_order_or_int_raises
                       Sample.to_datetime Sample.to_datetime_ms Sample.py_int
                       Sample.to_parquet Sample.tree 2024%Z "Dec"
                       [Sample.day1; mkDayDir "logs" []; Sample.day2])
                [Sample.day1] (mkDayDir "logs" []) [Sample.day2] ValueError
                eq_refl _ eq_refl)).
      repeat constructor; eexists; vm_compute; reflexivity.
    + exact (proj2 (proj2 (@days_in_numeric_order_or_int_raises
                       Sample.to_datetime Sample.to_datetime_ms Sample.py_int
                       Sample.to_parquet Sample.named_tree 2024%Z "Dec"
                       [mkDayDir "logs" []])
                [] (mkDayDir "logs" []) [] ValueError
                eq_refl (Forall_nil _) eq_refl) eq_refl).
Defined.

Lemma daily_files_one_per_day_with_prices_witness :
  exists b written,
    process_days Sample.to_datetime Sample.to_datetime_ms Sample.to_parquet
      2024 "Dec" [Sample.day1; Sample.day2; Sample.busy_day]
    = Ok (b, written)
    /\ map fst written
       = [daily_file_name 2024 "Dec" "1"; daily_file_name 2024 "Dec" "7"]
    /\ (forall fname table, In (fname, table) written -> table <> [])
    /\ List.length written
       = List.length
           (filter (has_prices Sample.to_datetime Sample.to_datetime_ms)
                   [Sample.day1; Sample.day2; Sample.busy_day])
    /\ NoDup (map fst written).
Proof.
  eexists. eexists. split; [vm_compute; reflexivity|].
  split; [reflexivity|].
  match goal with
  | |- (forall fname table, In (fname, table) ?w -> _) /\ _ =>
      destruct (@daily_files_one_per_day_with_prices Sample.to_datetime
                  Sample.to_datetime_ms Sample.to_parquet 2024%Z "Dec"
                  [Sample.day1; Sample.day2; Sample.busy_day] _ w eq_refl)
        as (Hne & Hlen & Hnd)
  end.
  split; [exact Hne|]. split; [exact Hlen|].
  apply Hnd. repeat constructor; simpl; intuition discriminate.
Defined.

Lemma num_daily_files_counts_the_directory_witness :
  exists out,
    process_month_output Sample.to_datetime Sample.to_datetime_ms
      Sample.py_int Sample.to_parquet Sample.tree 2024 "Dec" = Ok (Some out)
    /\ exists days,
         sorted_days Sample.py_int [Sample.day2; Sample.day1] = Ok days
         /\ num_daily_files (summary out)
            = List.length
                (filter (has_prices Sample.to_datetime Sample.to_datetime_ms)
                        days).
Proof.
  eexists. split; [vm_compute; reflexivity|].
  match goal with
  | |- exists days, _ /\ num_daily_files (summary ?o) = _ =>
      destruct (@num_daily_files_counts_the_directory Sample.to_datetime
                  Sample.to_datetime_ms Sample.py_int Sample.to_parquet
                  Sample.tree 2024%Z "Dec" o eq_refl)
        as (_ & _ & H)
  end.
  apply H; [reflexivity | reflexivity |].
  repeat constructor; simpl; intuition discriminate.
Defined.

Lemma event_keys_have_reference_rows_witness :
  exact_month [Sample.day2; Sample.day1] = true
  /\ exists out,
       process_month_output Sample.to_datetime Sample.to_datetime_ms
         Sample.py_int Sample.to_parquet Sample.tree 2024 "Dec"
       = Ok (Some out)
       /\ In Sample.market_row (combined_markets out)
       /\ exists r',
            In r' (market_ref out)
            /\ pandas_key (MarketMeta.market_id r')
               = pandas_key (Market.market_id Sample.market_row)
            /\ (forall s, Market.market_id Sample.market_row = JStr s ->
                          MarketMeta.market_id r' = JStr s).
Proof.
  split; [reflexivity|].
  eexists. split; [vm_compute; reflexivity|].
  split; [left; reflexivity|].
  match goal with
  | |- exists r', In r' (market_ref ?o) /\ _ =>
      apply (proj1 (@event_keys_have_reference_rows Sample.to_datetime
                      Sample.to_datetime_ms Sample.py_int Sample.to_parquet
                      Sample.tree 2024%Z "Dec" o [Sample.day2; Sample.day1]
                      eq_refl eq_refl eq_refl))
  end.
  left; reflexivity.
Defined.

Lemma month_without_frames_witness :
  process_month Sample.to_datetime Sample.to_datetime_ms Sample.py_int
    Sample.to_parquet Sample.barren_tree 2024 "Dec"
  = Ok (Some (mkSummary 2024 "Dec" 0 0 1)).
Proof.
  unfold process_month.
  rewrite (@month_without_frames Sample.to_datetime Sample.to_datetime_ms
             Sample.py_int Sample.to_parquet
             Sample.barren_tree 2024%Z "Dec"
             [mkDayDir "1" [Sample.broken_file; Sample.empty_file]]
             [mkDayDir "1" [Sample.broken_file; Sample.empty_file]]
             eq_refl eq_refl).
  - reflexivity.
  - intros f [<-|[<-|[]]].
    + left. exists OtherException. reflexivity.
    + right. exists empty_frame. split; reflexivity.
Defined.

Lemma process_month_returns_on_well_formed_input_witness :
  exists s,
    process_month Sample.to_datetime Sample.to_datetime_ms Sample.py_int
      Sample.to_parquet Sample.tree 2024 "Dec" = Ok (Some s)
    /\ year s = 2024%Z /\ month s = "Dec".
Proof.
  apply (@process_month_returns_on_well_formed_input Sample.to_datetime
           Sample.to_datetime_ms Sample.py_int Sample.to_parquet
           Sample.tree 2024%Z "Dec" [Sample.day2; Sample.day1]).
  - reflexivity.
  - repeat constructor; eexists; vm_compute; reflexivity.
  - intros d f df [<-|[<-|[]]].
    + intros [<-|[]] H. injection H as <-. reflexivity.
    + intros [<-|[<-|[]]] H.
      * injection H as <-. reflexivity.
      * discriminate H.
  - reflexivity.
Defined.

Lemma monthly_dedup_idempotent_witness :
  dedup_markets
    [Sample.status_row "1.30" 9 "OPEN"; Sample.status_row "1.23" 8 "OPEN";
     Sample.status_row "1.30" 7 "OPEN"; Sample.status_row "1.23" 6 "CLOSED"]
  = Ok [Sample.status_row "1.23" 6 "CLOSED"; Sample.status_row "1.23" 8 "OPEN";
        Sample.status_row "1.30" 9 "OPEN"]
  /\ dedup_markets
       [Sample.status_row "1.23" 6 "CLOSED";
        Sample.status_row "1.23" 8 "OPEN"; Sample.status_row "1.30" 9 "OPEN"]
     = dedup_markets
         [Sample.status_row "1.30" 9 "OPEN"; Sample.status_row "1.23" 8 "OPEN";
          Sample.status_row "1.30" 7 "OPEN";
          Sample.status_row "1.23" 6 "CLOSED"].
Proof.
  split; [reflexivity|].
  exact (proj1 (@monthly_dedup_idempotent
                  [Sample.status_row "1.30" 9 "OPEN";
                   Sample.status_row "1.23" 8 "OPEN";
                   Sample.status_row "1.30" 7 "OPEN";
                   Sample.status_row "1.23" 6 "CLOSED"] [])).
Defined.

Lemma non_object_block_witness :
  parse_market Sample.to_datetime (Some (Timestamp 5)) no_streams
    (JList [JStr "id"]) = Raise AttributeError
  /\ reference_market Sample.to_datetime no_metadata (JList [JStr "id"])
     = Ok no_metadata.
Proof.
  apply (@non_object_block Sample.to_datetime (Some (Timestamp 5)) no_streams
           no_metadata (JList [JStr "id"])).
  reflexivity.
Defined.

Lemma main_prints_existing_months_until_one_raises_witness :
  map summary_month (fst (main Sample.to_datetime Sample.to_datetime_ms
                            Sample.py_int Sample.to_parquet
                            Sample.only_december))
  = [(2024%Z, "Dec")]
  /\ exists before y m after,
       schedule = (before ++ (y, m) :: after)%list
       /\ process_month Sample.to_datetime Sample.to_datetime_ms
            Sample.py_int Sample.to_parquet
            (Sample.bad_march y m) y m = Raise ValueError
       /\ map summary_month [mkSummary 2024 "Jan" 1 2 1]
          = filter (present Sample.bad_march) before.
Proof.
  split.
  - rewrite (proj1 (@main_prints_existing_months_until_one_raises
                      Sample.to_datetime Sample.to_datetime_ms
                      Sample.py_int Sample.to_parquet
                      Sample.only_december
                      (fst (main Sample.to_datetime Sample.to_datetime_ms
                              Sample.py_int Sample.to_parquet
                              Sample.only_december)))
               tt);
      vm_compute; reflexivity.
  - apply (proj2 (@main_prints_existing_months_until_one_raises
                    Sample.to_datetime Sample.to_datetime_ms
                    Sample.py_int Sample.to_parquet
                    Sample.bad_march [mkSummary 2024 "Jan" 1 2 1])
             ValueError).
    vm_compute; reflexivity.
Defined.

Lemma parse_without_pt_column_witness :
  parse_betfair_stream Sample.to_datetime (fun _ => Raise OtherException)
    Sample.untimed_frame
  = parse_betfair_stream Sample.to_datetime Sample.to_datetime_ms
      Sample.untimed_frame
  /\ exists s,
       parse_betfair_stream Sample.to_datetime (fun _ => Raise OtherException)
         Sample.untimed_frame = Ok s
       /\ Forall (fun r => RunnerChange.publish_time r = None)
            (runner_change_records s).
Proof.
  destruct (@parse_without_pt_column Sample.to_datetime
              (fun _ => Raise OtherException) Sample.to_datetime_ms
              Sample.untimed_frame eq_refl) as [Heq Hall].
  split; [exact Heq|].
  eexists. split; [vm_compute; reflexivity|].
  match goal with
  | |- Forall _ (runner_change_records ?s) =>
      apply (Hall s eq_refl)
  end.
Defined.
